(** * LP-BOT: the decision engine of [bot.py]

    A shallow embedding of the liquidity-reward bot: the market normalizer
    and scorer ([parse_market]), the ranker (the tail of
    [fetch_reward_markets]), the quote strategist ([place_lp_orders]), the
    fill-risk monitor ([check_fill_risk]) and the orchestrator
    ([handle_signal] and the rescan of [run_bot]).

    Numbers.  Python's [float] and [int] values are read as the rational
    numbers they denote; [nan] and the infinities are outside the model.
    The normalizer, the ranker and the first reading of the strategist,
    the monitor and the loop compute exactly, and numeric equality is
    [Qeq] ([==]).  Where the rounding of a sum decides a tick, a tier or
    whether two quotes cross, and where an exception of the display code
    leaves the loop, the modules [Strategist64], [Monitor64] and
    [Orchestrator64] give the same functions over binary64 ([B64]).

    Effects.  Exceptions are an explicit error sum ([result]); the calls on
    the external order client and the notification sink go through a state
    monad over a world that records every external call in order.

    The file has three parts: the embedding (definitions only), the
    properties the specification states, and further properties of the
    code. *)

From Stdlib Require Import ZArith QArith Qround Qabs Qminmax Qpower Lqa Lia.
From Stdlib Require Import List String Ascii Bool Sorted Permutation.
From Stdlib Require Import Morphisms Setoid.
Import ListNotations.
Set Warnings "-register-all".
Open Scope string_scope.
Open Scope list_scope.
Open Scope Q_scope.

(** * Part I: the embedding *)

(** ** Python numerics *)

Module PyNum.

(** [a < b] on numbers, as a boolean. *)
Definition ltb (a b : Q) : bool := negb (Qle_bool b a).

(** [max(a, b)]: the first argument unless the second is strictly
    greater. *)
Definition py_max (a b : Q) : Q := if ltb a b then b else a.

(** [min(a, b)]: the first argument unless the second is strictly
    smaller. *)
Definition py_min (a b : Q) : Q := if ltb b a then b else a.

(** Nearest integer, ties to the even one: the rounding rule of [round]. *)
Definition round_half_even (x : Q) : Z :=
  let f := Qfloor x in
  match Qcompare (x - inject_Z f) (1 # 2) with
  | Lt => f
  | Gt => (f + 1)%Z
  | Eq => if Z.even f then f else (f + 1)%Z
  end.

(** [10 ** n]. *)
Definition pow10 (n : nat) : Z := Z.pow 10 (Z.of_nat n).

(** [round(x, ndigits)] for a non-negative [ndigits]. *)
Definition py_round (x : Q) (ndigits : nat) : Q :=
  inject_Z (round_half_even (x * inject_Z (pow10 ndigits)))
  / inject_Z (pow10 ndigits).

(** The smallest magnitude [float] cannot take: [2 ** 1024 - 2 ** 970],
    from where on the nearest float would be an infinity. *)
Definition float_overflow : Q := inject_Z (2 ^ 1024 - 2 ^ 970).

End PyNum.
Import PyNum.

(** ** Python values and exceptions *)

Module Py.

(** The values a decoded JSON document is made of.  [int] and [float] are
    one constructor; a [dict] is an association list read from the left. *)
Inductive pyval : Type :=
| PNone
| PBool (b : bool)
| PNum (q : Q)
| PStr (s : string)
| PList (l : list pyval)
| PDict (d : list (string * pyval)).

Definition dict : Type := list (string * pyval).

(** The exception classes the modelled code can meet; all derive from
    [Exception]. *)
Inductive exn : Type :=
| TypeError
| ValueError
| IndexError
| KeyError
| AttributeError
| OverflowError
| ClientError.

(** A computation that returns or raises. *)
Inductive result (A : Type) : Type :=
| Ok (a : A)
| Raise (e : exn).

Arguments Ok {A} a.
Arguments Raise {A} e.

Definition bind {A B : Type} (c : result A) (k : A -> result B) : result B :=
  match c with
  | Ok a => k a
  | Raise e => Raise e
  end.

(** [try: c  except: handler] with a handler that cannot raise. *)
Definition try_except {A : Type} (c : result A) (handler : A) : A :=
  match c with
  | Ok a => a
  | Raise _ => handler
  end.

(** Truth value of an object in a boolean context. *)
Definition truthy (v : pyval) : bool :=
  match v with
  | PNone => false
  | PBool b => b
  | PNum q => negb (Qeq_bool q 0)
  | PStr s => negb (String.eqb s "")
  | PList l => match l with [] => false | _ => true end
  | PDict d => match d with [] => false | _ => true end
  end.

(** [a or b]. *)
Definition py_or (a b : pyval) : pyval := if truthy a then a else b.

Fixpoint dict_lookup (d : dict) (k : string) : option pyval :=
  match d with
  | [] => None
  | (k', v) :: d' => if String.eqb k' k then Some v else dict_lookup d' k
  end.

(** [d.get(k, default)]. *)
Definition dict_get (d : dict) (k : string) (default : pyval) : pyval :=
  match dict_lookup d k with
  | Some v => v
  | None => default
  end.

(** A [str] is held as its UTF-8 encoding; Python counts and indexes code
    points.  A byte [10xxxxxx] continues the code point before it. *)
Definition is_continuation (c : ascii) : bool :=
  let n := nat_of_ascii c in (128 <=? n)%nat && (n <? 192)%nat.

(** The number of code points. *)
Fixpoint utf8_length (s : string) : nat :=
  match s with
  | EmptyString => O
  | String c rest =>
      if is_continuation c then utf8_length rest
      else Datatypes.S (utf8_length rest)
  end.

(** The first [n] code points. *)
Fixpoint utf8_take (n : nat) (s : string) {struct s} : string :=
  match s with
  | EmptyString => EmptyString
  | String c rest =>
      if is_continuation c then String c (utf8_take n rest)
      else match n with
           | O => EmptyString
           | Datatypes.S n' => String c (utf8_take n' rest)
           end
  end.

(** What follows the first [n] code points. *)
Fixpoint utf8_drop (n : nat) (s : string) {struct s} : string :=
  match s with
  | EmptyString => EmptyString
  | String c rest =>
      if is_continuation c then utf8_drop n rest
      else match n with
           | O => s
           | Datatypes.S n' => utf8_drop n' rest
           end
  end.

(** [len(v)]. *)
Definition py_len (v : pyval) : result nat :=
  match v with
  | PStr s => Ok (utf8_length s)
  | PList l => Ok (List.length l)
  | PDict d => Ok (List.length d)
  | _ => Raise TypeError
  end.

(** [v[i]] for a non-negative integer [i].  The keys of a decoded JSON
    object are strings, so an integer subscript of a [dict] is a
    [KeyError]. *)
Definition py_getitem (v : pyval) (i : nat) : result pyval :=
  match v with
  | PList l =>
      match nth_error l i with
      | Some x => Ok x
      | None => Raise IndexError
      end
  | PStr s =>
      match utf8_take 1 (utf8_drop i s) with
      | EmptyString => Raise IndexError
      | c => Ok (PStr c)
      end
  | PDict _ => Raise KeyError
  | _ => Raise TypeError
  end.

(** What the interpreter and the standard library supply: [float] on a
    string (absent: [ValueError]), [json.loads] (absent: a decoding error),
    and the distance in days from the current instant to an end date,
    [(datetime.fromisoformat(d.replace("Z", "+00:00")) - now).total_seconds()
    / 86400] (absent: any exception of that expression). *)
Record Builtins : Type := {
  float_of_str : string -> option Q;
  json_loads : string -> option pyval;
  days_until : pyval -> option Q
}.

(** [float(v)]: an [int] beyond the range of [float] raises
    [OverflowError]. *)
Definition py_float (env : Builtins) (v : pyval) : result Q :=
  match v with
  | PNum q =>
      if Qle_bool float_overflow (Qabs q) then Raise OverflowError else Ok q
  | PBool b => Ok (if b then 1 else 0)
  | PStr s =>
      match float_of_str env s with
      | Some q => Ok q
      | None => Raise ValueError
      end
  | _ => Raise TypeError
  end.

(** [v[:n]] for a non-negative [n]: strings and lists can be sliced; a
    number or [None] cannot ([TypeError]), nor can a [dict] (an unhashable
    key, [TypeError], up to Python 3.11; from 3.12 on a missing key). *)
Definition py_slice (v : pyval) (n : nat) : result pyval :=
  match v with
  | PStr s => Ok (PStr (utf8_take n s))
  | PList l => Ok (PList (firstn n l))
  | _ => Raise TypeError
  end.

(** [v[:n]] returns. *)
Definition sliceable (v : pyval) : bool :=
  match v with
  | PStr _ | PList _ => true
  | _ => false
  end.

(** [v] is a string, so that [v[:n].ljust(n)] returns. *)
Definition is_text (v : pyval) : bool :=
  match v with
  | PStr _ => true
  | _ => false
  end.

End Py.
Import Py.

Declare Scope py_scope.
Delimit Scope py_scope with py.
Notation "x <- c ;; k" := (bind c (fun x => k))
  (at level 61, c at next level, right associativity) : py_scope.
Open Scope py_scope.

(** ** Data classes *)

(** [RewardMarket].  The identity fields hold whatever the raw record
    carried; a dataclass does not check its annotations. *)
Record RewardMarket : Type := {
  condition_id : pyval;
  question : pyval;
  slug : pyval;
  token_id_yes : pyval;
  token_id_no : pyval;
  end_date : pyval;
  days_to_resolution : Q;
  daily_reward : Q;
  max_spread : Q;
  min_size : Q;
  midpoint : Q;
  best_bid : Q;
  best_ask : Q;
  spread : Q;
  volume_24h : Q;
  liquidity : Q;
  competition_score : Q;
  risk_score : Q;
  reward_per_dollar : Q
}.

(** The values [risk_level] takes: the default ["LOW"] and the four tiers
    the monitor assigns. *)
Inductive RiskLevel : Type := LOW | CRITICAL | WARNING | WATCH | SAFE.

(** [ActivePosition]. *)
Record ActivePosition : Type := {
  market : RewardMarket;
  order_id_yes : option string;
  order_id_no : option string;
  our_bid_price : Q;
  our_ask_price : Q;
  size : Q;
  placed_at : string;
  fills_today : Z;
  rewards_earned : Q;
  risk_level : RiskLevel
}.

(** The module-level tunables, read from the environment at start-up. *)
Record Config : Type := {
  DEFAULT_SIZE_PER_MARKET : Q;
  MAX_MARKETS : Z;
  MIN_DAYS_TO_RESOLUTION : Z;
  MIN_DAILY_REWARD : Q;
  MAX_COMPETITION_SCORE : Q;
  FILL_ALERT_THRESHOLD : Q;
  SPREAD_SAFETY_MARGIN : Q;
  TELEGRAM_BOT_TOKEN : string;
  TELEGRAM_CHAT_ID : string
}.

(** The defaults of the source. *)
Definition default_config : Config := {|
  DEFAULT_SIZE_PER_MARKET := 500;
  MAX_MARKETS := 10;
  MIN_DAYS_TO_RESOLUTION := 14;
  MIN_DAILY_REWARD := 1;
  MAX_COMPETITION_SCORE := 70;
  FILL_ALERT_THRESHOLD := 0.02;
  SPREAD_SAFETY_MARGIN := 0.005;
  TELEGRAM_BOT_TOKEN := "";
  TELEGRAM_CHAT_ID := ""
|}.

(** ** Market normalizer and scorer: [parse_market] *)

Module Normalizer.

(** [float(d.get(k, 0) or 0)]. *)
Definition get_float (env : Builtins) (d : dict) (k : string) : result Q :=
  py_float env (py_or (dict_get d k (PNum 0)) (PNum 0)).

(** [float(d.get(k1, 0) or d.get(k2, 0) or 0)]. *)
Definition get_float2 (env : Builtins) (d : dict) (k1 k2 : string) : result Q :=
  py_float env
    (py_or (py_or (dict_get d k1 (PNum 0)) (dict_get d k2 (PNum 0))) (PNum 0)).

(** The loop over the nested [rewards] array: every entry that is a dict
    adds its daily rate, read under three names. *)
Fixpoint sum_daily_rates (env : Builtins) (rewards_arr : list pyval)
    (rewards_daily : Q) : result Q :=
  match rewards_arr with
  | [] => Ok rewards_daily
  | r :: rest =>
      match r with
      | PDict rd =>
          x <- py_float env
                 (py_or (py_or (py_or (dict_get rd "rewardsDailyRate" (PNum 0))
                                      (dict_get rd "dailyRate" (PNum 0)))
                               (dict_get rd "rewards_daily_rate" (PNum 0)))
                        (PNum 0)) ;;
          sum_daily_rates env rest (rewards_daily + x)
      | _ => sum_daily_rates env rest rewards_daily
      end
  end.

(** [float(prices[i]) if len(prices) > i else 0.5]. *)
Definition price_at (env : Builtins) (prices : pyval) (i : nat) : result Q :=
  n <- py_len prices ;;
  if (i <? n)%nat then (x <- py_getitem prices i ;; py_float env x)
  else Ok 0.5.

(** The [prices] list: [outcomePrices] decoded when it is a string (on a
    decoding error an even split), taken as it is otherwise. *)
Definition outcome_price_list (env : Builtins) (market : dict) : pyval :=
  let outcome_prices := dict_get market "outcomePrices" (PStr "[]") in
  match outcome_prices with
  | PStr s =>
      match json_loads env s with
      | Some v => v
      | None => PList [PNum 0.5; PNum 0.5]
      end
  | _ => outcome_prices
  end.

(** The body of the outer [try] of [parse_market]: [Ok None] is the early
    [return None], [Raise] an exception that reaches the outer handler.
    The two inner handlers (end date, outcome prices) are the fall-backs
    written out below. *)
Definition parse_market_body (env : Builtins) (market event : dict)
    : result (option RewardMarket) :=
  let clob_token_ids := dict_get market "clobTokenIds" PNone in
  if negb (truthy clob_token_ids) then Ok None else
  n <- py_len clob_token_ids ;;
  if (n <? 2)%nat then Ok None else
  token_id_yes <- py_getitem clob_token_ids 0 ;;
  token_id_no <- py_getitem clob_token_ids 1 ;;
  (* rewards info: camelCase, snake_case, incentive-prefixed *)
  max_spread <- get_float env market "rewardsMaxSpread" ;;
  min_size <- get_float env market "rewardsMinSize" ;;
  max_spread <- (if Qeq_bool max_spread 0
                 then get_float env market "rewards_max_spread"
                 else Ok max_spread) ;;
  min_size <- (if Qeq_bool min_size 0
               then get_float env market "rewards_min_size"
               else Ok min_size) ;;
  max_spread <- (if Qeq_bool max_spread 0
                 then get_float env market "max_incentive_spread"
                 else Ok max_spread) ;;
  min_size <- (if Qeq_bool min_size 0
               then get_float env market "min_incentive_size"
               else Ok min_size) ;;
  rewards_daily <- match dict_get market "rewards" (PList []) with
                   | PList rewards_arr => sum_daily_rates env rewards_arr 0
                   | _ => Ok 0
                   end ;;
  rewards_daily <- (if Qeq_bool rewards_daily 0
                    then get_float env market "rewardsDailyRate"
                    else Ok rewards_daily) ;;
  rewards_daily <- (if Qeq_bool rewards_daily 0
                    then get_float env market "rewards_daily_rate"
                    else Ok rewards_daily) ;;
  competitive <- get_float env market "competitive" ;;
  let max_spread := if ltb 1 max_spread then max_spread / 100 else max_spread in
  (* end date / resolution *)
  let end_date := py_or (py_or (dict_get market "endDate" PNone)
                               (dict_get event "endDate" PNone))
                        (dict_get market "end_date_iso" PNone) in
  let days_to_resolution :=
    if truthy end_date then
      match days_until env end_date with
      | Some d => py_max 0 d
      | None => 365
      end
    else 365 in
  (* prices *)
  let prices := outcome_price_list env market in
  yes_price <- price_at env prices 0 ;;
  no_price <- price_at env prices 1 ;;
  let midpoint := yes_price in
  (* volume and liquidity *)
  volume_24h <- get_float2 env market "volume24hr" "volume_num" ;;
  liquidity <- get_float2 env market "liquidity" "liquidityNum" ;;
  (* spread *)
  best_bid <- get_float env market "bestBid" ;;
  best_ask <- get_float env market "bestAsk" ;;
  let raw_book := ltb 0 best_bid && ltb 0 best_ask in
  let spread := if raw_book then best_ask - best_bid
                else if negb (Qeq_bool no_price 0)
                     then Qabs (yes_price - (1 - no_price)) else 0 in
  let best_bid := if raw_book then best_bid else yes_price - spread / 2 in
  let best_ask := if raw_book then best_ask else yes_price + spread / 2 in
  (* competition score *)
  let competition_score :=
    if ltb 0 rewards_daily
    then py_min 100 (liquidity / (rewards_daily * 100) * 10)
    else 100 in
  (* risk score *)
  let time_risk := py_max 0 (50 - days_to_resolution) * 2 in
  let price_risk := (1 - Qabs (midpoint - 0.5) * 2) * 50 in
  let volume_risk := py_min 50 (volume_24h / 1000 * 10) in
  let risk_score := py_min 100 ((time_risk + price_risk + volume_risk) / 3) in
  (* reward per dollar *)
  let capital_needed := if ltb 0 min_size then min_size * 2 else 100 in
  let reward_per_dollar :=
    if ltb 0 rewards_daily then rewards_daily / py_max capital_needed 1
    else 0 in
  Ok (Some {|
    condition_id := dict_get market "conditionId"
                      (dict_get market "condition_id" (PStr ""));
    question := dict_get market "question" (PStr "Unknown");
    slug := dict_get market "slug" (PStr "");
    token_id_yes := token_id_yes;
    token_id_no := token_id_no;
    end_date := end_date;
    days_to_resolution := days_to_resolution;
    daily_reward := rewards_daily;
    max_spread := max_spread;
    min_size := min_size;
    midpoint := midpoint;
    best_bid := best_bid;
    best_ask := best_ask;
    spread := spread;
    volume_24h := volume_24h;
    liquidity := liquidity;
    competition_score := competition_score;
    risk_score := risk_score;
    reward_per_dollar := reward_per_dollar
  |}).

(** [parse_market]: the outer [except Exception] turns every exception of
    the body into [None]. *)
Definition parse_market (env : Builtins) (market event : dict)
    : option RewardMarket :=
  try_except (parse_market_body env market event) None.

End Normalizer.
Import Normalizer.

(** ** Sorting and slicing of lists *)

Module PyList.

Section Sort.
Context {A : Type} (key : A -> Q) (reverse : bool).

(** [y] must stay in front of a new element [x]: its key is strictly
    smaller, or strictly greater under [reverse=True]. *)
Definition precedes (y x : A) : bool :=
  if reverse then ltb (key x) (key y) else ltb (key y) (key x).

(** Insertion in front of a sorted list whose elements all came later in
    the input: [x] passes the elements that strictly precede it and stops
    at the first one that does not, so it stays ahead of its ties. *)
Fixpoint insert_sorted (x : A) (l : list A) : list A :=
  match l with
  | [] => [x]
  | y :: l' => if precedes y x then y :: insert_sorted x l' else x :: l
  end.

(** [l.sort(key=key, reverse=reverse)]: the sort of the language is
    stable, also under [reverse=True], and the result of a stable sort is
    determined by the input, so it is given here by insertion. *)
Fixpoint py_sort (l : list A) : list A :=
  match l with
  | [] => []
  | x :: l' => insert_sorted x (py_sort l')
  end.

End Sort.

(** [l[:n]] for an integer [n] of either sign. *)
Definition slice_to {A : Type} (n : Z) (l : list A) : list A :=
  if (0 <=? n)%Z then firstn (Z.to_nat n) l
  else firstn (List.length l - Z.to_nat (- n)) l.

End PyList.
Import PyList.

(** ** Ranker: the filter and sort of [fetch_reward_markets] *)

Module Ranker.

(** The loop body over the downloaded records: keep what [parse_market]
    returns.  An instance of a dataclass is always true, so [if parsed]
    drops exactly the [None]s. *)
Fixpoint scan_markets (env : Builtins) (markets_raw : list dict)
    : list RewardMarket :=
  match markets_raw with
  | [] => []
  | market :: rest =>
      match parse_market env market [] with
      | Some parsed => parsed :: scan_markets env rest
      | None => scan_markets env rest
      end
  end.

(** [m.daily_reward > 0 and m.max_spread > 0]. *)
Definition has_rewards (m : RewardMarket) : bool :=
  ltb 0 (daily_reward m) && ltb 0 (max_spread m).

(** The three [continue] tests of the filter loop, negated. *)
Definition passes_filters (cfg : Config) (m : RewardMarket) : bool :=
  negb (ltb (days_to_resolution m) (inject_Z (MIN_DAYS_TO_RESOLUTION cfg)))
  && negb (ltb (daily_reward m) (MIN_DAILY_REWARD cfg))
  && negb (ltb (MAX_COMPETITION_SCORE cfg) (competition_score m)).

(** From [all_markets] to the returned list. *)
Definition rank_markets (cfg : Config) (all_markets : list RewardMarket)
    : list RewardMarket :=
  let reward_markets := filter has_rewards all_markets in
  let filtered := filter (passes_filters cfg) reward_markets in
  py_sort reward_per_dollar true filtered.

(** [fetch_reward_markets], given the records the paginated download
    delivered (the market-data service is an external collaborator). *)
Definition fetch_reward_markets (cfg : Config) (env : Builtins)
    (markets_raw : list dict) : list RewardMarket :=
  rank_markets cfg (scan_markets env markets_raw).

End Ranker.
Import Ranker.

(** ** Quote strategist: the price and size plan of [place_lp_orders]

    The plan in exact arithmetic; [Strategist64] below gives it over
    floats. *)

Module Strategist.

(** [max(0.01, min(0.99, p))]. *)
Definition clamp_price (p : Q) : Q := py_max 0.01 (py_min 0.99 p).

Definition bid_price (cfg : Config) (m : RewardMarket) : Q :=
  clamp_price
    (py_round (midpoint m - max_spread m + SPREAD_SAFETY_MARGIN cfg) 3).

Definition ask_price (cfg : Config) (m : RewardMarket) : Q :=
  clamp_price
    (py_round (midpoint m + max_spread m - SPREAD_SAFETY_MARGIN cfg) 3).

(** [size / p if p > 0 else 0], then [max(shares, min_shares)]. *)
Definition shares_for (size p min_shares : Q) : Q :=
  py_max (if ltb 0 p then size / p else 0) min_shares.

Definition bid_shares (cfg : Config) (m : RewardMarket) (size : Q) : Q :=
  shares_for size (bid_price cfg m) (min_size m).

Definition ask_shares (cfg : Config) (m : RewardMarket) (size : Q) : Q :=
  shares_for size (ask_price cfg m) (min_size m).

(** The NO side: a buy at [1 - ask_price], rounded and clamped again. *)
Definition no_bid_price (cfg : Config) (m : RewardMarket) : Q :=
  clamp_price (py_round (1 - ask_price cfg m) 3).

Definition no_shares (cfg : Config) (m : RewardMarket) (size : Q) : Q :=
  shares_for size (no_bid_price cfg m) (min_size m).

End Strategist.
Import Strategist.

(** ** The outside world: order client, midpoint service, notifications *)

Module World.

Inductive Side : Type := BUY | SELL.

(** [OrderArgs] of the order client. *)
Record OrderArgs : Type := {
  token_id : pyval;
  price : Q;
  order_size : Q;
  side : Side
}.

(** The two fields the bot reads from the response to a posted order. *)
Record PostResponse : Type := {
  orderID : option string;
  resp_id : option string
}.

(** The notifications the bot sends; the text layout is left out. *)
Inductive Message : Type :=
| MsgStarted
| MsgStopped
| MsgFillRisk (question : pyval) (current_mid bid bid_distance ask ask_distance : Q)
| MsgApproachingFill (question : pyval) (current_mid bid_distance ask_distance : Q)
| MsgPositionsUpdated (markets : nat) (capital total_reward : Q)
| MsgBotError (e : exn).

(** One call that leaves the process. *)
Inductive Call : Type :=
| CallPostOrder (o : OrderArgs)
| CallCancel (order_id : string)
| CallMidpoint (token : pyval)
| CallTelegram (m : Message).

(** The collaborators, as transitions of an unknown state [S]: signing and
    posting an order ([create_order] then [post_order]), [client.cancel],
    the midpoint request, the notification request and the clock.  Each
    may raise. *)
Record External (S : Type) : Type := {
  post_order : OrderArgs -> S -> result PostResponse * S;
  cancel : string -> S -> result unit * S;
  clob_midpoint : pyval -> S -> result pyval * S;
  telegram_post : Message -> S -> result unit * S;
  now_iso : S -> string
}.

Arguments post_order {S} _ _ _.
Arguments cancel {S} _ _ _.
Arguments clob_midpoint {S} _ _ _.
Arguments telegram_post {S} _ _ _.
Arguments now_iso {S} _ _.

(** The state threaded through the bot: the collaborators' state and the
    log of the calls made so far, oldest first. *)
Record world (S : Type) : Type := {
  ext_state : S;
  calls : list Call
}.

Arguments ext_state {S} _.
Arguments calls {S} _.

Definition M (S A : Type) : Type := world S -> A * world S.

Definition ret {S A : Type} (a : A) : M S A := fun w => (a, w).

Definition bindM {S A B : Type} (c : M S A) (k : A -> M S B) : M S B :=
  fun w => let (a, w') := c w in k a w'.

(** Make the call [c], answered by the transition [f]. *)
Definition call_ext {S R : Type} (c : Call) (f : S -> result R * S)
    : M S (result R) :=
  fun w =>
    let (r, s') := f (ext_state w) in
    (r, {| ext_state := s'; calls := calls w ++ [c] |}).

(** [for x in l: body(x)]. *)
Fixpoint for_each {S A : Type} (l : list A) (body : A -> M S unit) : M S unit :=
  match l with
  | [] => ret tt
  | x :: l' => bindM (body x) (fun _ => for_each l' body)
  end.

End World.
Import World.

Declare Scope world_scope.
Delimit Scope world_scope with world.
Notation "x <~ c ;; k" := (bindM c (fun x => k))
  (at level 61, c at next level, right associativity) : world_scope.
Notation "c ;;; k" := (bindM c (fun _ => k))
  (at level 61, right associativity) : world_scope.
Open Scope world_scope.

(** ** Order management *)

Module Orders.

Section WithWorld.
Context {S : Type} (X : External S) (cfg : Config).

(** [send_telegram]: nothing without credentials; a failed request is
    printed and dropped. *)
Definition send_telegram (message : Message) : M S unit :=
  if String.eqb (TELEGRAM_BOT_TOKEN cfg) "" || String.eqb (TELEGRAM_CHAT_ID cfg) ""
  then ret tt
  else r <~ call_ext (CallTelegram message) (telegram_post X message) ;;
       ret (try_except r tt).

(** Truth value of an optional order id: [None] and the empty string are
    false. *)
Definition held (order_id : option string) : bool :=
  match order_id with
  | Some s => negb (String.eqb s "")
  | None => false
  end.

(** [a or b] on optional order ids. *)
Definition id_or (a b : option string) : option string :=
  if held a then a else b.

(** One side of [place_lp_orders]: build the order, sign and post it, read
    the id; any exception leaves the id [None]. *)
Definition place_side (order : OrderArgs) : M S (option string) :=
  r <~ call_ext (CallPostOrder order) (post_order X order) ;;
  ret (try_except
         (resp <- r ;; Ok (id_or (orderID resp) (resp_id resp)))
         None).

(** [place_lp_orders]. *)
Definition place_lp_orders (m : RewardMarket) (size : Q)
    : M S (option string * option string) :=
  let buy_order := {| token_id := token_id_yes m;
                      price := bid_price cfg m;
                      order_size := bid_shares cfg m size;
                      side := BUY |} in
  let sell_order := {| token_id := token_id_no m;
                       price := no_bid_price cfg m;
                       order_size := no_shares cfg m size;
                       side := BUY |} in
  order_id_yes <~ place_side buy_order ;;
  order_id_no <~ place_side sell_order ;;
  ret (order_id_yes, order_id_no).

(** [cancel_order]: one call of [client.cancel]; success and failure are
    both only printed. *)
Definition cancel_order (order_id : string) : M S unit :=
  r <~ call_ext (CallCancel order_id) (cancel X order_id) ;;
  ret (try_except r tt).

(** [if order_id: cancel_order(client, order_id)]. *)
Definition cancel_if_held (order_id : option string) : M S unit :=
  match order_id with
  | Some s => if held order_id then cancel_order s else ret tt
  | None => ret tt
  end.

(** The body of the two cancellation loops. *)
Definition cancel_position (pos : ActivePosition) : M S unit :=
  cancel_if_held (order_id_yes pos) ;;;
  cancel_if_held (order_id_no pos).

End WithWorld.

(** The order ids [cancel_position] asks the client to cancel, in order:
    those whose truth test passes. *)
Definition held_ids (pos : ActivePosition) : list string :=
  (match order_id_yes pos with
   | Some s => if held (Some s) then [s] else []
   | None => []
   end)
  ++ (match order_id_no pos with
      | Some s => if held (Some s) then [s] else []
      | None => []
      end).

(** The two orders [place_lp_orders] submits for a market, in order. *)
Definition quote_calls (cfg : Config) (size : Q) (m : RewardMarket)
    : list Call :=
  [ CallPostOrder {| token_id := token_id_yes m;
                     price := bid_price cfg m;
                     order_size := bid_shares cfg m size;
                     side := BUY |};
    CallPostOrder {| token_id := token_id_no m;
                     price := no_bid_price cfg m;
                     order_size := no_shares cfg m size;
                     side := BUY |} ].

(** Calls that touch no order: midpoint reads and notifications. *)
Definition is_passive_call (c : Call) : bool :=
  match c with
  | CallMidpoint _ | CallTelegram _ => true
  | CallPostOrder _ | CallCancel _ => false
  end.

End Orders.
Import Orders.

(** ** Fill-risk monitor: [check_fill_risk]

    The monitor in exact arithmetic, the text of the alerts left out;
    [Monitor64] below gives it over floats, with the exception the text
    of an alert can raise. *)

Module Monitor.

(** The [if / elif / elif / else] chain on the two distances. *)
Definition fill_risk_level (T bid_distance ask_distance : Q) : RiskLevel :=
  if ltb bid_distance T || ltb ask_distance T then CRITICAL
  else if ltb bid_distance (T * 2) || ltb ask_distance (T * 2) then WARNING
  else if ltb bid_distance (T * 3) || ltb ask_distance (T * 3) then WATCH
  else SAFE.

(** The message built in the branch of a tier, if that branch builds one. *)
Definition alert_message (pos : ActivePosition) (current_mid : Q)
    (level : RiskLevel) : option Message :=
  let bid_distance := Qabs (current_mid - our_bid_price pos) in
  let ask_distance := Qabs (current_mid - our_ask_price pos) in
  match level with
  | CRITICAL =>
      Some (MsgFillRisk (question (market pos)) current_mid
              (our_bid_price pos) bid_distance (our_ask_price pos) ask_distance)
  | WARNING =>
      Some (MsgApproachingFill (question (market pos)) current_mid
              bid_distance ask_distance)
  | _ => None
  end.

Definition set_risk_level (pos : ActivePosition) (level : RiskLevel)
    : ActivePosition :=
  {| market := market pos;
     order_id_yes := order_id_yes pos;
     order_id_no := order_id_no pos;
     our_bid_price := our_bid_price pos;
     our_ask_price := our_ask_price pos;
     size := size pos;
     placed_at := placed_at pos;
     fills_today := fills_today pos;
     rewards_earned := rewards_earned pos;
     risk_level := level |}.

(** The tier of a position at a given midpoint. *)
Definition position_level (cfg : Config) (pos : ActivePosition)
    (current_mid : Q) : RiskLevel :=
  fill_risk_level (FILL_ALERT_THRESHOLD cfg)
    (Qabs (current_mid - our_bid_price pos))
    (Qabs (current_mid - our_ask_price pos)).

Section WithWorld.
Context {S : Type} (X : External S) (cfg : Config) (env : Builtins).

(** The inner [try]: ask for the midpoint of the YES token and read its
    ["mid"] field as a number; on any exception keep the midpoint of the
    snapshot. *)
Definition current_midpoint (m : RewardMarket) : M S Q :=
  r <~ call_ext (CallMidpoint (token_id_yes m)) (clob_midpoint X (token_id_yes m)) ;;
  ret (try_except
         (mid_resp <- r ;;
          match mid_resp with
          | PDict d => py_float env (dict_get d "mid" (PNum (midpoint m)))
          | _ => Raise AttributeError
          end)
         (midpoint m)).

(** One turn of the loop of [check_fill_risk]: the alert of this position,
    if any, and the position with its new [risk_level]. *)
Definition check_position (pos : ActivePosition)
    : M S (option Message * ActivePosition) :=
  current_mid <~ current_midpoint (market pos) ;;
  let level := position_level cfg pos current_mid in
  match alert_message pos current_mid level with
  | Some msg =>
      send_telegram X cfg msg ;;;
      ret (Some msg, set_risk_level pos level)
  | None => ret (None, set_risk_level pos level)
  end.

(** [check_fill_risk]: the alerts in order, and the positions as the loop
    leaves them. *)
Fixpoint check_fill_risk (positions : list ActivePosition)
    : M S (list Message * list ActivePosition) :=
  match positions with
  | [] => ret ([], [])
  | pos :: rest =>
      r <~ check_position pos ;;
      rs <~ check_fill_risk rest ;;
      ret (match fst r with
           | Some msg => msg :: fst rs
           | None => fst rs
           end, snd r :: snd rs)
  end.

End WithWorld.

End Monitor.
Import Monitor.

(** ** Orchestrator: [handle_signal] and the loop of [run_bot]

    The loop in exact arithmetic, its printing left out; [Orchestrator64]
    below gives the pass with what it prints, the exceptions printing can
    raise and the handler that catches them. *)

Module Orchestrator.

(** [risk_order] of [print_dashboard]. *)
Definition risk_order (l : RiskLevel) : Q :=
  match l with
  | CRITICAL => 0
  | WARNING => 1
  | WATCH => 2
  | SAFE => 3
  | LOW => 4
  end.

(** [scan_interval]. *)
Definition scan_interval : Q := 3600.

Section WithWorld.
Context {S : Type} (X : External S) (cfg : Config) (env : Builtins).

(** [handle_signal]: cancel what every position holds, notify, stop. *)
Definition handle_signal (positions : list ActivePosition) : M S unit :=
  for_each positions (cancel_position X) ;;;
  send_telegram X cfg MsgStopped.

(** One turn of the loop over [markets[:MAX_MARKETS]]: quote the market
    and build its position. *)
Definition open_position (m : RewardMarket) : M S ActivePosition :=
  ids <~ place_lp_orders X cfg m (DEFAULT_SIZE_PER_MARKET cfg) ;;
  fun w =>
    ({| market := m;
        order_id_yes := fst ids;
        order_id_no := snd ids;
        our_bid_price :=
          py_round (midpoint m - max_spread m + SPREAD_SAFETY_MARGIN cfg) 3;
        our_ask_price :=
          py_round (midpoint m + max_spread m - SPREAD_SAFETY_MARGIN cfg) 3;
        size := DEFAULT_SIZE_PER_MARKET cfg;
        placed_at := now_iso X (ext_state w);
        fills_today := 0%Z;
        rewards_earned := 0;
        risk_level := LOW |}, w).

Fixpoint open_positions (markets : list RewardMarket)
    : M S (list ActivePosition) :=
  match markets with
  | [] => ret []
  | m :: rest =>
      pos <~ open_position m ;;
      ps <~ open_positions rest ;;
      ret (pos :: ps)
  end.

Definition total_reward (positions : list ActivePosition) : Q :=
  fold_left (fun acc p => acc + daily_reward (market p)) positions 0.

(** The block under [if markets:], given the list the scan returned. *)
Definition refresh_positions (markets : list RewardMarket)
    (positions : list ActivePosition) : M S (list ActivePosition) :=
  match markets with
  | [] => ret positions
  | _ :: _ =>
      (match positions with
       | [] => ret tt
       | _ :: _ => for_each positions (cancel_position X)
       end) ;;;
      positions <~ open_positions (slice_to (MAX_MARKETS cfg) markets) ;;
      send_telegram X cfg
        (MsgPositionsUpdated (List.length positions)
           (DEFAULT_SIZE_PER_MARKET cfg * inject_Z (Z.of_nat (List.length positions)))
           (total_reward positions)) ;;;
      ret positions
  end.

(** [now - last_scan > scan_interval or not positions]. *)
Definition rescan_due (now last_scan : Q) (positions : list ActivePosition)
    : bool :=
  ltb scan_interval (now - last_scan)
  || match positions with [] => true | _ => false end.

(** One pass of the [while running] loop, sleep excluded: [markets_raw] is
    what the download delivers should this pass scan.  Returns the
    position list and [last_scan] as the pass leaves them. *)
Definition run_bot_iteration (now last_scan : Q) (markets_raw : list dict)
    (positions : list ActivePosition) : M S (list ActivePosition * Q) :=
  st <~ (if rescan_due now last_scan positions
         then ps <~ refresh_positions
                      (fetch_reward_markets cfg env markets_raw) positions ;;
              ret (ps, now)
         else ret (positions, last_scan)) ;;
  match fst st with
  | [] => ret st
  | _ :: _ =>
      r <~ check_fill_risk X cfg env (fst st) ;;
      (* print_dashboard sorts the shared list in place *)
      ret (py_sort (fun p => risk_order (risk_level p)) false (snd r), snd st)
  end.

End WithWorld.

End Orchestrator.
Import Orchestrator.

(** ** Sample data

    Concrete records, configurations and collaborators on which the
    properties of Part II are exercised. *)

Module Samples.

(** A market snapshot with the given pricing terms and nothing else of
    note. *)
Definition sample_market (mid max_sp min_sz : Q) : RewardMarket := {|
  condition_id := PStr "0xc0ffee";
  question := PStr "Will it rain tomorrow?";
  slug := PStr "rain-tomorrow";
  token_id_yes := PStr "1001";
  token_id_no := PStr "1002";
  end_date := PNone;
  days_to_resolution := 365;
  daily_reward := 5;
  max_spread := max_sp;
  min_size := min_sz;
  midpoint := mid;
  best_bid := mid;
  best_ask := mid;
  spread := 0;
  volume_24h := 0;
  liquidity := 0;
  competition_score := 0;
  risk_score := 0;
  reward_per_dollar := 5 / 100
|}.

(** A scored market for the ranker: question, daily reward, days to
    resolution, competition score and reward per dollar. *)
Definition scored_market (q : string) (reward days comp rpd : Q)
    : RewardMarket := {|
  condition_id := PStr "0xc0ffee";
  question := PStr q;
  slug := PStr q;
  token_id_yes := PStr "1001";
  token_id_no := PStr "1002";
  end_date := PNone;
  days_to_resolution := days;
  daily_reward := reward;
  max_spread := 0.03;
  min_size := 50;
  midpoint := 0.5;
  best_bid := 0.49;
  best_ask := 0.51;
  spread := 0.02;
  volume_24h := 0;
  liquidity := 0;
  competition_score := comp;
  risk_score := 25;
  reward_per_dollar := rpd
|}.

(** Five markets: [b] and [d] tie on reward per dollar, [c] resolves too
    soon for the default filters. *)
Definition sample_markets : list RewardMarket :=
  [ scored_market "a" 2 30 10 0.02;
    scored_market "b" 5 30 10 0.05;
    scored_market "c" 9 3 10 0.09;
    scored_market "d" 5 60 40 0.05;
    scored_market "e" 7 90 20 0.07 ].

(** A position quoted at [bid] and [ask] on a market whose snapshot
    midpoint is 0.5, holding the given order ids. *)
Definition sample_position (bid ask : Q) (yes no : option string)
    : ActivePosition := {|
  market := sample_market 0.5 0.1 20;
  order_id_yes := yes;
  order_id_no := no;
  our_bid_price := bid;
  our_ask_price := ask;
  size := 500;
  placed_at := "2025-01-01T00:00:00+00:00";
  fills_today := 0%Z;
  rewards_earned := 0;
  risk_level := LOW
|}.

(** Built-ins for the samples: decimal strings are not needed (numbers are
    given decoded), only the default text of [outcomePrices] is decoded,
    and no end date can be read. *)
Definition sample_env : Builtins := {|
  float_of_str := fun _ => None;
  json_loads := fun s => if String.eqb s "[]" then Some (PList []) else None;
  days_until := fun _ => None
|}.

(** Collaborators whose state counts the calls answered: orders are
    accepted, every cancellation fails, the midpoint service reports 0.5
    and notifications are delivered. *)
Definition sample_client : External nat := {|
  post_order := fun _ n =>
    (Ok {| orderID := Some "0xfeed"; resp_id := None |}, Datatypes.S n);
  cancel := fun _ n => (Raise ClientError, Datatypes.S n);
  clob_midpoint := fun _ n => (Ok (PDict [("mid", PNum 0.5)]), Datatypes.S n);
  telegram_post := fun _ n => (Ok tt, Datatypes.S n);
  now_iso := fun _ => "2025-01-01T00:00:00+00:00"
|}.

Definition fresh_world : world nat := {| ext_state := 0%nat; calls := [] |}.

(** Three positions: both ids held, only the NO id held, and an empty
    string next to a missing id. *)
Definition sample_positions : list ActivePosition :=
  [ sample_position 0.405 0.595 (Some "0xa1") (Some "0xa2");
    sample_position 0.405 0.595 None (Some "0xb2");
    sample_position 0.405 0.595 (Some "") None ].

(** A raw record as the market-data service delivers it, numbers already
    decoded, without top-of-book fields: spread in cents notation, prices
    0.4 and 0.7. *)
Definition sample_raw : dict :=
  [ ("conditionId", PStr "0xc0ffee");
    ("question", PStr "Will it rain tomorrow?");
    ("clobTokenIds", PList [PStr "1001"; PStr "1002"]);
    ("rewardsMaxSpread", PNum 5);
    ("rewardsMinSize", PNum 50);
    ("rewardsDailyRate", PNum 10);
    ("outcomePrices", PList [PNum 0.4; PNum 0.7]);
    ("volume24hr", PNum 2000);
    ("liquidity", PNum 5000) ].

(** The same record with a top of book that is not centred on the first
    outcome price. *)
Definition sample_raw_with_book : dict :=
  ("bestBid", PNum 0.1) :: ("bestAsk", PNum 0.2) :: sample_raw.

(** A record with a negative liquidity figure and a first outcome price
    of 3. *)
Definition sample_raw_out_of_range : dict :=
  [ ("clobTokenIds", PList [PStr "1001"; PStr "1002"]);
    ("rewardsMaxSpread", PNum 5);
    ("rewardsDailyRate", PNum 1);
    ("outcomePrices", PList [PNum 3; PNum 0.5]);
    ("liquidity", PNum (-1000)) ].

(** Records the normalizer rejects: no token list, a one-element list, a
    number in place of the list, and a reward rate that is not a number. *)
Definition sample_raw_no_tokens : dict :=
  [ ("question", PStr "Will it rain tomorrow?"); ("rewardsDailyRate", PNum 10) ].

Definition sample_raw_one_token : dict :=
  ("clobTokenIds", PList [PStr "1001"]) :: sample_raw_no_tokens.

Definition sample_raw_bad_tokens : dict :=
  ("clobTokenIds", PNum 7) :: sample_raw_no_tokens.

Definition sample_raw_bad_rate : dict :=
  [ ("clobTokenIds", PList [PStr "1001"; PStr "1002"]);
    ("rewardsDailyRate", PList [PNum 10]) ].

End Samples.
Import Samples.

(** ** The paginated download of [fetch_reward_markets] *)

Module Download.

(** [limit]. *)
Definition limit : nat := 100.

(** The [while True] loop, [fuel] passes at most: [gamma_get offset] is
    the answer of the market-data service to the request at that offset
    (each offset is requested at most once in a scan), a decoded array of
    records or an exception.  [None] stands for a loop still running when
    the fuel is spent. *)
Fixpoint scan_pages (env : Builtins) (gamma_get : nat -> result (list dict))
    (fuel offset : nat) (all_markets : list RewardMarket)
    : option (list RewardMarket) :=
  match fuel with
  | O => None
  | Datatypes.S fuel' =>
      match gamma_get offset with
      | Raise _ => Some all_markets
      | Ok markets_raw =>
          match markets_raw with
          | [] => Some all_markets
          | _ :: _ =>
              let all_markets := all_markets ++ scan_markets env markets_raw in
              if (List.length markets_raw <? limit)%nat then Some all_markets
              else scan_pages env gamma_get fuel' (offset + limit) all_markets
          end
      end
  end.

(** [fetch_reward_markets] with its download loop. *)
Definition fetch_reward_markets_paged (cfg : Config) (env : Builtins)
    (gamma_get : nat -> result (list dict)) (fuel : nat)
    : option (list RewardMarket) :=
  option_map (rank_markets cfg) (scan_pages env gamma_get fuel 0%nat []).

(** The records of the page at an offset; none when the request fails. *)
Definition page_records (gamma_get : nat -> result (list dict)) (offset : nat)
    : list dict :=
  match gamma_get offset with
  | Ok markets_raw => markets_raw
  | Raise _ => []
  end.

(** The page at an offset ends the loop: a failed request, an empty page
    or a page shorter than [limit]. *)
Definition last_page (gamma_get : nat -> result (list dict)) (offset : nat)
    : bool :=
  match gamma_get offset with
  | Ok markets_raw => (List.length markets_raw <? limit)%nat
  | Raise _ => true
  end.

End Download.
Import Download.

(** ** What the normalizer reads, and kinds of calls *)

Module Reads.

(** The keys [parse_market] looks up in the raw market record. *)
Definition market_keys : list string :=
  [ "clobTokenIds"; "rewardsMaxSpread"; "rewardsMinSize";
    "rewards_max_spread"; "rewards_min_size"; "max_incentive_spread";
    "min_incentive_size"; "rewards"; "rewardsDailyRate";
    "rewards_daily_rate"; "competitive"; "endDate"; "end_date_iso";
    "outcomePrices"; "volume24hr"; "volume_num"; "liquidity";
    "liquidityNum"; "bestBid"; "bestAsk"; "conditionId"; "condition_id";
    "question"; "slug" ].

(** Both notification credentials are set. *)
Definition telegram_enabled (cfg : Config) : bool :=
  negb (String.eqb (TELEGRAM_BOT_TOKEN cfg) ""
        || String.eqb (TELEGRAM_CHAT_ID cfg) "").

Definition is_midpoint_call (c : Call) : bool :=
  match c with CallMidpoint _ => true | _ => false end.

Definition is_telegram_call (c : Call) : bool :=
  match c with CallTelegram _ => true | _ => false end.

(** What the monitor leaves untouched in a position: everything but
    [risk_level]. *)
Definition same_but_level (p p' : ActivePosition) : Prop :=
  exists level : RiskLevel, level <> LOW /\ p' = set_risk_level p level.

End Reads.
Import Reads.

(** ** More sample data *)

Module MoreSamples.

(** [n] copies of the sample record. *)
Definition full_page : list dict := repeat sample_raw 100.

(** A service with two full pages, then a page of three records, then
    failures. *)
Definition sample_service (offset : nat) : result (list dict) :=
  if (offset =? 0)%nat then Ok full_page
  else if (offset =? 100)%nat then Ok full_page
  else if (offset =? 200)%nat then Ok [sample_raw; sample_raw_with_book; sample_raw]
  else Raise ClientError.

(** The sample record with its fields in reverse order and one more
    field. *)
Definition sample_raw_reordered : dict :=
  ("note", PStr "extra") :: rev sample_raw.

(** Collaborators that fail at every call. *)
Definition failing_client : External nat := {|
  post_order := fun _ n => (Raise ClientError, Datatypes.S n);
  cancel := fun _ n => (Raise ClientError, Datatypes.S n);
  clob_midpoint := fun _ n => (Raise ClientError, Datatypes.S n);
  telegram_post := fun _ n => (Raise ClientError, Datatypes.S n);
  now_iso := fun _ => "2025-01-01T00:00:00+00:00"
|}.

(** The default configuration with notification credentials. *)
Definition notifying_config : Config := {|
  DEFAULT_SIZE_PER_MARKET := 500;
  MAX_MARKETS := 10;
  MIN_DAYS_TO_RESOLUTION := 14;
  MIN_DAILY_REWARD := 1;
  MAX_COMPETITION_SCORE := 70;
  FILL_ALERT_THRESHOLD := 0.02;
  SPREAD_SAFETY_MARGIN := 0.005;
  TELEGRAM_BOT_TOKEN := "token";
  TELEGRAM_CHAT_ID := "chat"
|}.

(** Thresholds that let every rewarded market through. *)
Definition lenient_config : Config := {|
  DEFAULT_SIZE_PER_MARKET := 500;
  MAX_MARKETS := 10;
  MIN_DAYS_TO_RESOLUTION := 0;
  MIN_DAILY_REWARD := 0;
  MAX_COMPETITION_SCORE := 100;
  FILL_ALERT_THRESHOLD := 0.02;
  SPREAD_SAFETY_MARGIN := 0.005;
  TELEGRAM_BOT_TOKEN := "";
  TELEGRAM_CHAT_ID := ""
|}.


(** The default configuration with [MAX_MARKETS] at -2. *)
Definition trimming_config : Config := {|
  DEFAULT_SIZE_PER_MARKET := 500;
  MAX_MARKETS := (-2);
  MIN_DAYS_TO_RESOLUTION := 14;
  MIN_DAILY_REWARD := 1;
  MAX_COMPETITION_SCORE := 70;
  FILL_ALERT_THRESHOLD := 0.02;
  SPREAD_SAFETY_MARGIN := 0.005;
  TELEGRAM_BOT_TOKEN := "";
  TELEGRAM_CHAT_ID := ""
|}.

End MoreSamples.
Import MoreSamples.

(** ** Binary64 arithmetic

    The quote strategist, the monitor and the loop are given a second time
    over Python's [float], where the rounding of a sum decides a tick, a
    tier or whether two quotes cross.  A finite [float] is the rational
    number it denotes; an operation returns the float nearest to the exact
    result, ties to the even significand (53 bits, gradual underflow from
    [2 ** -1074]).  Results beyond the largest float, where Python
    yields an infinity, are outside the model, as are [nan] and the
    infinities themselves. *)

Module B64.

(** [2 ** e]. *)
Definition pow2 (e : Z) : Q := 2 ^ e.

(** The binary exponent of a positive number: the [e] with
    [2 ** e <= x < 2 ** (e + 1)]. *)
Definition Qlog2 (x : Q) : Z :=
  let e0 := (Z.log2 (Qnum x) - Z.log2 (Z.pos (Qden x)))%Z in
  if Qle_bool (pow2 e0) x then e0 else (e0 - 1)%Z.

(** The exponent of the last place of the floats around a positive [x]. *)
Definition fexp (x : Q) : Z := Z.max (Qlog2 x - 52) (-1074).

(** The float nearest to a positive number. *)
Definition round_pos (x : Q) : Q :=
  inject_Z (round_half_even (x / pow2 (fexp x))) * pow2 (fexp x).

(** The float nearest to a number. *)
Definition b64 (x : Q) : Q :=
  match Qcompare x 0 with
  | Eq => 0
  | Gt => round_pos x
  | Lt => - round_pos (- x)
  end.

(** [x + y], [x - y], [x * y] and [x / y] (for a non-zero [y]) on
    floats. *)
Definition fadd (x y : Q) : Q := b64 (x + y).
Definition fsub (x y : Q) : Q := b64 (x - y).
Definition fmul (x y : Q) : Q := b64 (x * y).
Definition fdiv (x y : Q) : Q := b64 (x / y).

(** [round(x, ndigits)] on a float: the decimal with [ndigits] places
    nearest to the value of [x], ties to the even last digit, read back as
    the nearest float. *)
Definition fround (x : Q) (ndigits : nat) : Q := b64 (py_round x ndigits).

(** [float(v)] with its result a float. *)
Definition to_float (env : Builtins) (v : pyval) : result Q :=
  x <- py_float env v ;; Ok (b64 x).

End B64.
Import B64.

(** ** The quote strategist over floats: [place_lp_orders] *)

Module Strategist64.

(** [max(0.01, min(0.99, p))]; the bounds are the floats of the two
    literals. *)
Definition clamp_price (p : Q) : Q := py_max (b64 0.01) (py_min (b64 0.99) p).

(** [mid - max_sp + SPREAD_SAFETY_MARGIN], evaluated left to right. *)
Definition raw_bid (cfg : Config) (m : RewardMarket) : Q :=
  fadd (fsub (midpoint m) (max_spread m)) (SPREAD_SAFETY_MARGIN cfg).

(** [mid + max_sp - SPREAD_SAFETY_MARGIN]. *)
Definition raw_ask (cfg : Config) (m : RewardMarket) : Q :=
  fsub (fadd (midpoint m) (max_spread m)) (SPREAD_SAFETY_MARGIN cfg).

Definition bid_price (cfg : Config) (m : RewardMarket) : Q :=
  clamp_price (fround (raw_bid cfg m) 3).

Definition ask_price (cfg : Config) (m : RewardMarket) : Q :=
  clamp_price (fround (raw_ask cfg m) 3).

(** [size / p if p > 0 else 0], then [max(shares, min_shares)]. *)
Definition shares_for (size p min_shares : Q) : Q :=
  py_max (if ltb 0 p then fdiv size p else 0) min_shares.

Definition bid_shares (cfg : Config) (m : RewardMarket) (size : Q) : Q :=
  shares_for size (bid_price cfg m) (min_size m).

Definition ask_shares (cfg : Config) (m : RewardMarket) (size : Q) : Q :=
  shares_for size (ask_price cfg m) (min_size m).

(** The NO side: a buy at [1 - ask_price], rounded and clamped again. *)
Definition no_bid_price (cfg : Config) (m : RewardMarket) : Q :=
  clamp_price (fround (fsub 1 (ask_price cfg m)) 3).

Definition no_shares (cfg : Config) (m : RewardMarket) (size : Q) : Q :=
  shares_for size (no_bid_price cfg m) (min_size m).

(** The float of the price [k / 1000]. *)
Definition tick (k : Z) : Q := b64 (inject_Z k / 1000).

(** Every tick from [lo] on, [n] of them, passes a test. *)
Fixpoint ticks_all (test : Z -> bool) (lo : Z) (n : nat) : bool :=
  match n with
  | O => true
  | Datatypes.S n' => test lo && ticks_all test (lo + 1)%Z n'
  end.

(** The two orders [place_lp_orders] submits for a market, in order. *)
Definition quote_calls (cfg : Config) (size : Q) (m : RewardMarket)
    : list Call :=
  [ CallPostOrder {| token_id := token_id_yes m;
                     price := bid_price cfg m;
                     order_size := bid_shares cfg m size;
                     side := BUY |};
    CallPostOrder {| token_id := token_id_no m;
                     price := no_bid_price cfg m;
                     order_size := no_shares cfg m size;
                     side := BUY |} ].

Section WithWorld.
Context {S : Type} (X : External S) (cfg : Config).

(** [place_lp_orders]. *)
Definition place_lp_orders (m : RewardMarket) (size : Q)
    : M S (option string * option string) :=
  let buy_order := {| token_id := token_id_yes m;
                      price := bid_price cfg m;
                      order_size := bid_shares cfg m size;
                      side := BUY |} in
  let sell_order := {| token_id := token_id_no m;
                       price := no_bid_price cfg m;
                       order_size := no_shares cfg m size;
                       side := BUY |} in
  order_id_yes <~ place_side X buy_order ;;
  order_id_no <~ place_side X sell_order ;;
  ret (order_id_yes, order_id_no).

End WithWorld.

End Strategist64.

(** ** The fill-risk monitor over floats: [check_fill_risk] *)

Module Monitor64.

(** The [if / elif / elif / else] chain on the two distances, against the
    threshold and its products [T * 2] and [T * 3]. *)
Definition fill_risk_level (T bid_distance ask_distance : Q) : RiskLevel :=
  if ltb bid_distance T || ltb ask_distance T then CRITICAL
  else if ltb bid_distance (fmul T 2) || ltb ask_distance (fmul T 2)
  then WARNING
  else if ltb bid_distance (fmul T 3) || ltb ask_distance (fmul T 3)
  then WATCH
  else SAFE.

(** [abs(current_mid - pos.our_bid_price)]. *)
Definition bid_distance (pos : ActivePosition) (current_mid : Q) : Q :=
  Qabs (fsub current_mid (our_bid_price pos)).

(** [abs(current_mid - pos.our_ask_price)]. *)
Definition ask_distance (pos : ActivePosition) (current_mid : Q) : Q :=
  Qabs (fsub current_mid (our_ask_price pos)).

(** The tier of a position at a given midpoint. *)
Definition position_level (cfg : Config) (pos : ActivePosition)
    (current_mid : Q) : RiskLevel :=
  fill_risk_level (FILL_ALERT_THRESHOLD cfg)
    (bid_distance pos current_mid) (ask_distance pos current_mid).

(** The branch of a tier: CRITICAL and WARNING build a message around
    [market.question[:60]], which raises when the question cannot be
    sliced; the other two build none. *)
Definition alert_message (pos : ActivePosition) (current_mid : Q)
    (level : RiskLevel) : result (option Message) :=
  match level with
  | CRITICAL =>
      q <- py_slice (question (market pos)) 60 ;;
      Ok (Some (MsgFillRisk q current_mid
                  (our_bid_price pos) (bid_distance pos current_mid)
                  (our_ask_price pos) (ask_distance pos current_mid)))
  | WARNING =>
      q <- py_slice (question (market pos)) 60 ;;
      Ok (Some (MsgApproachingFill q current_mid
                  (bid_distance pos current_mid)
                  (ask_distance pos current_mid)))
  | _ => Ok None
  end.

(** The inner [try], given what the request returned or raised:
    [float(mid_resp.get("mid", market.midpoint))], and on any exception the
    midpoint of the snapshot.  The default is a float already. *)
Definition read_midpoint (env : Builtins) (m : RewardMarket)
    (answer : result pyval) : Q :=
  try_except
    (mid_resp <- answer ;;
     match mid_resp with
     | PDict d =>
         match dict_lookup d "mid" with
         | Some v => to_float env v
         | None => Ok (midpoint m)
         end
     | _ => Raise AttributeError
     end)
    (midpoint m).

Section WithWorld.
Context {S : Type} (X : External S) (cfg : Config) (env : Builtins).

Definition current_midpoint (m : RewardMarket) : M S Q :=
  r <~ call_ext (CallMidpoint (token_id_yes m))
         (clob_midpoint X (token_id_yes m)) ;;
  ret (read_midpoint env m r).

(** One turn of the loop of [check_fill_risk]: the alert of this position
    if any, or the exception that ends the loop, and the position as the
    turn leaves it ([risk_level] is assigned last). *)
Definition check_position (pos : ActivePosition)
    : M S (result (option Message) * ActivePosition) :=
  current_mid <~ current_midpoint (market pos) ;;
  let level := position_level cfg pos current_mid in
  match alert_message pos current_mid level with
  | Raise e => ret (Raise e, pos)
  | Ok (Some msg) =>
      send_telegram X cfg msg ;;;
      ret (Ok (Some msg), set_risk_level pos level)
  | Ok None => ret (Ok None, set_risk_level pos level)
  end.

(** [check_fill_risk]: the alerts in order, or the exception that left
    the loop, and the positions as the loop leaves them. *)
Fixpoint check_fill_risk (positions : list ActivePosition)
    : M S (result (list Message) * list ActivePosition) :=
  match positions with
  | [] => ret (Ok [], [])
  | pos :: rest =>
      r <~ check_position pos ;;
      match fst r with
      | Raise e => ret (Raise e, snd r :: rest)
      | Ok alert =>
          rs <~ check_fill_risk rest ;;
          ret (alerts <- fst rs ;;
               Ok (match alert with
                   | Some msg => msg :: alerts
                   | None => alerts
                   end),
               snd r :: snd rs)
      end
  end.

End WithWorld.

End Monitor64.

(** ** The loop of [run_bot] with its exception handler *)

Module Orchestrator64.

(** One row of the table of [print_dashboard]:
    [m.question[:39].ljust(39)], which only a string supports. *)
Definition dashboard_row (pos : ActivePosition) : result unit :=
  q <- py_slice (question (market pos)) 39 ;;
  match q with
  | PStr _ => Ok tt
  | _ => Raise AttributeError
  end.

Fixpoint dashboard_rows (positions : list ActivePosition) : result unit :=
  match positions with
  | [] => Ok tt
  | pos :: rest => _ <- dashboard_row pos ;; dashboard_rows rest
  end.

(** [print_dashboard(positions)]: the shared list is sorted in place
    before the rows are printed. *)
Definition print_dashboard (positions : list ActivePosition)
    : list ActivePosition * result unit :=
  match positions with
  | [] => ([], Ok tt)
  | _ :: _ =>
      let sorted := py_sort (fun p => risk_order (risk_level p)) false positions in
      (sorted, dashboard_rows sorted)
  end.

(** [sum(p.market.daily_reward for p in positions)], added left to right
    (an interpreter that compensates the sum can differ in the last
    place). *)
Definition total_reward (positions : list ActivePosition) : Q :=
  fold_left (fun acc p => fadd acc (daily_reward (market p))) positions 0.

(** [now - last_scan > scan_interval or not positions]. *)
Definition rescan_due (now last_scan : Q) (positions : list ActivePosition)
    : bool :=
  ltb scan_interval (fsub now last_scan)
  || match positions with [] => true | _ => false end.

(** The markets the loop over [markets[:MAX_MARKETS]] reaches and
    quotes: those before the first one whose question cannot be sliced. *)
Fixpoint quoted_prefix (markets : list RewardMarket) : list RewardMarket :=
  match markets with
  | [] => []
  | m :: rest =>
      if sliceable (question m) then m :: quoted_prefix rest else []
  end.

(** The question of every market can be sliced. *)
Definition all_sliceable (markets : list RewardMarket) : bool :=
  forallb (fun m => sliceable (question m)) markets.

(** What a pass leaves untouched in a position: everything but
    [risk_level]. *)
Definition same_orders (p p' : ActivePosition) : Prop :=
  exists level : RiskLevel, p' = set_risk_level p level.

Section WithWorld.
Context {S : Type} (X : External S) (cfg : Config) (env : Builtins).

(** One turn of the loop over [markets[:MAX_MARKETS]]: print
    [market.question[:60]], quote the market and build its position. *)
Definition open_position (m : RewardMarket) : M S (result ActivePosition) :=
  match py_slice (question m) 60 with
  | Raise e => ret (Raise e)
  | Ok _ =>
      ids <~ Strategist64.place_lp_orders X cfg m (DEFAULT_SIZE_PER_MARKET cfg) ;;
      fun w =>
        (Ok {| market := m;
               order_id_yes := fst ids;
               order_id_no := snd ids;
               our_bid_price := fround (Strategist64.raw_bid cfg m) 3;
               our_ask_price := fround (Strategist64.raw_ask cfg m) 3;
               size := DEFAULT_SIZE_PER_MARKET cfg;
               placed_at := now_iso X (ext_state w);
               fills_today := 0%Z;
               rewards_earned := 0;
               risk_level := LOW |}, w)
  end.

(** The loop: every position is appended to the shared list as soon as
    it is built, so an exception leaves those built before it. *)
Fixpoint open_positions (markets : list RewardMarket)
    (positions : list ActivePosition)
    : M S (list ActivePosition * result unit) :=
  match markets with
  | [] => ret (positions, Ok tt)
  | m :: rest =>
      r <~ open_position m ;;
      match r with
      | Raise e => ret (positions, Raise e)
      | Ok pos => open_positions rest (positions ++ [pos])
      end
  end.

(** The block under [if markets:], given the list the scan returned. *)
Definition refresh_positions (markets : list RewardMarket)
    (positions : list ActivePosition)
    : M S (list ActivePosition * result unit) :=
  match markets with
  | [] => ret (positions, Ok tt)
  | _ :: _ =>
      (match positions with
       | [] => ret tt
       | _ :: _ => for_each positions (cancel_position X)
       end) ;;;
      r <~ open_positions (slice_to (MAX_MARKETS cfg) markets) [] ;;
      match snd r with
      | Raise e => ret r
      | Ok _ =>
          send_telegram X cfg
            (MsgPositionsUpdated (List.length (fst r))
               (fmul (DEFAULT_SIZE_PER_MARKET cfg)
                  (inject_Z (Z.of_nat (List.length (fst r)))))
               (total_reward (fst r))) ;;;
          ret r
      end
  end.

(** The monitoring half of a pass:
    [if positions: alerts = check_fill_risk(positions);
    print_dashboard(positions)]. *)
Definition monitor_positions (positions : list ActivePosition)
    : M S (list ActivePosition * result unit) :=
  match positions with
  | [] => ret ([], Ok tt)
  | _ :: _ =>
      r <~ Monitor64.check_fill_risk X cfg env positions ;;
      match fst r with
      | Raise e => ret (snd r, Raise e)
      | Ok _ => ret (print_dashboard (snd r))
      end
  end.

(** The body of the [try] of one pass, sleep excluded: [markets_raw] is
    what the download delivers should this pass scan.  Returns the
    position list and [last_scan] as the body leaves them, and whether it
    ran to its end or raised.  [last_scan = now] follows the requote
    loop, so an exception in the loop leaves it unassigned. *)
Definition pass_body (now last_scan : Q) (markets_raw : list dict)
    (positions : list ActivePosition)
    : M S (list ActivePosition * Q * result unit) :=
  st <~ (if rescan_due now last_scan positions
         then r <~ refresh_positions
                     (fetch_reward_markets cfg env markets_raw) positions ;;
              ret (fst r,
                   match snd r with
                   | Raise _ => last_scan
                   | Ok _ => now
                   end,
                   snd r)
         else ret (positions, last_scan, Ok tt)) ;;
  match snd st with
  | Raise e => ret st
  | Ok _ =>
      r <~ monitor_positions (fst (fst st)) ;;
      ret (fst r, snd (fst st), snd r)
  end.

(** One pass of the [while running] loop: the body, and on an exception
    the notification of the handler. *)
Definition run_bot_iteration (now last_scan : Q) (markets_raw : list dict)
    (positions : list ActivePosition)
    : M S (list ActivePosition * Q * result unit) :=
  st <~ pass_body now last_scan markets_raw positions ;;
  match snd st with
  | Raise e => send_telegram X cfg (MsgBotError e) ;;; ret st
  | Ok _ => ret st
  end.

End WithWorld.

End Orchestrator64.

(** ** Sample data over floats *)

Module Samples64.

(** The defaults of the source as the floats [float(...)] makes of
    them. *)
Definition float_config : Config := {|
  DEFAULT_SIZE_PER_MARKET := 500;
  MAX_MARKETS := 10;
  MIN_DAYS_TO_RESOLUTION := 14;
  MIN_DAILY_REWARD := 1;
  MAX_COMPETITION_SCORE := 70;
  FILL_ALERT_THRESHOLD := b64 0.02;
  SPREAD_SAFETY_MARGIN := b64 0.005;
  TELEGRAM_BOT_TOKEN := "";
  TELEGRAM_CHAT_ID := ""
|}.

(** The same with notification credentials. *)
Definition notifying_float_config : Config := {|
  DEFAULT_SIZE_PER_MARKET := 500;
  MAX_MARKETS := 10;
  MIN_DAYS_TO_RESOLUTION := 14;
  MIN_DAILY_REWARD := 1;
  MAX_COMPETITION_SCORE := 70;
  FILL_ALERT_THRESHOLD := b64 0.02;
  SPREAD_SAFETY_MARGIN := b64 0.005;
  TELEGRAM_BOT_TOKEN := "token";
  TELEGRAM_CHAT_ID := "chat"
|}.

(** A market snapshot with the floats of the given pricing terms. *)
Definition float_market (mid max_sp min_sz : Q) : RewardMarket :=
  sample_market (b64 mid) (b64 max_sp) (b64 min_sz).

(** A position quoted at the floats of [bid] and [ask]. *)
Definition float_position (bid ask : Q) (yes no : option string)
    : ActivePosition :=
  sample_position (b64 bid) (b64 ask) yes no.

(** A midpoint service that reports the given decimal text. *)
Definition quoting_client (mid : string) : External nat := {|
  post_order := fun _ n =>
    (Ok {| orderID := Some "0xfeed"; resp_id := None |}, Datatypes.S n);
  cancel := fun _ n => (Ok tt, Datatypes.S n);
  clob_midpoint := fun _ n => (Ok (PDict [("mid", PStr mid)]), Datatypes.S n);
  telegram_post := fun _ n => (Ok tt, Datatypes.S n);
  now_iso := fun _ => "2025-01-01T00:00:00+00:00"
|}.

(** Built-ins that read the decimal texts used by the samples. *)
Definition decimal_env : Builtins := {|
  float_of_str := fun s =>
    if String.eqb s "0.425" then Some 0.425
    else if String.eqb s "0.5" then Some 0.5
    else None;
  json_loads := fun s => if String.eqb s "[]" then Some (PList []) else None;
  days_until := fun _ => None
|}.

(** The sample record with [null] for its question. *)
Definition sample_raw_null_question : dict :=
  [ ("conditionId", PStr "0xdecaf");
    ("question", PNone);
    ("clobTokenIds", PList [PStr "2001"; PStr "2002"]);
    ("rewardsMaxSpread", PNum 5);
    ("rewardsMinSize", PNum 50);
    ("rewardsDailyRate", PNum 20);
    ("outcomePrices", PList [PNum 0.4; PNum 0.7]);
    ("volume24hr", PNum 2000);
    ("liquidity", PNum 5000) ].

(** Three positions quoted at 0.405 and 0.595: both ids held, only the NO
    id held, and an empty string next to a missing id. *)
Definition float_positions : list ActivePosition :=
  [ float_position 0.405 0.595 (Some "0xa1") (Some "0xa2");
    float_position 0.405 0.595 None (Some "0xb2");
    float_position 0.405 0.595 (Some "") None ].

End Samples64.
Import Samples64.

(** * Part II: properties *)

(** ** Facts about the numerics *)

(** Linear arithmetic after turning every division by a numeral into a
    multiplication by its inverse. *)
Ltac inv_consts :=
  unfold Qdiv in *;
  repeat match goal with
  | |- context [Qinv (Qmake ?n ?d)] =>
      let v := eval vm_compute in (Qinv (Qmake n d)) in
      change (Qinv (Qmake n d)) with v
  | H : context [Qinv (Qmake ?n ?d)] |- _ =>
      let v := eval vm_compute in (Qinv (Qmake n d)) in
      change (Qinv (Qmake n d)) with v in H
  end.
Ltac qlra := inv_consts; lra.

Module PyNumFacts.

Lemma ltb_lt (a b : Q) : ltb a b = true <-> a < b.
Proof.
  unfold ltb. rewrite negb_true_iff. split; intro H.
  - apply Qnot_le_lt. intro Hle. apply Qle_bool_iff in Hle. congruence.
  - destruct (Qle_bool b a) eqn:E; [|reflexivity].
    apply Qle_bool_iff in E. lra.
Qed.

Lemma ltb_ge (a b : Q) : ltb a b = false <-> b <= a.
Proof. unfold ltb. rewrite negb_false_iff. apply Qle_bool_iff. Qed.

Lemma ltb_cases (a b : Q) :
  (a < b /\ ltb a b = true) \/ (b <= a /\ ltb a b = false).
Proof.
  destruct (ltb a b) eqn:E.
  - left. split; [apply ltb_lt; exact E | reflexivity].
  - right. split; [apply ltb_ge; exact E | reflexivity].
Qed.

#[global] Instance ltb_comp : Proper (Qeq ==> Qeq ==> eq) ltb.
Proof. intros a a' Ha b b' Hb. unfold ltb. now rewrite Ha, Hb. Qed.

Lemma py_max_cases (a b : Q) :
  (a < b /\ py_max a b = b) \/ (b <= a /\ py_max a b = a).
Proof. unfold py_max. destruct (ltb_cases a b) as [[H ->]|[H ->]]; auto. Qed.

Lemma py_min_cases (a b : Q) :
  (b < a /\ py_min a b = b) \/ (a <= b /\ py_min a b = a).
Proof. unfold py_min. destruct (ltb_cases b a) as [[H ->]|[H ->]]; auto. Qed.

Lemma py_max_Qmax (a b : Q) : py_max a b == Qmax a b.
Proof.
  destruct (py_max_cases a b) as [[H ->]|[H ->]].
  - rewrite Q.max_r; [reflexivity | lra].
  - rewrite Q.max_l; [reflexivity | lra].
Qed.

Lemma py_min_Qmin (a b : Q) : py_min a b == Qmin a b.
Proof.
  destruct (py_min_cases a b) as [[H ->]|[H ->]].
  - rewrite Q.min_r; [reflexivity | lra].
  - rewrite Q.min_l; [reflexivity | lra].
Qed.

#[global] Instance py_max_comp : Proper (Qeq ==> Qeq ==> Qeq) py_max.
Proof. intros a a' Ha b b' Hb. now rewrite !py_max_Qmax, Ha, Hb. Qed.

#[global] Instance py_min_comp : Proper (Qeq ==> Qeq ==> Qeq) py_min.
Proof. intros a a' Ha b b' Hb. now rewrite !py_min_Qmin, Ha, Hb. Qed.

(** The rounding rule picks the floor or its successor. *)
Lemma round_half_even_cases (x : Q) :
  let f := Qfloor x in
  (round_half_even x = f /\ x - inject_Z f <= 1 # 2)
  \/ (round_half_even x = (f + 1)%Z /\ 1 # 2 <= x - inject_Z f).
Proof.
  intro f. unfold round_half_even. fold f.
  destruct (Qcompare (x - inject_Z f) (1 # 2)) eqn:E.
  - apply <- Qeq_alt in E. destruct (Z.even f); [left | right]; split; auto; lra.
  - apply <- Qlt_alt in E. left. split; auto. lra.
  - apply <- Qgt_alt in E. right. split; auto. lra.
Qed.

#[global] Instance round_half_even_comp : Proper (Qeq ==> eq) round_half_even.
Proof.
  intros x y H. unfold round_half_even.
  rewrite (Qfloor_comp _ _ H).
  assert (E : Qcompare (x - inject_Z (Qfloor y)) (1 # 2)
              = Qcompare (y - inject_Z (Qfloor y)) (1 # 2))
    by (now rewrite H).
  now rewrite E.
Qed.

Lemma round_half_even_Z (k : Z) : round_half_even (inject_Z k) = k.
Proof.
  unfold round_half_even. rewrite Qfloor_Z.
  assert (E : Qcompare (inject_Z k - inject_Z k) (1 # 2) = Lt).
  { apply -> Qlt_alt. generalize (inject_Z k). intro q. lra. }
  now rewrite E.
Qed.

Lemma round_half_even_mono (x y : Q) :
  x <= y -> (round_half_even x <= round_half_even y)%Z.
Proof.
  intro Hxy.
  pose proof (Qfloor_resp_le _ _ Hxy) as Hf.
  pose proof (Qfloor_le x) as Hx1. pose proof (Qlt_floor x) as Hx2.
  pose proof (Qfloor_le y) as Hy1. pose proof (Qlt_floor y) as Hy2.
  rewrite inject_Z_plus in Hx2, Hy2. change (inject_Z 1) with 1 in *.
  destruct (round_half_even_cases x) as [[Ex Hx]|[Ex Hx]];
    destruct (round_half_even_cases y) as [[Ey Hy]|[Ey Hy]];
    cbv zeta in *; rewrite Ex, Ey; try lia.
  (* x rounded up, y rounded down: the floors differ, or both are ties *)
  destruct (Z.eq_dec (Qfloor x) (Qfloor y)) as [Efl|Nfl]; [|lia].
  exfalso.
  rewrite Efl in Hx, Hx1, Hx2.
  assert (Exy : x == y) by lra.
  rewrite (round_half_even_comp _ _ Exy) in Ex. lia.
Qed.

Lemma pow10_pos (n : nat) : 0 < inject_Z (pow10 n).
Proof.
  unfold pow10. change 0 with (inject_Z 0). rewrite <- Zlt_Qlt.
  apply Z.pow_pos_nonneg; lia.
Qed.

#[global] Instance py_round_comp : Proper (Qeq ==> eq ==> Qeq) py_round.
Proof.
  intros x y H n n' <-. unfold py_round.
  assert (E : x * inject_Z (pow10 n) == y * inject_Z (pow10 n)) by (now rewrite H).
  now rewrite (round_half_even_comp _ _ E).
Qed.

Lemma py_round_mono (x y : Q) (n : nat) :
  x <= y -> py_round x n <= py_round y n.
Proof.
  intro H. unfold py_round, Qdiv.
  pose proof (pow10_pos n) as Hp.
  apply Qmult_le_compat_r.
  - rewrite <- Zle_Qle. apply round_half_even_mono.
    apply Qmult_le_compat_r; lra.
  - apply Qlt_le_weak, Qinv_lt_0_compat, Hp.
Qed.

End PyNumFacts.
Import PyNumFacts.

(** ** Quote strategist *)

Module StrategistFacts.

Lemma clamp_price_Qmax (p : Q) : clamp_price p == Qmax 0.01 (Qmin 0.99 p).
Proof. unfold clamp_price. now rewrite py_max_Qmax, py_min_Qmin. Qed.

#[global] Instance clamp_price_comp : Proper (Qeq ==> Qeq) clamp_price.
Proof. intros p q H. unfold clamp_price. now rewrite H. Qed.

Lemma clamp_price_cases (p : Q) :
  (p <= 0.01 /\ clamp_price p == 0.01)
  \/ (0.01 <= p <= 0.99 /\ clamp_price p == p)
  \/ (0.99 <= p /\ clamp_price p == 0.99).
Proof.
  unfold clamp_price.
  destruct (py_min_cases 0.99 p) as [[H1 ->]|[H1 ->]];
    [destruct (py_max_cases 0.01 p) as [[H2 ->]|[H2 ->]]
    |destruct (py_max_cases 0.01 0.99) as [[H2 ->]|[H2 ->]]].
  - right. left. split; [lra | reflexivity].
  - left. split; [lra | reflexivity].
  - right. right. split; [lra | reflexivity].
  - exfalso. lra.
Qed.

Lemma clamp_price_bounds (p : Q) : 0.01 <= clamp_price p <= 0.99.
Proof.
  destruct (clamp_price_cases p) as [[H E]|[[H E]|[H E]]]; rewrite E; lra.
Qed.

(** Rounding moves a value by at most half a tick. *)
Lemma round_half_even_error (y : Q) :
  Qabs (inject_Z (round_half_even y) - y) <= 1 # 2.
Proof.
  pose proof (Qfloor_le y) as H1. pose proof (Qlt_floor y) as H2.
  rewrite inject_Z_plus in H2.
  apply Qabs_Qle_condition.
  destruct (round_half_even_cases y) as [[E H]|[E H]]; cbv zeta in *;
    rewrite E; rewrite ?inject_Z_plus; change (inject_Z 1) with 1 in *; lra.
Qed.

Lemma py_round3_error (x : Q) : Qabs (py_round x 3 - x) <= 1 # 2000.
Proof.
  unfold py_round. change (inject_Z (pow10 3)) with 1000.
  pose proof (round_half_even_error (x * 1000)) as H.
  apply Qabs_Qle_condition in H. apply Qabs_Qle_condition.
  generalize dependent (inject_Z (round_half_even (x * 1000))).
  intros q H. qlra.
Qed.

End StrategistFacts.
Import StrategistFacts.

(** ** Calls made by the order-management functions *)

Module OrdersFacts.

Section WithWorld.
Context {S : Type} (X : External S) (cfg : Config).

Lemma place_side_calls (order : OrderArgs) (w : world S) :
  calls (snd (place_side X order w)) = calls w ++ [CallPostOrder order].
Proof.
  unfold place_side, bindM, call_ext, ret.
  destruct (post_order X order (ext_state w)). reflexivity.
Qed.

Lemma cancel_order_calls (order_id : string) (w : world S) :
  calls (snd (cancel_order X order_id w)) = calls w ++ [CallCancel order_id].
Proof.
  unfold cancel_order, bindM, call_ext, ret.
  destruct (cancel X order_id (ext_state w)). reflexivity.
Qed.

Lemma send_telegram_calls (msg : Message) (w : world S) :
  exists notes : list Call,
    calls (snd (send_telegram X cfg msg w)) = calls w ++ notes
    /\ (notes = [] \/ notes = [CallTelegram msg]).
Proof.
  unfold send_telegram.
  destruct (_ || _).
  - exists []. cbn. rewrite app_nil_r. auto.
  - exists [CallTelegram msg]. unfold bindM, call_ext, ret.
    destruct (telegram_post X msg (ext_state w)). cbn. auto.
Qed.

Lemma send_telegram_exact (msg : Message) (w : world S) :
  calls (snd (send_telegram X cfg msg w))
  = calls w ++ (if telegram_enabled cfg then [CallTelegram msg] else []).
Proof.
  unfold send_telegram, telegram_enabled.
  destruct (_ || _); cbn [negb].
  - cbn. now rewrite app_nil_r.
  - unfold bindM, call_ext, ret.
    destruct (telegram_post X msg (ext_state w)). reflexivity.
Qed.

End WithWorld.

End OrdersFacts.
Import OrdersFacts.

(** ** Facts about binary64 rounding *)

Module B64Facts.

Lemma pow2_pos (e : Z) : 0 < pow2 e.
Proof. apply Qpower_0_lt. reflexivity. Qed.

Lemma pow2_succ (e : Z) : pow2 (e + 1) == 2 * pow2 e.
Proof.
  unfold pow2. rewrite Qpower_plus by (intro H; discriminate H).
  rewrite Qpower_1_r. ring.
Qed.

Lemma pow2_le (a b : Z) : (a <= b)%Z -> pow2 a <= pow2 b.
Proof. intro H. apply Qpower_le_compat_l; [exact H | discriminate]. Qed.

Lemma pow2_lt_inv (a b : Z) : pow2 a < pow2 b -> (a < b)%Z.
Proof. intro H. apply (Qpower_lt_compat_l_inv 2); [exact H | reflexivity]. Qed.

Lemma pow2_Z (n : Z) : (0 <= n)%Z -> inject_Z (2 ^ n) == pow2 n.
Proof. intro H. apply Zpower_Qpower. exact H. Qed.

(** [Qlog2 x] is the binary exponent of a positive [x]. *)
Lemma Qlog2_spec (x : Q) :
  0 < x -> pow2 (Qlog2 x) <= x /\ x < pow2 (Qlog2 x + 1).
Proof.
  intro Hx. destruct x as [n d]. unfold Qlog2. cbn [Qnum Qden].
  assert (Hn : (0 < n)%Z).
  { unfold Qlt in Hx. cbn in Hx. lia. }
  pose proof (Z.log2_spec n Hn) as [Hn1 Hn2].
  pose proof (Z.log2_spec (Z.pos d) (Pos2Z.is_pos d)) as [Hd1 Hd2].
  pose proof (Z.log2_nonneg n) as Ln.
  pose proof (Z.log2_nonneg (Z.pos d)) as Ld.
  set (ln := Z.log2 n) in *. set (ld := Z.log2 (Z.pos d)) in *.
  rewrite Zle_Qle, pow2_Z in Hn1 by exact Ln.
  rewrite Zlt_Qlt, <- Z.add_1_r, pow2_Z, pow2_succ in Hn2 by lia.
  rewrite Zle_Qle, pow2_Z in Hd1 by exact Ld.
  rewrite Zlt_Qlt, <- Z.add_1_r, pow2_Z, pow2_succ in Hd2 by lia.
  pose proof (pow2_pos ln) as PA. pose proof (pow2_pos ld) as PB.
  assert (Ex : n # d == inject_Z n / inject_Z (Z.pos d)) by apply Qmake_Qdiv.
  assert (E0 : pow2 (ln - ld) == pow2 ln / pow2 ld).
  { unfold pow2. apply Qpower_minus. intro H; discriminate H. }
  assert (HD : 0 < inject_Z (Z.pos d)) by lra.
  destruct (Qle_bool (pow2 (ln - ld)) (n # d)) eqn:E.
  - apply Qle_bool_iff in E. split; [exact E|].
    rewrite pow2_succ, E0, Ex.
    apply Qlt_shift_div_r; [exact HD|].
    assert (H : inject_Z n * pow2 ld < 2 * pow2 ln * inject_Z (Z.pos d)) by nra.
    apply (Qmult_lt_r _ _ (pow2 ld)); [exact PB|].
    setoid_replace (2 * (pow2 ln / pow2 ld) * inject_Z (Z.pos d) * pow2 ld)
      with (2 * pow2 ln * inject_Z (Z.pos d)) by (field; lra).
    exact H.
  - assert (Hlt : n # d < pow2 (ln - ld)).
    { apply Qnot_le_lt. intro H. apply Qle_bool_iff in H. congruence. }
    replace (ln - ld - 1 + 1)%Z with (ln - ld)%Z by lia.
    split; [|exact Hlt].
    assert (E1 : pow2 (ln - ld) == 2 * pow2 (ln - ld - 1)).
    { rewrite <- pow2_succ. replace (ln - ld - 1 + 1)%Z with (ln - ld)%Z by lia.
      reflexivity. }
    rewrite Ex. apply Qle_shift_div_l; [exact HD|].
    assert (H : pow2 ln * inject_Z (Z.pos d) <= 2 * pow2 ld * inject_Z n) by nra.
    assert (E2 : pow2 (ln - ld - 1) == pow2 ln / pow2 ld / 2)
      by (rewrite <- E0, E1; field).
    rewrite E2.
    apply (Qmult_le_r _ _ (2 * pow2 ld)); [lra|].
    setoid_replace (pow2 ln / pow2 ld / 2 * inject_Z (Z.pos d) * (2 * pow2 ld))
      with (pow2 ln * inject_Z (Z.pos d)) by (field; lra).
    lra.
Qed.

Lemma Qlog2_unique (x : Q) (e : Z) :
  0 < x -> pow2 e <= x -> x < pow2 (e + 1) -> Qlog2 x = e.
Proof.
  intros Hx H1 H2. destruct (Qlog2_spec x Hx) as [L1 L2].
  assert (A : (e < Qlog2 x + 1)%Z) by (apply pow2_lt_inv; lra).
  assert (B : (Qlog2 x < e + 1)%Z) by (apply pow2_lt_inv; lra).
  lia.
Qed.

Lemma Qlog2_mono (x y : Q) : 0 < x -> x <= y -> (Qlog2 x <= Qlog2 y)%Z.
Proof.
  intros Hx Hxy.
  destruct (Qlog2_spec x Hx) as [L1 _].
  destruct (Qlog2_spec y ltac:(lra)) as [_ L2].
  assert (A : (Qlog2 x < Qlog2 y + 1)%Z) by (apply pow2_lt_inv; lra).
  lia.
Qed.

Lemma Qlog2_comp (x y : Q) : 0 < x -> x == y -> Qlog2 x = Qlog2 y.
Proof.
  intros Hx E. symmetry. destruct (Qlog2_spec x Hx) as [L1 L2].
  apply Qlog2_unique; lra.
Qed.


Lemma fexp_mono (x y : Q) : 0 < x -> x <= y -> (fexp x <= fexp y)%Z.
Proof. intros Hx Hxy. unfold fexp. pose proof (Qlog2_mono x y Hx Hxy). lia. Qed.

Lemma round_half_even_pow2 (n : Z) :
  (0 <= n)%Z -> round_half_even (pow2 n) = (2 ^ n)%Z.
Proof.
  intro H. rewrite <- (round_half_even_comp _ _ (pow2_Z n H)).
  apply round_half_even_Z.
Qed.

Lemma pow2_split (a b : Z) : pow2 (a + b) == pow2 a * pow2 b.
Proof. unfold pow2. apply Qpower_plus. intro H; discriminate H. Qed.

Lemma round_pos_nonneg (x : Q) : 0 < x -> 0 <= round_pos x.
Proof.
  intro Hx. unfold round_pos.
  pose proof (pow2_pos (fexp x)) as Pe.
  apply Qmult_le_0_compat; [|lra].
  change 0 with (inject_Z 0). rewrite <- Zle_Qle.
  change 0%Z with (round_half_even (inject_Z 0)).
  apply round_half_even_mono.
  apply Qle_shift_div_l; [exact Pe|]. change (inject_Z 0) with 0. lra.
Qed.

(** Below the next power of two, a rounded value stays at or below it. *)
Lemma round_pos_upper (x : Q) (b : Z) :
  0 < x -> x <= pow2 b -> (fexp x <= b)%Z -> round_pos x <= pow2 b.
Proof.
  intros Hx Hb He. unfold round_pos.
  pose proof (pow2_pos (fexp x)) as Pe.
  assert (Hs : x / pow2 (fexp x) <= pow2 (b - fexp x)).
  { apply Qle_shift_div_r; [exact Pe|].
    rewrite <- pow2_split. replace (b - fexp x + fexp x)%Z with b by lia.
    exact Hb. }
  apply round_half_even_mono in Hs.
  rewrite round_half_even_pow2 in Hs by lia.
  rewrite Zle_Qle, pow2_Z in Hs by lia.
  assert (E : pow2 b == pow2 (b - fexp x) * pow2 (fexp x)).
  { rewrite <- pow2_split. replace (b - fexp x + fexp x)%Z with b by lia.
    reflexivity. }
  rewrite E. apply Qmult_le_compat_r; [exact Hs | lra].
Qed.

(** At or above a power of two on the grid, so does the rounded value. *)
Lemma round_pos_lower (x : Q) (b : Z) :
  0 < x -> pow2 b <= x -> (fexp x <= b)%Z -> pow2 b <= round_pos x.
Proof.
  intros Hx Hb He. unfold round_pos.
  pose proof (pow2_pos (fexp x)) as Pe.
  assert (Hs : pow2 (b - fexp x) <= x / pow2 (fexp x)).
  { apply Qle_shift_div_l; [exact Pe|].
    rewrite <- pow2_split. replace (b - fexp x + fexp x)%Z with b by lia.
    exact Hb. }
  apply round_half_even_mono in Hs.
  rewrite round_half_even_pow2 in Hs by lia.
  rewrite Zle_Qle, pow2_Z in Hs by lia.
  assert (E : pow2 b == pow2 (b - fexp x) * pow2 (fexp x)).
  { rewrite <- pow2_split. replace (b - fexp x + fexp x)%Z with b by lia.
    reflexivity. }
  rewrite E. apply Qmult_le_compat_r; [exact Hs | lra].
Qed.

Lemma round_pos_mono (x y : Q) :
  0 < x -> x <= y -> round_pos x <= round_pos y.
Proof.
  intros Hx Hxy.
  assert (Hy : 0 < y) by lra.
  pose proof (fexp_mono x y Hx Hxy) as He.
  destruct (Z.eq_dec (fexp x) (fexp y)) as [E|N].
  - unfold round_pos. rewrite E.
    pose proof (pow2_pos (fexp y)) as Pe.
    apply Qmult_le_compat_r; [|lra].
    rewrite <- Zle_Qle. apply round_half_even_mono.
    unfold Qdiv. apply Qmult_le_compat_r; [exact Hxy|].
    apply Qlt_le_weak, Qinv_lt_0_compat, Pe.
  - (* a binade boundary lies between the two *)
    destruct (Qlog2_spec x Hx) as [Lx1 Lx2].
    destruct (Qlog2_spec y Hy) as [Ly1 Ly2].
    assert (Hl : (Qlog2 x < Qlog2 y)%Z) by (unfold fexp in *; lia).
    assert (Hfy : (fexp y = Qlog2 y - 52)%Z) by (unfold fexp in *; lia).
    apply Qle_trans with (pow2 (Qlog2 y)).
    + apply round_pos_upper; [exact Hx | | lia].
      apply Qle_trans with (pow2 (Qlog2 x + 1)); [lra|].
      apply pow2_le. lia.
    + apply round_pos_lower; [exact Hy | exact Ly1 | lia].
Qed.

Lemma round_pos_comp (x y : Q) : 0 < x -> x == y -> round_pos x == round_pos y.
Proof.
  intros Hx E. unfold round_pos, fexp.
  rewrite (Qlog2_comp x y Hx E).
  assert (E' : x / pow2 (Z.max (Qlog2 y - 52) (-1074))
               == y / pow2 (Z.max (Qlog2 y - 52) (-1074))) by (now rewrite E).
  now rewrite (round_half_even_comp _ _ E').
Qed.

#[global] Instance b64_comp : Proper (Qeq ==> Qeq) b64.
Proof.
  intros x y E. unfold b64. rewrite <- (Qcompare_comp x y E 0 0 (Qeq_refl 0)).
  destruct (Qcompare x 0) eqn:C.
  - reflexivity.
  - apply <- Qlt_alt in C.
    assert (E' : - x == - y) by (now rewrite E).
    rewrite (round_pos_comp (- x) (- y)); [reflexivity | lra | exact E'].
  - apply <- Qgt_alt in C. apply round_pos_comp; [lra | exact E].
Qed.

Lemma b64_cases (x : Q) :
  (x == 0 /\ b64 x = 0)
  \/ (0 < x /\ b64 x = round_pos x)
  \/ (x < 0 /\ b64 x = - round_pos (- x)).
Proof.
  unfold b64. destruct (Qcompare x 0) eqn:C.
  - apply <- Qeq_alt in C. auto.
  - apply <- Qlt_alt in C. auto.
  - apply <- Qgt_alt in C. right. left. split; [lra | reflexivity].
Qed.

(** Rounding to binary64 is monotone. *)
Lemma b64_mono (x y : Q) : x <= y -> b64 x <= b64 y.
Proof.
  intro H.
  destruct (b64_cases x) as [[Hx ->]|[[Hx ->]|[Hx ->]]];
    destruct (b64_cases y) as [[Hy ->]|[[Hy ->]|[Hy ->]]];
    try (exfalso; lra).
  - lra.
  - apply round_pos_nonneg, Hy.
  - apply round_pos_mono; assumption.
  - pose proof (round_pos_nonneg (- x) ltac:(lra)). lra.
  - pose proof (round_pos_nonneg (- x) ltac:(lra)).
    pose proof (round_pos_nonneg y Hy). lra.
  - pose proof (round_pos_mono (- y) (- x) ltac:(lra) ltac:(lra)). lra.
Qed.

#[global] Instance fadd_comp : Proper (Qeq ==> Qeq ==> Qeq) fadd.
Proof. intros x x' Hx y y' Hy. unfold fadd. now rewrite Hx, Hy. Qed.

#[global] Instance fsub_comp : Proper (Qeq ==> Qeq ==> Qeq) fsub.
Proof. intros x x' Hx y y' Hy. unfold fsub. now rewrite Hx, Hy. Qed.

#[global] Instance fmul_comp : Proper (Qeq ==> Qeq ==> Qeq) fmul.
Proof. intros x x' Hx y y' Hy. unfold fmul. now rewrite Hx, Hy. Qed.

#[global] Instance fdiv_comp : Proper (Qeq ==> Qeq ==> Qeq) fdiv.
Proof. intros x x' Hx y y' Hy. unfold fdiv. now rewrite Hx, Hy. Qed.

Lemma b64_0 : b64 0 = 0.
Proof. reflexivity. Qed.

Lemma b64_nonpos (x : Q) : x <= 0 -> b64 x <= 0.
Proof. intro H. rewrite <- b64_0. apply b64_mono, H. Qed.


(** The rounding error is at most half a unit in the last place. *)
Lemma round_pos_error (x : Q) :
  0 < x -> Qabs (round_pos x - x) <= pow2 (fexp x - 1).
Proof.
  intro Hx. unfold round_pos.
  pose proof (pow2_pos (fexp x)) as Pe.
  pose proof (round_half_even_error (x / pow2 (fexp x))) as H.
  assert (E1 : pow2 (fexp x - 1) == (1 # 2) * pow2 (fexp x)).
  { pose proof (pow2_succ (fexp x - 1)) as Hs.
    replace (fexp x - 1 + 1)%Z with (fexp x) in Hs by lia. lra. }
  assert (E2 : inject_Z (round_half_even (x / pow2 (fexp x))) * pow2 (fexp x) - x
               == (inject_Z (round_half_even (x / pow2 (fexp x)))
                   - x / pow2 (fexp x)) * pow2 (fexp x)) by (field; lra).
  rewrite E2, E1, Qabs_Qmult, (Qabs_pos (pow2 (fexp x))) by lra.
  apply Qmult_le_compat_r; [exact H | lra].
Qed.

Lemma b64_error (x : Q) (e : Z) :
  Qabs x < pow2 (e + 1) -> (-1074 <= e - 52)%Z ->
  Qabs (b64 x - x) <= pow2 (e - 53).
Proof.
  intros Hx He.
  assert (Hpos : forall y, 0 < y -> y < pow2 (e + 1) ->
                           Qabs (round_pos y - y) <= pow2 (e - 53)).
  { intros y Hy Hlt.
    eapply Qle_trans; [apply round_pos_error, Hy|].
    apply pow2_le.
    destruct (Qlog2_spec y Hy) as [L1 _].
    assert (Hl : (Qlog2 y < e + 1)%Z) by (apply pow2_lt_inv; lra).
    unfold fexp. lia. }
  destruct (b64_cases x) as [[H0 E]|[[H0 E]|[H0 E]]]; rewrite E.
  - pose proof (pow2_pos (e - 53)) as P.
    assert (E0 : 0 - x == 0) by lra. rewrite E0. cbn. lra.
  - apply Hpos; [exact H0|]. rewrite Qabs_pos in Hx; lra.
  - rewrite Qabs_neg in Hx by lra.
    specialize (Hpos (- x) ltac:(lra) Hx).
    assert (E' : - round_pos (- x) - x == - (round_pos (- x) - - x)) by ring.
    rewrite E', Qabs_opp. exact Hpos.
Qed.

Lemma sliceable_spec (v : pyval) (n : nat) :
  sliceable v = true -> exists q : pyval, py_slice v n = Ok q.
Proof. destruct v; try discriminate; intros _; eexists; reflexivity. Qed.

Lemma is_text_sliceable (v : pyval) : is_text v = true -> sliceable v = true.
Proof. destruct v; try discriminate; reflexivity. Qed.

End B64Facts.
Import B64Facts.

(** ** The quote strategist over floats *)

Module Strategist64Facts.
Import Strategist64.

#[global] Instance fround_comp : Proper (Qeq ==> eq ==> Qeq) fround.
Proof. intros x y H n n' <-. unfold fround. now rewrite H. Qed.

Lemma fround_mono (x y : Q) (n : nat) : x <= y -> fround x n <= fround y n.
Proof. intro H. apply b64_mono, py_round_mono, H. Qed.

#[global] Instance clamp_price64_comp : Proper (Qeq ==> Qeq) clamp_price.
Proof. intros p q H. unfold clamp_price. now rewrite H. Qed.

Lemma clamp_price64_Qmax (p : Q) :
  clamp_price p == Qmax (b64 0.01) (Qmin (b64 0.99) p).
Proof. unfold clamp_price. now rewrite py_max_Qmax, py_min_Qmin. Qed.

Lemma lo_lt_hi : b64 0.01 < b64 0.99.
Proof. vm_compute. reflexivity. Qed.

Lemma lo_pos : 0 < b64 0.01.
Proof. vm_compute. reflexivity. Qed.

Lemma clamp_price64_cases (p : Q) :
  (p <= b64 0.01 /\ clamp_price p == b64 0.01)
  \/ (b64 0.01 <= p <= b64 0.99 /\ clamp_price p == p)
  \/ (b64 0.99 <= p /\ clamp_price p == b64 0.99).
Proof.
  pose proof lo_lt_hi as Hlh. unfold clamp_price.
  destruct (py_min_cases (b64 0.99) p) as [[H1 ->]|[H1 ->]];
    [destruct (py_max_cases (b64 0.01) p) as [[H2 ->]|[H2 ->]]
    |destruct (py_max_cases (b64 0.01) (b64 0.99)) as [[H2 ->]|[H2 ->]]].
  - right. left. split; [lra | reflexivity].
  - left. split; [lra | reflexivity].
  - right. right. split; [lra | reflexivity].
  - exfalso. lra.
Qed.

Lemma clamp_price64_bounds (p : Q) : b64 0.01 <= clamp_price p <= b64 0.99.
Proof.
  pose proof lo_lt_hi.
  destruct (clamp_price64_cases p) as [[H' E]|[[H' E]|[H' E]]]; rewrite E; lra.
Qed.

Lemma clamp_price64_mono (p q : Q) : p <= q -> clamp_price p <= clamp_price q.
Proof.
  intro H. pose proof lo_lt_hi.
  destruct (clamp_price64_cases p) as [[Hp Ep]|[[Hp Ep]|[Hp Ep]]];
    destruct (clamp_price64_cases q) as [[Hq Eq']|[[Hq Eq']|[Hq Eq']]];
    rewrite Ep, Eq'; lra.
Qed.

Lemma fround_lo : fround (b64 0.01) 3 == b64 0.01.
Proof. vm_compute. reflexivity. Qed.

Lemma fround_hi : fround (b64 0.99) 3 == b64 0.99.
Proof. vm_compute. reflexivity. Qed.

(** Clamping and rounding to the tick commute: both bounds are floats of
    ticks. *)
Lemma clamp_fround_commute (p : Q) :
  clamp_price (fround p 3) == fround (clamp_price p) 3.
Proof.
  pose proof lo_lt_hi.
  destruct (clamp_price64_cases p) as [[H' E]|[[H' E]|[H' E]]]; rewrite E.
  - rewrite fround_lo.
    pose proof (fround_mono _ _ 3 H') as Hr. rewrite fround_lo in Hr.
    destruct (clamp_price64_cases (fround p 3)) as [[H1 E']|[[H1 E']|[H1 E']]];
      rewrite E'; lra.
  - destruct H' as [Hlo Hhi].
    pose proof (fround_mono _ _ 3 Hlo) as Hr1. rewrite fround_lo in Hr1.
    pose proof (fround_mono _ _ 3 Hhi) as Hr2. rewrite fround_hi in Hr2.
    destruct (clamp_price64_cases (fround p 3)) as [[H1 E']|[[H1 E']|[H1 E']]];
      rewrite E'; lra.
  - rewrite fround_hi.
    pose proof (fround_mono _ _ 3 H') as Hr. rewrite fround_hi in Hr.
    destruct (clamp_price64_cases (fround p 3)) as [[H1 E']|[[H1 E']|[H1 E']]];
      rewrite E'; lra.
Qed.

(** Ticks. *)
Lemma fround_is_tick (x : Q) :
  fround x 3 = tick (round_half_even (x * 1000)).
Proof. reflexivity. Qed.

Lemma tick_mono (k k' : Z) : (k <= k')%Z -> tick k <= tick k'.
Proof.
  intro H. apply b64_mono. unfold Qdiv. apply Qmult_le_compat_r.
  - rewrite <- Zle_Qle. exact H.
  - discriminate.
Qed.

Lemma tick_10 : tick 10 == b64 0.01.
Proof. vm_compute. reflexivity. Qed.

Lemma tick_990 : tick 990 == b64 0.99.
Proof. vm_compute. reflexivity. Qed.

Lemma half_ulp_53 : pow2 (-53) == 1 # 9007199254740992.
Proof. vm_compute. reflexivity. Qed.

Lemma half_ulp_52 : pow2 (-52) == 1 # 4503599627370496.
Proof. vm_compute. reflexivity. Qed.

(** A tick between 0 and 1 is within [2 ** -53] of its decimal. *)
Lemma tick_error (k : Z) :
  (0 <= k <= 1000)%Z -> Qabs (tick k - inject_Z k / 1000) <= pow2 (-53).
Proof.
  intros [H0 H1]. unfold tick.
  apply (b64_error _ 0); [|lia].
  rewrite Zle_Qle in H0, H1. change (inject_Z 0) with 0 in H0.
  change (inject_Z 1000) with 1000 in H1.
  rewrite Qabs_pos by qlra.
  change (pow2 (0 + 1)) with 2. qlra.
Qed.

Lemma tick_lt (k k' : Z) :
  (0 <= k)%Z -> (k < k')%Z -> (k' <= 1000)%Z -> tick k < tick k'.
Proof.
  intros H0 Hlt H1.
  pose proof (tick_error k ltac:(lia)) as E1.
  pose proof (tick_error k' ltac:(lia)) as E2.
  rewrite half_ulp_53 in E1, E2.
  apply Qabs_Qle_condition in E1. apply Qabs_Qle_condition in E2.
  assert (Hk : inject_Z k + 1 <= inject_Z k').
  { change 1 with (inject_Z 1). rewrite <- inject_Z_plus, <- Zle_Qle. lia. }
  qlra.
Qed.

Lemma tick_le_inv (k k' : Z) :
  (0 <= k <= 1000)%Z -> (0 <= k' <= 1000)%Z -> tick k <= tick k' -> (k <= k')%Z.
Proof.
  intros Hk Hk' H.
  destruct (Z_le_gt_dec k k') as [Hle|Hgt]; [exact Hle|].
  pose proof (tick_lt k' k ltac:(lia) ltac:(lia) ltac:(lia)). lra.
Qed.

(** A clamped tick is a tick between 10 and 990. *)
Lemma clamp_price_tick (k : Z) :
  clamp_price (tick k) == tick (Z.max 10 (Z.min 990 k)).
Proof.
  pose proof lo_lt_hi as Hlh.
  destruct (Z_le_gt_dec k 10) as [H1|H1].
  - replace (Z.max 10 (Z.min 990 k)) with 10%Z by lia.
    pose proof (tick_mono k 10 H1) as Hm. rewrite tick_10 in *.
    destruct (clamp_price64_cases (tick k)) as [[H' E]|[[H' E]|[H' E]]];
      rewrite E; lra.
  - destruct (Z_le_gt_dec k 990) as [H2|H2].
    + replace (Z.max 10 (Z.min 990 k)) with k by lia.
      pose proof (tick_mono 10 k ltac:(lia)) as Hm1.
      pose proof (tick_mono k 990 H2) as Hm2.
      rewrite tick_10 in Hm1. rewrite tick_990 in Hm2.
      destruct (clamp_price64_cases (tick k)) as [[H' E]|[[H' E]|[H' E]]];
        rewrite E; lra.
    + replace (Z.max 10 (Z.min 990 k)) with 990%Z by lia.
      pose proof (tick_mono 990 k ltac:(lia)) as Hm. rewrite tick_990 in *.
      destruct (clamp_price64_cases (tick k)) as [[H' E]|[[H' E]|[H' E]]];
        rewrite E; lra.
Qed.

Lemma bid_price_tick (cfg : Config) (m : RewardMarket) :
  exists k : Z, (10 <= k <= 990)%Z /\ bid_price cfg m == tick k.
Proof.
  unfold bid_price. rewrite fround_is_tick. eexists. split; [|apply clamp_price_tick].
  lia.
Qed.

Lemma ask_price_tick (cfg : Config) (m : RewardMarket) :
  exists k : Z, (10 <= k <= 990)%Z /\ ask_price cfg m == tick k.
Proof.
  unfold ask_price. rewrite fround_is_tick. eexists. split; [|apply clamp_price_tick].
  lia.
Qed.

Lemma ticks_all_spec (test : Z -> bool) (lo : Z) (n : nat) :
  ticks_all test lo n = true ->
  forall k : Z, (lo <= k < lo + Z.of_nat n)%Z -> test k = true.
Proof.
  revert lo. induction n as [|n IH]; intros lo H k Hk; [lia|].
  cbn [ticks_all] in H. apply andb_true_iff in H. destruct H as [H1 H2].
  destruct (Z.eq_dec k lo) as [->|N]; [exact H1|].
  apply (IH (lo + 1)%Z H2). lia.
Qed.

(** The NO price of an ask at tick [k] is the tick [1000 - k]: checked
    for each of the 981 ticks an ask can take. *)
Lemma no_side_tick (k : Z) :
  (10 <= k <= 990)%Z ->
  clamp_price (fround (fsub 1 (tick k)) 3) == tick (1000 - k).
Proof.
  intro Hk. apply Qeq_bool_iff.
  apply (ticks_all_spec
           (fun k => Qeq_bool (clamp_price (fround (fsub 1 (tick k)) 3))
                       (tick (1000 - k))) 10 981).
  - vm_compute. reflexivity.
  - lia.
Qed.

Lemma no_bid_price_tick (cfg : Config) (m : RewardMarket) :
  exists k : Z, (10 <= k <= 990)%Z /\ ask_price cfg m == tick k
                /\ no_bid_price cfg m == tick (1000 - k).
Proof.
  destruct (ask_price_tick cfg m) as (k & Hk & E).
  exists k. split; [exact Hk|]. split; [exact E|].
  unfold no_bid_price. rewrite E. apply no_side_tick, Hk.
Qed.

Lemma bid_price64_pos (cfg : Config) (m : RewardMarket) : 0 < bid_price cfg m.
Proof.
  pose proof lo_pos. pose proof (clamp_price64_bounds (fround (raw_bid cfg m) 3)).
  unfold bid_price. lra.
Qed.

Lemma no_bid_price64_pos (cfg : Config) (m : RewardMarket) :
  0 < no_bid_price cfg m.
Proof.
  pose proof lo_pos.
  pose proof (clamp_price64_bounds (fround (fsub 1 (ask_price cfg m)) 3)).
  unfold no_bid_price. lra.
Qed.

Lemma shares_for64_Qmax (size p min_shares : Q) :
  0 < p -> shares_for size p min_shares == Qmax (fdiv size p) min_shares.
Proof.
  intro Hp. unfold shares_for.
  apply ltb_lt in Hp. rewrite Hp. apply py_max_Qmax.
Qed.

(** The float sums stay within [2 ** -51] of the exact ones for terms
    between 0 and 1. *)
Lemma raw_bid_error (cfg : Config) (m : RewardMarket) :
  0 <= midpoint m <= 1 -> 0 <= max_spread m <= 1 ->
  0 <= SPREAD_SAFETY_MARGIN cfg <= 1 ->
  Qabs (raw_bid cfg m
        - (midpoint m - max_spread m + SPREAD_SAFETY_MARGIN cfg))
  <= 3 * pow2 (-53).
Proof.
  intros Hm Hs Hg. unfold raw_bid, fadd, fsub.
  set (a := midpoint m - max_spread m).
  assert (Ha : Qabs (b64 a - a) <= pow2 (-53)).
  { apply (b64_error a 0); [|lia]. change (pow2 (0 + 1)) with 2.
    apply Qabs_Qlt_condition. unfold a. lra. }
  rewrite half_ulp_53 in *.
  assert (Hb : Qabs (b64 (b64 a + SPREAD_SAFETY_MARGIN cfg)
                     - (b64 a + SPREAD_SAFETY_MARGIN cfg)) <= pow2 (-52)).
  { apply (b64_error _ 1); [|lia]. change (pow2 (1 + 1)) with 4.
    apply Qabs_Qle_condition in Ha.
    apply Qabs_Qlt_condition. unfold a in *. lra. }
  rewrite half_ulp_52 in Hb.
  apply Qabs_Qle_condition in Ha. apply Qabs_Qle_condition in Hb.
  apply Qabs_Qle_condition. lra.
Qed.

Lemma raw_ask_error (cfg : Config) (m : RewardMarket) :
  0 <= midpoint m <= 1 -> 0 <= max_spread m <= 1 ->
  0 <= SPREAD_SAFETY_MARGIN cfg <= 1 ->
  Qabs (raw_ask cfg m
        - (midpoint m + max_spread m - SPREAD_SAFETY_MARGIN cfg))
  <= 4 * pow2 (-53).
Proof.
  intros Hm Hs Hg. unfold raw_ask, fadd, fsub.
  set (a := midpoint m + max_spread m).
  assert (Ha : Qabs (b64 a - a) <= pow2 (-52)).
  { destruct (Qlt_le_dec a 2) as [Hlt|Hge].
    - eapply Qle_trans; [apply (b64_error a 0); [|lia]|].
      + change (pow2 (0 + 1)) with 2. apply Qabs_Qlt_condition. unfold a in *. lra.
      + rewrite half_ulp_53, half_ulp_52. lra.
    - apply (b64_error a 1); [|lia]. change (pow2 (1 + 1)) with 4.
      apply Qabs_Qlt_condition. unfold a in *. lra. }
  rewrite half_ulp_53. rewrite half_ulp_52 in Ha.
  assert (Hb : Qabs (b64 (b64 a - SPREAD_SAFETY_MARGIN cfg)
                     - (b64 a - SPREAD_SAFETY_MARGIN cfg)) <= pow2 (-52)).
  { apply (b64_error _ 1); [|lia]. change (pow2 (1 + 1)) with 4.
    apply Qabs_Qle_condition in Ha.
    apply Qabs_Qlt_condition. unfold a in *. lra. }
  rewrite half_ulp_52 in Hb.
  apply Qabs_Qle_condition in Ha. apply Qabs_Qle_condition in Hb.
  apply Qabs_Qle_condition. lra.
Qed.

(** When the spread exceeds the margin by [10 ** -15] the float sums are
    in order. *)
Lemma raw_bid_le_raw_ask (cfg : Config) (m : RewardMarket) :
  0 <= midpoint m <= 1 -> 0 <= max_spread m <= 1 ->
  0 <= SPREAD_SAFETY_MARGIN cfg <= 1 ->
  SPREAD_SAFETY_MARGIN cfg + (1 # 1000000000000000) <= max_spread m ->
  raw_bid cfg m <= raw_ask cfg m.
Proof.
  intros Hm Hs Hg Hd.
  pose proof (raw_bid_error cfg m Hm Hs Hg) as Eb.
  pose proof (raw_ask_error cfg m Hm Hs Hg) as Ea.
  rewrite half_ulp_53 in Eb, Ea.
  apply Qabs_Qle_condition in Eb. apply Qabs_Qle_condition in Ea. lra.
Qed.

Lemma bid_le_ask (cfg : Config) (m : RewardMarket) :
  0 <= midpoint m <= 1 -> 0 <= max_spread m <= 1 ->
  0 <= SPREAD_SAFETY_MARGIN cfg <= 1 ->
  SPREAD_SAFETY_MARGIN cfg + (1 # 1000000000000000) <= max_spread m ->
  bid_price cfg m <= ask_price cfg m.
Proof.
  intros Hm Hs Hg Hd. unfold bid_price, ask_price.
  apply clamp_price64_mono, fround_mono, raw_bid_le_raw_ask; assumption.
Qed.

Lemma bound_error_lo : Qabs (b64 0.01 - 0.01) <= 1 # 100000000000000000.
Proof. vm_compute. discriminate. Qed.

Lemma bound_error_hi : Qabs (b64 0.99 - 0.99) <= 1 # 10000000000000000.
Proof. vm_compute. discriminate. Qed.

(** A price computed from a float sum close to the exact sum is within
    half a tick, and [10 ** -15], of the exact sum clamped. *)
Lemma price_near_exact (rawf raw : Q) :
  Qabs (rawf - raw) <= 4 * pow2 (-53) -> -2 <= raw <= 3 ->
  Qabs (clamp_price (fround rawf 3) - Qmax 0.01 (Qmin 0.99 raw))
  <= (1 # 2000) + (1 # 1000000000000000).
Proof.
  intros Hr Hb. rewrite half_ulp_53 in Hr.
  pose proof (py_round3_error rawf) as Ht.
  pose proof bound_error_lo as Elo. pose proof bound_error_hi as Ehi.
  apply Qabs_Qle_condition in Hr, Ht, Elo, Ehi.
  assert (Hu : Qabs (fround rawf 3 - py_round rawf 3) <= pow2 (-52)).
  { unfold fround. apply (b64_error _ 1); [|lia]. change (pow2 (1 + 1)) with 4.
    apply Qabs_Qlt_condition. lra. }
  rewrite half_ulp_52 in Hu. apply Qabs_Qle_condition in Hu.
  apply Qabs_Qle_condition.
  destruct (clamp_price64_cases (fround rawf 3)) as [[H' E]|[[H' E]|[H' E]]];
    rewrite E;
    destruct (Q.min_spec 0.99 raw) as [[H1 E1]|[H1 E1]]; rewrite E1;
    (destruct (Q.max_spec 0.01 0.99) as [[H2 E2]|[H2 E2]];
     destruct (Q.max_spec 0.01 raw) as [[H3 E3]|[H3 E3]];
     rewrite ?E2, ?E3; lra).
Qed.

Section WithWorld.
Context {S : Type} (X : External S) (cfg : Config).

Lemma place_lp_orders_calls (m : RewardMarket) (size : Q) (w : world S) :
  calls (snd (place_lp_orders X cfg m size w))
  = calls w ++ quote_calls cfg size m.
Proof.
  unfold place_lp_orders, quote_calls, bindM.
  match goal with
  | |- context [place_side X ?o w] =>
      pose proof (place_side_calls X o w) as H1;
      destruct (place_side X o w) as [i1 w1]
  end.
  match goal with
  | |- context [place_side X ?o w1] =>
      pose proof (place_side_calls X o w1) as H2;
      destruct (place_side X o w1) as [i2 w2]
  end.
  cbn [fst snd ret] in *. rewrite H2, H1, <- app_assoc. reflexivity.
Qed.

End WithWorld.

End Strategist64Facts.
Import Strategist64Facts.

(** ** Claims about the quote strategist *)

(** C2.  Over floats, the quote strategist rests the bid at the sum
    [midpoint - maxSpread + safetyMargin] and the ask at
    [midpoint + maxSpread - safetyMargin], each rounded to 3 decimals and
    clamped to [0.01, 0.99]: clamping and rounding commute, every price is
    the float of a tick between 0.010 and 0.990, and for terms between 0
    and 1 it lies within half a tick (and [10 ** -15]) of the exact sum
    clamped.  The NO side is a buy at [clamp(1 - askPrice)], the tick that
    complements the ask; each submitted side is sized [capital / price],
    raised to [minSize] when short.  With midpoint 0.50, maxSpread 0.10
    and safetyMargin 0.005 the prices are 0.405, 0.595 and 0.405 for the NO
    side; with midpoint 0.02 and maxSpread 0.10 the bid is clamped to 0.01;
    the bid is never negative.  A sum that lands a hair above half a tick
    goes up: midpoint 0.4725 and maxSpread 0.035 give the float sum
    0.44250000000000006 and the bid 0.443. *)
Theorem quote_strategist_plan :
  forall (cfg : Config) (m : RewardMarket) (capital : Q),
    let clamp := fun x => Qmax (b64 0.01) (Qmin (b64 0.99) x) in
    let sm := SPREAD_SAFETY_MARGIN cfg in
    let raw_bid := fadd (fsub (midpoint m) (max_spread m)) sm in
    let raw_ask := fsub (fadd (midpoint m) (max_spread m)) sm in
    let bid := Strategist64.bid_price cfg m in
    let ask := Strategist64.ask_price cfg m in
    let no_bid := Strategist64.no_bid_price cfg m in
    (bid == clamp (fround raw_bid 3)
     /\ bid == fround (clamp raw_bid) 3
     /\ exists k : Z, (10 <= k <= 990)%Z /\ bid == b64 (inject_Z k / 1000))
    /\ (ask == clamp (fround raw_ask 3)
        /\ ask == fround (clamp raw_ask) 3
        /\ exists k : Z, (10 <= k <= 990)%Z /\ ask == b64 (inject_Z k / 1000))
    /\ (0 <= midpoint m <= 1 -> 0 <= max_spread m <= 1 -> 0 <= sm <= 1 ->
        Qabs (bid - Qmax 0.01 (Qmin 0.99 (midpoint m - max_spread m + sm)))
        <= (1 # 2000) + (1 # 1000000000000000)
        /\ Qabs (ask - Qmax 0.01 (Qmin 0.99 (midpoint m + max_spread m - sm)))
           <= (1 # 2000) + (1 # 1000000000000000))
    /\ no_bid == clamp (fround (fsub 1 ask) 3)
    /\ (exists k : Z,
           (10 <= k <= 990)%Z /\ ask == b64 (inject_Z k / 1000)
           /\ no_bid == b64 (inject_Z (1000 - k) / 1000))
    /\ Strategist64.bid_shares cfg m capital
       == Qmax (fdiv capital bid) (min_size m)
    /\ Strategist64.no_shares cfg m capital
       == Qmax (fdiv capital no_bid) (min_size m)
    /\ (forall (S : Type) (X : External S) (w : world S),
          calls (snd (Strategist64.place_lp_orders X cfg m capital w))
          = calls w ++ [CallPostOrder {| token_id := token_id_yes m;
                                         price := bid;
                                         order_size :=
                                           Strategist64.bid_shares cfg m capital;
                                         side := BUY |};
                        CallPostOrder {| token_id := token_id_no m;
                                         price := no_bid;
                                         order_size :=
                                           Strategist64.no_shares cfg m capital;
                                         side := BUY |}])
    /\ (midpoint m == b64 0.5 -> max_spread m == b64 0.1 -> sm == b64 0.005 ->
        bid == b64 0.405 /\ ask == b64 0.595 /\ no_bid == b64 0.405)
    /\ (midpoint m == b64 0.02 -> max_spread m == b64 0.1 -> sm == b64 0.005 ->
        bid == b64 0.01)
    /\ (midpoint m == b64 0.4725 -> max_spread m == b64 0.035 ->
        sm == b64 0.005 ->
        (1 # 2000) < raw_bid - 0.442 /\ bid == b64 0.443)
    /\ 0 < b64 0.01 <= bid.
Proof.
  intros cfg m capital clamp sm raw_bid raw_ask bid ask no_bid.
  assert (Hclamp : forall x, Strategist64.clamp_price x == clamp x)
    by (intro x; apply clamp_price64_Qmax).
  assert (Hside : forall raw,
            Strategist64.clamp_price (fround raw 3) == clamp (fround raw 3)
            /\ Strategist64.clamp_price (fround raw 3) == fround (clamp raw) 3
            /\ exists k : Z,
                 (10 <= k <= 990)%Z
                 /\ Strategist64.clamp_price (fround raw 3)
                    == b64 (inject_Z k / 1000)).
  { intro raw. split; [apply Hclamp|]. split.
    { rewrite clamp_fround_commute. now rewrite (Hclamp raw). }
    rewrite fround_is_tick. eexists. split; [|apply clamp_price_tick]. lia. }
  split; [apply (Hside raw_bid)|].
  split; [apply (Hside raw_ask)|].
  split.
  { intros Hm Hs Hg. split.
    - apply price_near_exact; [|fold sm; lra].
      eapply Qle_trans; [apply raw_bid_error; assumption|].
      pose proof (pow2_pos (-53)). lra.
    - apply price_near_exact; [|fold sm; lra].
      apply raw_ask_error; assumption. }
  split; [apply Hclamp|].
  split; [apply no_bid_price_tick|].
  split; [apply shares_for64_Qmax, bid_price64_pos|].
  split; [apply shares_for64_Qmax, no_bid_price64_pos|].
  split; [intros S X w; apply place_lp_orders_calls|].
  split.
  { intros Hm Hs Hsm. unfold no_bid, Strategist64.no_bid_price.
    unfold bid, ask, Strategist64.bid_price, Strategist64.ask_price,
      Strategist64.raw_bid, Strategist64.raw_ask.
    fold sm. rewrite Hm, Hs, Hsm.
    split; [|split]; vm_compute; reflexivity. }
  split.
  { intros Hm Hs Hsm.
    unfold bid, Strategist64.bid_price, Strategist64.raw_bid.
    fold sm. rewrite Hm, Hs, Hsm. vm_compute; reflexivity. }
  split.
  { intros Hm Hs Hsm.
    unfold bid, Strategist64.bid_price, Strategist64.raw_bid, raw_bid.
    fold sm. rewrite Hm, Hs, Hsm. split; vm_compute; reflexivity. }
  split; [apply lo_pos|].
  apply (clamp_price64_bounds (fround (Strategist64.raw_bid cfg m) 3)).
Qed.

Lemma quote_strategist_plan_witness :
  let m := float_market 0.5 0.1 20 in
  let m' := float_market 0.02 0.1 20 in
  (Strategist64.bid_price float_config m == b64 0.405
   /\ Strategist64.ask_price float_config m == b64 0.595
   /\ Strategist64.no_bid_price float_config m == b64 0.405)
  /\ Strategist64.bid_price float_config m' == b64 0.01
  /\ Strategist64.bid_price float_config (float_market 0.4725 0.035 20)
     == b64 0.443
  /\ Qabs (Strategist64.bid_price float_config m
           - Qmax 0.01 (Qmin 0.99 (midpoint m - max_spread m
                                   + SPREAD_SAFETY_MARGIN float_config)))
     <= (1 # 2000) + (1 # 1000000000000000).
Proof.
  intros m m'.
  destruct (quote_strategist_plan float_config m 500)
    as (_ & _ & Herr & _ & _ & _ & _ & _ & Hex & _).
  destruct (quote_strategist_plan float_config m' 500)
    as (_ & _ & _ & _ & _ & _ & _ & _ & _ & Hclamp & _).
  destruct (quote_strategist_plan float_config
              (float_market 0.4725 0.035 20) 500)
    as (_ & _ & _ & _ & _ & _ & _ & _ & _ & _ & Hup & _).
  split; [apply Hex; vm_compute; reflexivity|].
  split; [apply Hclamp; vm_compute; reflexivity|].
  split; [apply Hup; vm_compute; reflexivity|].
  apply Herr; vm_compute; split; discriminate.
Defined.

(** C10, as stated, fails: with [maxSpread] equal to the safety margin,
    0.005, and midpoint 0.0135 the float sums are 0.013500000000000002 for
    the bid and 0.013499999999999998 for the ask, which round to the bid
    0.014 above the ask 0.013. *)
Lemma quotes_cross_at_margin_counterexample :
  let m := float_market 0.0135 0.005 20 in
  SPREAD_SAFETY_MARGIN float_config <= max_spread m
  /\ Strategist64.bid_price float_config m == b64 0.014
  /\ Strategist64.ask_price float_config m == b64 0.013
  /\ Strategist64.ask_price float_config m
     < Strategist64.bid_price float_config m.
Proof.
  cbv zeta. split; [vm_compute; discriminate|].
  split; [vm_compute; reflexivity|].
  split; vm_compute; reflexivity.
Qed.

(** C10, amended.  For a midpoint, a [maxSpread] and a safety margin
    between 0 and 1, when [maxSpread] exceeds the margin by at least
    [10 ** -15] the rounded and clamped quotes do not cross,
    [bidPrice <= askPrice]; below the margin they can: with
    [maxSpread = 0.001], the default margin 0.005 and midpoint 0.5 the bid
    0.504 is above the ask 0.496. *)
Theorem quotes_ordered_above_margin :
  (forall (cfg : Config) (m : RewardMarket),
      0 <= midpoint m <= 1 -> 0 <= max_spread m <= 1 ->
      0 <= SPREAD_SAFETY_MARGIN cfg <= 1 ->
      SPREAD_SAFETY_MARGIN cfg + (1 # 1000000000000000) <= max_spread m ->
      Strategist64.bid_price cfg m <= Strategist64.ask_price cfg m)
  /\ (let m := float_market 0.5 0.001 20 in
      max_spread m < SPREAD_SAFETY_MARGIN float_config
      /\ max_spread m == b64 0.001 /\ midpoint m == b64 0.5
      /\ SPREAD_SAFETY_MARGIN float_config == b64 0.005
      /\ Strategist64.bid_price float_config m == b64 0.504
      /\ Strategist64.ask_price float_config m == b64 0.496
      /\ Strategist64.ask_price float_config m
         < Strategist64.bid_price float_config m).
Proof.
  split.
  - intros cfg m Hm Hs Hg Hd. apply bid_le_ask; assumption.
  - cbv zeta. repeat split; vm_compute; reflexivity.
Qed.

Lemma quotes_ordered_above_margin_witness :
  let m := float_market 0.0135 0.006 20 in
  Strategist64.bid_price float_config m <= Strategist64.ask_price float_config m.
Proof.
  intro m. apply (proj1 quotes_ordered_above_margin);
    vm_compute; try split; discriminate.
Defined.

(** ** The stable sort *)

Module PyListFacts.

Section Sort.
Context {A : Type} (key : A -> Q) (reverse : bool).

Lemma precedes_asym (x y : A) :
  precedes key reverse y x = true -> precedes key reverse x y = false.
Proof.
  unfold precedes. destruct reverse; intro H; apply ltb_lt in H;
    apply ltb_ge; lra.
Qed.

Lemma not_precedes_trans (x y z : A) :
  precedes key reverse z y = false -> precedes key reverse y x = false ->
  precedes key reverse z x = false.
Proof.
  unfold precedes. destruct reverse; intros H1 H2;
    apply ltb_ge in H1; apply ltb_ge in H2; apply ltb_ge; lra.
Qed.

Lemma precedes_key_neq (x y : A) (k : Q) :
  precedes key reverse y x = true ->
  Qeq_bool (key y) k = true -> Qeq_bool (key x) k = true -> False.
Proof.
  unfold precedes. intros H Hy Hx.
  apply Qeq_bool_iff in Hy. apply Qeq_bool_iff in Hx.
  destruct reverse; apply ltb_lt in H; lra.
Qed.

Lemma insert_sorted_perm (x : A) (l : list A) :
  Permutation (insert_sorted key reverse x l) (x :: l).
Proof.
  induction l as [|y l IH]; simpl.
  - apply Permutation_refl.
  - destruct (precedes key reverse y x).
    + eapply Permutation_trans; [apply perm_skip, IH | apply perm_swap].
    + apply Permutation_refl.
Qed.

Lemma py_sort_perm (l : list A) : Permutation (py_sort key reverse l) l.
Proof.
  induction l as [|x l IH]; simpl.
  - apply perm_nil.
  - eapply Permutation_trans; [apply insert_sorted_perm | apply perm_skip, IH].
Qed.

(** Sorted: no element is strictly preceded by a later one. *)
Lemma insert_sorted_sorted (x : A) (l : list A) :
  StronglySorted (fun a b => precedes key reverse b a = false) l ->
  StronglySorted (fun a b => precedes key reverse b a = false)
    (insert_sorted key reverse x l).
Proof.
  induction l as [|y l IH]; intro Hs; simpl.
  - constructor; constructor.
  - inversion Hs as [|? ? Hs' Hall]; subst.
    destruct (precedes key reverse y x) eqn:E.
    + constructor; [apply IH, Hs'|].
      apply (Permutation_Forall (Permutation_sym (insert_sorted_perm x l))).
      constructor; [apply precedes_asym, E | exact Hall].
    + constructor; [exact Hs|].
      constructor; [exact E|].
      eapply Forall_impl; [|exact Hall].
      intros z Hz. cbv beta in Hz. eapply not_precedes_trans; eauto.
Qed.

Lemma py_sort_sorted (l : list A) :
  StronglySorted (fun a b => precedes key reverse b a = false)
    (py_sort key reverse l).
Proof.
  induction l as [|x l IH]; simpl.
  - constructor.
  - apply insert_sorted_sorted, IH.
Qed.

(** Stable: the elements of any one key keep their input order. *)
Lemma insert_sorted_stable (k : Q) (x : A) (l : list A) :
  filter (fun a => Qeq_bool (key a) k) (insert_sorted key reverse x l)
  = filter (fun a => Qeq_bool (key a) k) (x :: l).
Proof.
  induction l as [|y l IH]; [reflexivity|].
  cbn [insert_sorted].
  destruct (precedes key reverse y x) eqn:E; [|reflexivity].
  cbn [filter] in *. rewrite IH.
  destruct (Qeq_bool (key y) k) eqn:Ey; [|reflexivity].
  destruct (Qeq_bool (key x) k) eqn:Ex; [|reflexivity].
  exfalso. eapply precedes_key_neq; eauto.
Qed.

Lemma py_sort_stable (k : Q) (l : list A) :
  filter (fun a => Qeq_bool (key a) k) (py_sort key reverse l)
  = filter (fun a => Qeq_bool (key a) k) l.
Proof.
  induction l as [|x l IH]; [reflexivity|].
  cbn [py_sort]. rewrite insert_sorted_stable. cbn [filter]. now rewrite IH.
Qed.

End Sort.

Lemma py_sort_reverse_sorted {A : Type} (key : A -> Q) (l : list A) :
  StronglySorted (fun a b => key b <= key a) (py_sort key true l).
Proof.
  pose proof (py_sort_sorted key true l) as H.
  induction H as [|a l' Hs IH Hall]; constructor; [exact IH|].
  eapply Forall_impl; [|exact Hall].
  intros b Hb. cbv beta in Hb. unfold precedes in Hb. apply ltb_ge in Hb. exact Hb.
Qed.

End PyListFacts.
Import PyListFacts.

(** ** Claims about the ranker *)

Module RankerFacts.

Lemma has_rewards_spec (m : RewardMarket) :
  has_rewards m = true <-> 0 < daily_reward m /\ 0 < max_spread m.
Proof. unfold has_rewards. now rewrite andb_true_iff, !ltb_lt. Qed.

Lemma passes_filters_spec (cfg : Config) (m : RewardMarket) :
  passes_filters cfg m = true
  <-> inject_Z (MIN_DAYS_TO_RESOLUTION cfg) <= days_to_resolution m
      /\ MIN_DAILY_REWARD cfg <= daily_reward m
      /\ competition_score m <= MAX_COMPETITION_SCORE cfg.
Proof.
  unfold passes_filters.
  rewrite !andb_true_iff, !negb_true_iff, !ltb_ge. tauto.
Qed.

End RankerFacts.
Import RankerFacts.

(** C1.  Every market the ranker returns has [dailyReward > 0],
    [maxSpread > 0], [daysToResolution >= minDays],
    [dailyReward >= minDailyReward] and [competitionScore <= maxCompetition];
    the output holds exactly the eligible inputs, is non-ascending in
    [rewardPerDollar], keeps the input order among equal keys, and is the
    same for the same input. *)
Theorem ranker_eligible_sorted_stable :
  forall (cfg : Config) (all_markets : list RewardMarket),
    let out := rank_markets cfg all_markets in
    let eligible := fun m => has_rewards m && passes_filters cfg m in
    Forall (fun m =>
              0 < daily_reward m /\ 0 < max_spread m
              /\ inject_Z (MIN_DAYS_TO_RESOLUTION cfg) <= days_to_resolution m
              /\ MIN_DAILY_REWARD cfg <= daily_reward m
              /\ competition_score m <= MAX_COMPETITION_SCORE cfg) out
    /\ Permutation out (filter eligible all_markets)
    /\ StronglySorted
         (fun a b => reward_per_dollar b <= reward_per_dollar a) out
    /\ (forall k : Q,
          filter (fun m => Qeq_bool (reward_per_dollar m) k) out
          = filter (fun m => Qeq_bool (reward_per_dollar m) k)
              (filter eligible all_markets))
    /\ (forall all_markets' : list RewardMarket,
          all_markets' = all_markets -> rank_markets cfg all_markets' = out).
Proof.
  intros cfg all_markets out eligible.
  assert (Hfilt : filter (passes_filters cfg) (filter has_rewards all_markets)
                  = filter eligible all_markets).
  { unfold eligible. induction all_markets as [|m l IH]; [reflexivity|].
    cbn [filter]. destruct (has_rewards m); cbn [filter andb]; now rewrite IH. }
  assert (Hperm : Permutation out (filter eligible all_markets)).
  { unfold out, rank_markets. rewrite Hfilt. apply py_sort_perm. }
  split.
  { apply Forall_forall. intros m Hin.
    apply (Permutation_in _ Hperm) in Hin.
    apply filter_In in Hin. destruct Hin as [_ He].
    unfold eligible in He. apply andb_true_iff in He. destruct He as [H1 H2].
    apply has_rewards_spec in H1. apply passes_filters_spec in H2. tauto. }
  split; [exact Hperm|].
  split; [apply py_sort_reverse_sorted|].
  split.
  { intro k. unfold out, rank_markets. rewrite Hfilt. apply py_sort_stable. }
  intros all_markets' ->. reflexivity.
Qed.

Lemma ranker_eligible_sorted_stable_witness :
  map question (rank_markets default_config sample_markets)
  = [PStr "e"; PStr "b"; PStr "d"; PStr "a"]
  /\ rank_markets default_config (sample_markets ++ [])
     = rank_markets default_config sample_markets.
Proof.
  split; [vm_compute; reflexivity|].
  apply (ranker_eligible_sorted_stable default_config sample_markets).
  apply app_nil_r.
Defined.

(** ** The fill-risk monitor *)

Module MonitorFacts.


End MonitorFacts.
Import MonitorFacts.

(** ** The fill-risk monitor over floats *)

Module Monitor64Facts.
Import Monitor64.

(** The chain of comparisons in terms of the smaller distance, for a
    threshold that is a float. *)
Lemma fill_risk_level64_spec (T bd ad : Q) :
  b64 T == T -> 0 <= bd -> 0 <= ad ->
  let d := Qmin bd ad in
  (fill_risk_level T bd ad = CRITICAL <-> d < T)
  /\ (fill_risk_level T bd ad = WARNING <-> T <= d /\ d < fmul T 2)
  /\ (fill_risk_level T bd ad = WATCH <-> fmul T 2 <= d /\ d < fmul T 3)
  /\ (fill_risk_level T bd ad = SAFE <-> fmul T 3 <= d).
Proof.
  intros HT Hb Ha d. unfold fill_risk_level.
  assert (Hd : (bd <= ad /\ d == bd) \/ (ad <= bd /\ d == ad)).
  { unfold d. destruct (Q.min_spec bd ad) as [[H E]|[H E]]; [left | right];
      split; auto; lra. }
  assert (Hord : (0 <= T /\ T <= fmul T 2 /\ fmul T 2 <= fmul T 3)
                 \/ (T < 0 /\ fmul T 2 <= 0 /\ fmul T 3 <= 0)).
  { unfold fmul. destruct (Qlt_le_dec T 0) as [Hn|Hp].
    - right. split; [exact Hn|]. split; apply b64_nonpos; lra.
    - left. split; [exact Hp|]. split.
      + rewrite <- HT at 1. apply b64_mono. lra.
      + apply b64_mono. lra. }
  generalize dependent (fmul T 2). generalize dependent (fmul T 3).
  intros T3 T2 Hord.
  destruct (ltb_cases bd T) as [[H1 ->]|[H1 ->]];
    destruct (ltb_cases ad T) as [[H2 ->]|[H2 ->]];
    destruct (ltb_cases bd T2) as [[H3 ->]|[H3 ->]];
    destruct (ltb_cases ad T2) as [[H4 ->]|[H4 ->]];
    destruct (ltb_cases bd T3) as [[H5 ->]|[H5 ->]];
    destruct (ltb_cases ad T3) as [[H6 ->]|[H6 ->]];
    cbn [orb];
    destruct Hd as [[Hle E]|[Hle E]]; rewrite E;
    destruct Hord as [(O1 & O2 & O3)|(O1 & O2 & O3)];
    repeat split; intros; try discriminate; try reflexivity;
    try (exfalso; lra); try lra.
Qed.

Lemma fill_risk_level_not_LOW (T bd ad : Q) : fill_risk_level T bd ad <> LOW.
Proof.
  unfold fill_risk_level.
  repeat match goal with
         | |- context [if ?b then _ else _] => destruct b
         end; discriminate.
Qed.

#[global] Instance fill_risk_level_comp :
  Proper (Qeq ==> Qeq ==> Qeq ==> eq) fill_risk_level.
Proof.
  intros T T' HT b b' Hb a a' Ha. unfold fill_risk_level.
  assert (H2 : fmul T 2 == fmul T' 2) by (now rewrite HT).
  assert (H3 : fmul T 3 == fmul T' 3) by (now rewrite HT).
  rewrite (ltb_comp b b' Hb T T' HT), (ltb_comp a a' Ha T T' HT),
    (ltb_comp b b' Hb _ _ H2), (ltb_comp a a' Ha _ _ H2),
    (ltb_comp b b' Hb _ _ H3), (ltb_comp a a' Ha _ _ H3).
  reflexivity.
Qed.

(** The float of [T * 2] is the exact double of a float threshold in the
    normal range. *)
Lemma Qlog2_double (x : Q) : 0 < x -> Qlog2 (2 * x) = (Qlog2 x + 1)%Z.
Proof.
  intro Hx. destruct (Qlog2_spec x Hx) as [L1 L2].
  apply Qlog2_unique; [lra | |].
  - rewrite pow2_succ. lra.
  - rewrite pow2_succ. lra.
Qed.

Lemma b64_double (x : Q) : pow2 (-1022) <= x -> b64 (2 * x) == 2 * b64 x.
Proof.
  intro Hx. pose proof (pow2_pos (-1022)) as P.
  destruct (b64_cases x) as [[H0 E]|[[H0 E]|[H0 E]]]; try (exfalso; lra).
  destruct (b64_cases (2 * x)) as [[H1 E1]|[[H1 E1]|[H1 E1]]];
    try (exfalso; lra).
  rewrite E, E1. unfold round_pos.
  assert (Hl : (-1022 <= Qlog2 x)%Z).
  { destruct (Qlog2_spec x H0) as [_ L2].
    assert ((-1022 < Qlog2 x + 1)%Z) by (apply pow2_lt_inv; lra). lia. }
  assert (Ef : fexp (2 * x) = (fexp x + 1)%Z).
  { unfold fexp. rewrite Qlog2_double by exact H0. lia. }
  rewrite Ef. pose proof (pow2_pos (fexp x)) as Pe.
  assert (Es : 2 * x / pow2 (fexp x + 1) == x / pow2 (fexp x)).
  { rewrite pow2_succ. field. lra. }
  rewrite (round_half_even_comp _ _ Es), pow2_succ. ring.
Qed.

Lemma alert_message_spec (pos : ActivePosition) (mid : Q) (level : RiskLevel) :
  sliceable (question (market pos)) = true ->
  (exists msg : Message, alert_message pos mid level = Ok (Some msg)
                         /\ (level = CRITICAL \/ level = WARNING))
  \/ (alert_message pos mid level = Ok None
      /\ level <> CRITICAL /\ level <> WARNING).
Proof.
  intro Hs. destruct (sliceable_spec _ 60 Hs) as [q Hq].
  unfold alert_message. rewrite Hq. cbn [bind].
  destruct level;
    try (right; split; [reflexivity | split; discriminate]);
    left; eexists; split; try reflexivity; auto.
Qed.

(** What the inner [try] makes of the answer of the midpoint service. *)
Lemma read_midpoint_cases (env : Builtins) (m : RewardMarket) :
  (forall e : exn, read_midpoint env m (Raise e) = midpoint m)
  /\ (forall (d : dict) (q : Q),
        dict_lookup d "mid" = Some (PNum q) ->
        Qabs q < float_overflow ->
        read_midpoint env m (Ok (PDict d)) = b64 q)
  /\ (forall (d : dict) (s : string) (q : Q),
        dict_lookup d "mid" = Some (PStr s) ->
        float_of_str env s = Some q ->
        read_midpoint env m (Ok (PDict d)) = b64 q)
  /\ (forall d : dict,
        dict_lookup d "mid" = None ->
        read_midpoint env m (Ok (PDict d)) = midpoint m)
  /\ (forall (d : dict) (v : pyval),
        dict_lookup d "mid" = Some v ->
        (exists e : exn, to_float env v = Raise e) ->
        read_midpoint env m (Ok (PDict d)) = midpoint m)
  /\ (forall v : pyval,
        (forall d : dict, v <> PDict d) ->
        read_midpoint env m (Ok v) = midpoint m).
Proof.
  unfold read_midpoint.
  split; [reflexivity|].
  split.
  { intros d q Hl Hq. cbn [bind]. rewrite Hl. unfold to_float, py_float.
    destruct (Qle_bool float_overflow (Qabs q)) eqn:E; [|reflexivity].
    apply Qle_bool_iff in E. exfalso. lra. }
  split.
  { intros d s q Hl Hs. cbn [bind]. rewrite Hl. unfold to_float, py_float.
    rewrite Hs. reflexivity. }
  split.
  { intros d Hl. cbn [bind]. rewrite Hl. reflexivity. }
  split.
  { intros d v Hl [e He]. cbn [bind]. rewrite Hl, He. reflexivity. }
  intros v Hv. cbn [bind].
  destruct v; try reflexivity. exfalso. apply (Hv d). reflexivity.
Qed.

Section WithWorld.
Context {S : Type} (X : External S) (cfg : Config) (env : Builtins).

Lemma current_midpoint_spec (m : RewardMarket) (w : world S) :
  fst (current_midpoint X env m w)
  = read_midpoint env m (fst (clob_midpoint X (token_id_yes m) (ext_state w)))
  /\ calls (snd (current_midpoint X env m w))
     = calls w ++ [CallMidpoint (token_id_yes m)].
Proof.
  unfold current_midpoint, bindM, call_ext, ret.
  destruct (clob_midpoint X (token_id_yes m) (ext_state w)). auto.
Qed.

(** One turn of the monitor on a position whose question can be sliced:
    the tier at the midpoint read from the service, and the alert of
    exactly that tier. *)
Lemma check_position_spec (pos : ActivePosition) (w : world S) :
  sliceable (question (market pos)) = true ->
  let live := read_midpoint env (market pos)
                (fst (clob_midpoint X (token_id_yes (market pos))
                        (ext_state w))) in
  let level := position_level cfg pos live in
  snd (fst (check_position X cfg env pos w)) = set_risk_level pos level
  /\ fst (fst (check_position X cfg env pos w)) = alert_message pos live level
  /\ exists alert : option Message,
       alert_message pos live level = Ok alert
       /\ calls (snd (check_position X cfg env pos w))
          = calls w ++ [CallMidpoint (token_id_yes (market pos))]
            ++ (if telegram_enabled cfg
                then match alert with
                     | Some msg => [CallTelegram msg]
                     | None => []
                     end
                else []).
Proof.
  intros Hq live level. unfold check_position, bindM.
  destruct (current_midpoint_spec (market pos) w) as [Hm Hc].
  destruct (current_midpoint X env (market pos) w) as [mid w1].
  cbn [fst snd] in Hm, Hc. fold live in Hm. subst mid. fold level.
  destruct (alert_message_spec pos live level Hq)
    as [(msg & E & _)|(E & _)]; rewrite E.
  - pose proof (send_telegram_exact X cfg msg w1) as Ht.
    destruct (send_telegram X cfg msg w1) as [u w2].
    cbn [fst snd ret] in *. split; [reflexivity|]. split; [reflexivity|].
    exists (Some msg). split; [reflexivity|].
    rewrite Ht, Hc, <- app_assoc. reflexivity.
  - cbn [fst snd ret]. split; [reflexivity|]. split; [reflexivity|].
    exists None. split; [reflexivity|].
    rewrite Hc. destruct (telegram_enabled cfg); reflexivity.
Qed.

(** A monitoring pass over positions whose questions can be sliced runs
    to its end: one alert per position left in an alerting tier, none
    else; only midpoint reads and notifications; nothing of a position
    changes but its level, which is never left at LOW. *)
Lemma check_fill_risk_spec (positions : list ActivePosition) (w : world S) :
  Forall (fun p => sliceable (question (market p)) = true) positions ->
  let r := check_fill_risk X cfg env positions w in
  exists (alerts : list Message) (rest : list Call),
    fst (fst r) = Ok alerts
    /\ Forall2 same_but_level positions (snd (fst r))
    /\ List.length alerts
       = List.length
           (filter (fun p => match risk_level p with
                             | CRITICAL | WARNING => true
                             | _ => false
                             end) (snd (fst r)))
    /\ calls (snd r) = calls w ++ rest
    /\ forallb is_passive_call rest = true
    /\ filter is_midpoint_call rest
       = map (fun p => CallMidpoint (token_id_yes (market p))) positions
    /\ filter is_telegram_call rest
       = (if telegram_enabled cfg then map CallTelegram alerts else []).
Proof.
  intro Hall. revert w.
  induction Hall as [|pos rest Hq _ IH]; intro w.
  - exists [], []. cbn. rewrite app_nil_r.
    destruct (telegram_enabled cfg); repeat split; constructor.
  - cbn [check_fill_risk]. unfold bindM.
    destruct (check_position_spec pos w Hq) as (Hp & Ha & alert & Hal & Hc).
    set (live := read_midpoint env (market pos)
                   (fst (clob_midpoint X (token_id_yes (market pos))
                           (ext_state w)))) in *.
    set (level := position_level cfg pos live) in *.
    destruct (check_position X cfg env pos w) as [[a p'] w1].
    cbn [fst snd] in Hp, Ha, Hc. subst p'. rewrite Hal in Ha. subst a.
    cbn [fst snd].
    destruct (IH w1) as (alerts & calls2 & H1 & H2 & H3 & H4 & H5 & H6 & H7).
    destruct (check_fill_risk X cfg env rest w1) as [[ra ps] w2].
    cbn [fst snd ret] in *. subst ra. cbn [bind].
    assert (Hlevel : level <> LOW) by apply fill_risk_level_not_LOW.
    destruct (alert_message_spec pos live level Hq)
      as [(msg & E & Hl)|(E & Hl1 & Hl2)]; rewrite E in Hal;
      injection Hal as <-.
    + exists (msg :: alerts).
      exists ([CallMidpoint (token_id_yes (market pos))]
              ++ (if telegram_enabled cfg then [CallTelegram msg] else [])
              ++ calls2).
      split; [reflexivity|].
      split; [constructor; [exists level; auto | exact H2]|].
      split.
      { cbn [filter risk_level set_risk_level].
        destruct Hl as [-> | ->]; cbn [List.length]; now rewrite H3. }
      split; [rewrite H4, Hc, <- !app_assoc; reflexivity|].
      split; [destruct (telegram_enabled cfg); cbn; exact H5|].
      split; [destruct (telegram_enabled cfg); cbn; now rewrite H6|].
      destruct (telegram_enabled cfg); cbn; now rewrite H7.
    + exists alerts.
      exists ([CallMidpoint (token_id_yes (market pos))] ++ calls2).
      split; [reflexivity|].
      split; [constructor; [exists level; auto | exact H2]|].
      split.
      { cbn [filter risk_level set_risk_level].
        destruct level; try congruence; exact H3. }
      split.
      { rewrite H4, Hc. destruct (telegram_enabled cfg);
          rewrite <- !app_assoc; reflexivity. }
      split; [cbn; exact H5|].
      split; [cbn; now rewrite H6|].
      cbn. exact H7.
Qed.

End WithWorld.

End Monitor64Facts.
Import Monitor64Facts.

(** ** Claims about the fill-risk monitor *)

(** C3.  With [d] the smaller of the distances [|midpoint - ourBidPrice|]
    and [|midpoint - ourAskPrice|] as the monitor computes them, and [T]
    the configured threshold (a float), a position is CRITICAL iff
    [d < T], WARNING iff [T <= d < T * 2], WATCH iff [T * 2 <= d < T * 3]
    and SAFE iff [d >= T * 3], the products being those of the floats
    ([T * 2] is exact in the normal range, [T * 3] within [2 ** -52] of
    the exact product for [T] up to 1).  The midpoint is the one the
    service reports, read as a float, and the one of the snapshot when the
    request or the reading fails.  For a position whose question can be
    sliced (every position the loop creates), an alert is built exactly
    for CRITICAL and WARNING, the position leaves the monitor at its tier,
    and a pass returns one alert per position left in these two tiers.
    With [T = 0.02] the distances 0.019, 0.025, 0.05 and 0.10 are
    CRITICAL, WARNING, WATCH and SAFE; a quote at 0.405 under a midpoint
    of 0.425 is CRITICAL, the computed distance being
    0.01999999999999996. *)
Theorem fill_risk_tiers :
  forall (cfg : Config) (pos : ActivePosition) (mid : Q),
    let T := FILL_ALERT_THRESHOLD cfg in
    let d := Qmin (Qabs (fsub mid (our_bid_price pos)))
                  (Qabs (fsub mid (our_ask_price pos))) in
    let level := Monitor64.position_level cfg pos mid in
    b64 T == T ->
    (level = CRITICAL <-> d < T)
    /\ (level = WARNING <-> T <= d /\ d < fmul T 2)
    /\ (level = WATCH <-> fmul T 2 <= d /\ d < fmul T 3)
    /\ (level = SAFE <-> fmul T 3 <= d)
    /\ (pow2 (-1022) <= T -> fmul T 2 == 2 * T)
    /\ (0 <= T <= 1 -> Qabs (fmul T 3 - 3 * T) <= pow2 (-52))
    /\ (sliceable (question (market pos)) = true ->
        ((exists msg : Message,
             Monitor64.alert_message pos mid level = Ok (Some msg))
         <-> level = CRITICAL \/ level = WARNING)
        /\ (Monitor64.alert_message pos mid level = Ok None
            <-> level <> CRITICAL /\ level <> WARNING))
    /\ (forall (S : Type) (X : External S) (env : Builtins) (w : world S),
          sliceable (question (market pos)) = true ->
          let answer := fst (clob_midpoint X (token_id_yes (market pos))
                               (ext_state w)) in
          let live := Monitor64.read_midpoint env (market pos) answer in
          let r := fst (Monitor64.check_position X cfg env pos w) in
          snd r = set_risk_level pos (Monitor64.position_level cfg pos live)
          /\ fst r = Monitor64.alert_message pos live
                       (Monitor64.position_level cfg pos live)
          /\ (forall e : exn, answer = Raise e -> live = midpoint (market pos))
          /\ (forall (dct : dict) (q : Q),
                answer = Ok (PDict dct) ->
                dict_lookup dct "mid" = Some (PNum q) ->
                Qabs q < float_overflow ->
                live = b64 q)
          /\ (forall (dct : dict) (s : string) (q : Q),
                answer = Ok (PDict dct) ->
                dict_lookup dct "mid" = Some (PStr s) ->
                float_of_str env s = Some q ->
                live = b64 q)
          /\ (forall dct : dict,
                answer = Ok (PDict dct) ->
                dict_lookup dct "mid" = None ->
                live = midpoint (market pos)))
    /\ (forall (S : Type) (X : External S) (env : Builtins)
               (positions : list ActivePosition) (w : world S),
          Forall (fun p => sliceable (question (market p)) = true) positions ->
          let r := fst (Monitor64.check_fill_risk X cfg env positions w) in
          exists alerts : list Message,
            fst r = Ok alerts
            /\ List.length (snd r) = List.length positions
            /\ List.length alerts
               = List.length
                   (filter (fun p => match risk_level p with
                                     | CRITICAL | WARNING => true
                                     | _ => false
                                     end) (snd r)))
    /\ (T == b64 0.02 ->
        (d == b64 0.019 -> level = CRITICAL)
        /\ (d == b64 0.025 -> level = WARNING)
        /\ (d == b64 0.05 -> level = WATCH)
        /\ (d == b64 0.10 -> level = SAFE)
        /\ (our_bid_price pos == b64 0.405 -> our_ask_price pos == b64 0.595 ->
            mid == b64 0.425 -> level = CRITICAL)).
Proof.
  intros cfg pos mid T d level HT.
  pose proof (fill_risk_level64_spec T _ _ HT
                (Qabs_nonneg (fsub mid (our_bid_price pos)))
                (Qabs_nonneg (fsub mid (our_ask_price pos)))) as H.
  cbv zeta in H. fold d in H.
  change (Monitor64.fill_risk_level T (Qabs (fsub mid (our_bid_price pos)))
            (Qabs (fsub mid (our_ask_price pos)))) with level in H.
  destruct H as (Hc & Hw & Hwa & Hs).
  repeat (split; [assumption|]).
  split.
  { intro Hn. unfold fmul.
    assert (E : T * 2 == 2 * T) by ring.
    rewrite E, b64_double, HT by exact Hn. reflexivity. }
  split.
  { intro Hb. unfold fmul. setoid_replace (3 * T) with (T * 3) by ring.
    apply (b64_error _ 1); [|lia].
    change (pow2 (1 + 1)) with 4. apply Qabs_Qlt_condition. lra. }
  split.
  { intro Hq.
    destruct (alert_message_spec pos mid level Hq)
      as [(msg & E & Hl)|(E & Hl1 & Hl2)]; rewrite E; split; split.
    - intros _. exact Hl.
    - intros _. exists msg. reflexivity.
    - discriminate.
    - intros [H1 H2]. destruct Hl; contradiction.
    - intros [msg H]. discriminate H.
    - intros [H|H]; contradiction.
    - intros _. auto.
    - reflexivity. }
  split.
  { intros S X env w Hq answer live r.
    destruct (check_position_spec X cfg env pos w Hq) as (Hp & Ha & _).
    fold answer live in Hp, Ha. fold r in Hp, Ha.
    destruct (read_midpoint_cases env (market pos))
      as (R1 & R2 & R3 & R4 & _).
    split; [exact Hp|]. split; [exact Ha|].
    split; [intros e E; unfold live; rewrite E; apply R1|].
    split; [intros dct q E Hl Hb; unfold live; rewrite E; now apply R2|].
    split; [intros dct s q E Hl Hf; unfold live; rewrite E; now apply (R3 dct s)|].
    intros dct E Hl. unfold live. rewrite E. now apply R4. }
  split.
  { intros S X env positions w Hall r.
    destruct (check_fill_risk_spec X cfg env positions w Hall)
      as (alerts & rest & H1 & H2 & H3 & _).
    fold r in H1, H2, H3. exists alerts.
    split; [exact H1|]. split; [|exact H3].
    symmetry. eapply Forall2_length, H2. }
  intro E02.
  split; [|split; [|split; [|split]]].
  - intro Hd. apply Hc. rewrite Hd, E02. vm_compute. reflexivity.
  - intro Hd. apply Hw. rewrite Hd, E02. split; vm_compute;
      [discriminate | reflexivity].
  - intro Hd. apply Hwa. rewrite Hd, E02. split; vm_compute;
      [discriminate | reflexivity].
  - intro Hd. apply Hs. rewrite Hd, E02. vm_compute. discriminate.
  - intros Hb Ha Hm. unfold level, Monitor64.position_level,
      Monitor64.bid_distance, Monitor64.ask_distance.
    fold T.
    assert (Eb : Qabs (fsub mid (our_bid_price pos))
                 == Qabs (fsub (b64 0.425) (b64 0.405)))
      by (now rewrite Hm, Hb).
    assert (Ea : Qabs (fsub mid (our_ask_price pos))
                 == Qabs (fsub (b64 0.425) (b64 0.595)))
      by (now rewrite Hm, Ha).
    rewrite (fill_risk_level_comp _ _ E02 _ _ Eb _ _ Ea).
    vm_compute. reflexivity.
Qed.

Lemma fill_risk_tiers_witness :
  let pos := float_position 0.3 0.7 (Some "0xaa") (Some "0xbb") in
  let quoted := float_position 0.405 0.595 (Some "0xaa") (Some "0xbb") in
  (Monitor64.position_level float_config pos (b64 0.319) = CRITICAL
   /\ Monitor64.position_level float_config pos (b64 0.325) = WARNING
   /\ Monitor64.position_level float_config pos (b64 0.35) = WATCH
   /\ Monitor64.position_level float_config pos (b64 0.4) = SAFE)
  /\ Monitor64.position_level float_config quoted (b64 0.425) = CRITICAL
  /\ map risk_level
       (snd (fst (Monitor64.check_fill_risk (quoting_client "0.425")
                    float_config decimal_env [quoted; pos] fresh_world)))
     = [CRITICAL; SAFE].
Proof.
  intros pos quoted.
  assert (HT : b64 (FILL_ALERT_THRESHOLD float_config)
               == FILL_ALERT_THRESHOLD float_config)
    by (vm_compute; reflexivity).
  split; [split; [|split; [|split]]|split].
  - destruct (fill_risk_tiers float_config pos (b64 0.319) HT) as (Hc & _).
    apply Hc. vm_compute. reflexivity.
  - destruct (fill_risk_tiers float_config pos (b64 0.325) HT)
      as (_ & Hw & _).
    apply Hw. split; vm_compute; [discriminate | reflexivity].
  - destruct (fill_risk_tiers float_config pos (b64 0.35) HT)
      as (_ & _ & Hwa & _).
    apply Hwa. split; vm_compute; [discriminate | reflexivity].
  - destruct (fill_risk_tiers float_config pos (b64 0.4) HT)
      as (_ & _ & _ & Hs & _).
    apply Hs. vm_compute. discriminate.
  - destruct (fill_risk_tiers float_config quoted (b64 0.425) HT)
      as (_ & _ & _ & _ & _ & _ & _ & _ & _ & Hex).
    apply Hex; vm_compute; reflexivity.
  - vm_compute. reflexivity.
Defined.

(** ** Calls made by the orchestrator *)

Module OrchestratorFacts.

Section WithWorld.
Context {S : Type} (X : External S) (cfg : Config) (env : Builtins).

Lemma cancel_if_held_calls (o : option string) (w : world S) :
  calls (snd (cancel_if_held X o w))
  = calls w ++ map CallCancel
                 (match o with
                  | Some s => if held (Some s) then [s] else []
                  | None => []
                  end).
Proof.
  unfold cancel_if_held. destruct o as [s|]; cbn [map].
  - destruct (held (Some s)); cbn [map].
    + apply cancel_order_calls.
    + cbn. now rewrite app_nil_r.
  - cbn. now rewrite app_nil_r.
Qed.

Lemma cancel_position_calls (pos : ActivePosition) (w : world S) :
  calls (snd (cancel_position X pos w))
  = calls w ++ map CallCancel (held_ids pos).
Proof.
  unfold cancel_position, bindM, held_ids.
  pose proof (cancel_if_held_calls (order_id_yes pos) w) as H1.
  destruct (cancel_if_held X (order_id_yes pos) w) as [u w1].
  rewrite cancel_if_held_calls. cbn [snd] in H1.
  rewrite H1, map_app, app_assoc. reflexivity.
Qed.

(** The cancellation loop asks for every held id, position by position,
    whatever the client answers. *)
Lemma cancel_loop_calls (positions : list ActivePosition) (w : world S) :
  calls (snd (for_each positions (cancel_position X) w))
  = calls w ++ map CallCancel (flat_map held_ids positions).
Proof.
  revert w. induction positions as [|pos rest IH]; intro w.
  - cbn. now rewrite app_nil_r.
  - cbn [for_each flat_map]. unfold bindM.
    pose proof (cancel_position_calls pos w) as H1.
    destruct (cancel_position X pos w) as [u w1]. cbn [snd] in H1.
    rewrite IH, H1, map_app, app_assoc. reflexivity.
Qed.

Lemma held_ids_length (pos : ActivePosition) : (List.length (held_ids pos) <= 2)%nat.
Proof.
  unfold held_ids. rewrite length_app.
  destruct (order_id_yes pos) as [s|]; destruct (order_id_no pos) as [t|];
    repeat match goal with |- context [if ?b then _ else _] => destruct b end;
    cbn; lia.
Qed.

Lemma held_ids_total (positions : list ActivePosition) :
  (List.length (flat_map held_ids positions) <= 2 * List.length positions)%nat.
Proof.
  induction positions as [|pos rest IH]; cbn [flat_map List.length]; [lia|].
  rewrite length_app. pose proof (held_ids_length pos). lia.
Qed.

Lemma held_ids_complete (pos : ActivePosition) (s : string) :
  order_id_yes pos = Some s \/ order_id_no pos = Some s ->
  s <> "" -> In s (held_ids pos).
Proof.
  intros H Hs. unfold held_ids. apply in_or_app.
  assert (Hh : held (Some s) = true).
  { cbn. apply negb_true_iff, String.eqb_neq, Hs. }
  destruct H as [H|H]; rewrite H, Hh; [left | right]; left; reflexivity.
Qed.

End WithWorld.

End OrchestratorFacts.
Import OrchestratorFacts.

(** ** Claims about shutdown *)

(** C4.  On shutdown the handler asks the client to cancel every order id
    a position holds, position by position: at most two calls per position,
    one call per held id, whatever each call answers (success or
    exception); only the stop notification may follow. *)
Theorem shutdown_cancels_every_held_order :
  forall (S : Type) (X : External S) (cfg : Config)
         (positions : list ActivePosition) (w : world S),
    let w' := snd (handle_signal X cfg positions w) in
    (exists notes : list Call,
        calls w' = calls w ++ map CallCancel (flat_map held_ids positions) ++ notes
        /\ (notes = [] \/ notes = [CallTelegram MsgStopped]))
    /\ (List.length (flat_map held_ids positions) <= 2 * List.length positions)%nat
    /\ (forall (pos : ActivePosition) (s : string),
          In pos positions ->
          order_id_yes pos = Some s \/ order_id_no pos = Some s ->
          s <> "" ->
          In (CallCancel s) (calls w')).
Proof.
  intros S X cfg positions w w'.
  assert (Hcalls : exists notes : list Call,
             calls w' = calls w ++ map CallCancel (flat_map held_ids positions) ++ notes
             /\ (notes = [] \/ notes = [CallTelegram MsgStopped])).
  { unfold w', handle_signal, bindM.
    pose proof (cancel_loop_calls X positions w) as H1.
    destruct (for_each positions (cancel_position X) w) as [u w1].
    cbn [snd] in H1.
    destruct (send_telegram_calls X cfg MsgStopped w1) as (notes & H2 & Hn).
    exists notes. rewrite H2, H1, <- app_assoc. auto. }
  split; [exact Hcalls|].
  split; [apply held_ids_total|].
  intros pos s Hin Hid Hs.
  destruct Hcalls as (notes & -> & _).
  apply in_or_app. right. apply in_or_app. left.
  apply in_map, in_flat_map. exists pos. split; [exact Hin|].
  now apply held_ids_complete.
Qed.

Lemma shutdown_cancels_every_held_order_witness :
  calls (snd (handle_signal sample_client default_config sample_positions
                fresh_world))
  = [CallCancel "0xa1"; CallCancel "0xa2"; CallCancel "0xb2"]
  /\ In (CallCancel "0xb2")
       (calls (snd (handle_signal sample_client default_config sample_positions
                      fresh_world))).
Proof.
  split; [vm_compute; reflexivity|].
  destruct (shutdown_cancels_every_held_order nat sample_client default_config
              sample_positions fresh_world) as (_ & _ & Hall).
  apply (Hall (sample_position 0.405 0.595 None (Some "0xb2")) "0xb2").
  - right. left. reflexivity.
  - right. reflexivity.
  - discriminate.
Defined.

(** ** The normalizer *)

Module NormalizerFacts.

(** Walk down the body of [parse_market] along a successful run: every
    step that can raise or return early is split, the failing branches
    are discarded. *)
Ltac step_body E :=
  match type of E with
  | match ?c with Ok _ => _ | Raise _ => _ end = Ok _ =>
      let x := fresh "x" in
      let Ex := fresh "Ex" in
      destruct c as [x|] eqn:Ex; [|discriminate E]; cbv beta iota in E
  | (if ?b then Ok None else _) = Ok (Some _) =>
      let Eb := fresh "Eb" in
      destruct b eqn:Eb; [discriminate E|]
  end.

Ltac open_body E :=
  cbv beta iota zeta delta [parse_market_body bind] in E; repeat step_body E.

Lemma parse_market_Some (env : Builtins) (market event : dict) (m : RewardMarket) :
  parse_market env market event = Some m <->
  parse_market_body env market event = Ok (Some m).
Proof.
  unfold parse_market, try_except.
  destruct (parse_market_body env market event) as [[m'|]|e];
    split; intro H; try discriminate; congruence.
Qed.

(** What a returned market satisfies: the score fields are the formulas of
    the source applied to the other fields of the same record. *)
Lemma parse_market_fields (env : Builtins) (market event : dict) (m : RewardMarket) :
  parse_market env market event = Some m ->
  0 <= days_to_resolution m
  /\ risk_score m
     = py_min 100
         ((py_max 0 (50 - days_to_resolution m) * 2
           + (1 - Qabs (midpoint m - 0.5) * 2) * 50
           + py_min 50 (volume_24h m / 1000 * 10)) / 3)
  /\ competition_score m
     = (if ltb 0 (daily_reward m)
        then py_min 100 (liquidity m / (daily_reward m * 100) * 10)
        else 100)
  /\ price_at env (outcome_price_list env market) 0 = Ok (midpoint m)
  /\ (exists raw_bid raw_ask : Q,
        get_float env market "bestBid" = Ok raw_bid
        /\ get_float env market "bestAsk" = Ok raw_ask
        /\ (ltb 0 raw_bid && ltb 0 raw_ask = true ->
            best_bid m = raw_bid /\ best_ask m = raw_ask
            /\ spread m = raw_ask - raw_bid)
        /\ (ltb 0 raw_bid && ltb 0 raw_ask = false ->
            best_bid m = midpoint m - spread m / 2
            /\ best_ask m = midpoint m + spread m / 2)).
Proof.
  intro H. apply parse_market_Some in H.
  open_body H.
  injection H as <-.
  cbv beta iota delta [days_to_resolution risk_score competition_score
    midpoint volume_24h liquidity daily_reward best_bid best_ask spread].
  split.
  { match goal with |- context [truthy ?d] => destruct (truthy d) end;
      [|lra].
    match goal with |- context [days_until env ?d] =>
      destruct (days_until env d) as [days|] end; [|lra].
    destruct (py_max_cases 0 days) as [[Hq E]|[Hq E]]; rewrite E; lra. }
  split; [reflexivity|].
  split; [reflexivity|].
  split; [reflexivity|].
  do 2 eexists. split; [reflexivity|]. split; [reflexivity|].
  split; intros ->; auto.
Qed.

(** A returned market carries the first two entries of the token list. *)
Lemma parse_market_tokens (env : Builtins) (market event : dict) (m : RewardMarket) :
  parse_market env market event = Some m ->
  exists ids : pyval,
    dict_lookup market "clobTokenIds" = Some ids
    /\ py_getitem ids 0 = Ok (token_id_yes m)
    /\ py_getitem ids 1 = Ok (token_id_no m).
Proof.
  intro H. apply parse_market_Some in H.
  unfold parse_market_body, dict_get in H.
  destruct (dict_lookup market "clobTokenIds") as [ids|];
    [|discriminate H].
  exists ids. split; [reflexivity|].
  fold (dict_get market) in H.
  cbv beta iota zeta delta [bind] in H. repeat step_body H.
  injection H as <-. split; reflexivity.
Qed.

Lemma liquidity_ratio_nonneg (liq reward : Q) :
  0 <= liq -> 0 < reward -> 0 <= liq / (reward * 100) * 10.
Proof.
  intros Hl Hr. unfold Qdiv.
  assert (Hi : 0 < / (reward * 100)) by (apply Qinv_lt_0_compat; lra).
  pose proof (Qmult_le_0_compat _ _ Hl (Qlt_le_weak _ _ Hi)) as Hp.
  lra.
Qed.

End NormalizerFacts.
Import NormalizerFacts.

(** ** Claims about the normalizer and scorer *)

(** C5.  For every normalized market,
    [riskScore = min(100, (timeRisk + priceRisk + volumeRisk) / 3)] with
    [timeRisk = max(0, 50 - daysToResolution) * 2],
    [priceRisk = (1 - |midpoint - 0.5| * 2) * 50] and
    [volumeRisk = min(50, volume24h / 1000 * 10)]; each term stays under
    its own ceiling (100, 50 and 50) before the three are combined, and
    the outer [min] is the only clamp on the combination. *)
Theorem risk_score_formula :
  forall (env : Builtins) (market event : dict) (m : RewardMarket),
    parse_market env market event = Some m ->
    let time_risk := Qmax 0 (50 - days_to_resolution m) * 2 in
    let price_risk := (1 - Qabs (midpoint m - 0.5) * 2) * 50 in
    let volume_risk := Qmin 50 (volume_24h m / 1000 * 10) in
    risk_score m == Qmin 100 ((time_risk + price_risk + volume_risk) / 3)
    /\ time_risk <= 100 /\ price_risk <= 50 /\ volume_risk <= 50.
Proof.
  intros env market event m H time_risk price_risk volume_risk.
  destruct (parse_market_fields _ _ _ _ H) as (Hd & Hr & _).
  split.
  { rewrite Hr. unfold time_risk, price_risk, volume_risk.
    now rewrite !py_min_Qmin, py_max_Qmax. }
  split.
  { unfold time_risk.
    destruct (Q.max_spec 0 (50 - days_to_resolution m)) as [[_ E]|[_ E]];
      rewrite E; lra. }
  split.
  { unfold price_risk.
    pose proof (Qabs_nonneg (midpoint m - 0.5)). lra. }
  unfold volume_risk. apply Q.le_min_l.
Qed.

Lemma risk_score_formula_witness :
  match parse_market sample_env sample_raw [] with
  | Some m =>
      risk_score m
      == Qmin 100
           ((Qmax 0 (50 - days_to_resolution m) * 2
             + (1 - Qabs (midpoint m - 0.5) * 2) * 50
             + Qmin 50 (volume_24h m / 1000 * 10)) / 3)
      /\ risk_score m == 20
  | None => False
  end.
Proof.
  destruct (parse_market sample_env sample_raw []) as [m|] eqn:E.
  - split.
    + apply (risk_score_formula sample_env sample_raw [] m E).
    + vm_compute in E. injection E as <-. vm_compute. reflexivity.
  - vm_compute in E. discriminate E.
Defined.

(** C6.  [parse_market] does not keep its two scores within the range
    0-100 that the field comments of [RewardMarket] give them: both are
    clamped from above only.  The record with liquidity -1000, first
    outcome price 3 and daily rate 1 is normalized to a market with
    competition score -100 and risk score -200/3. *)
Theorem scores_leave_documented_range :
  match parse_market sample_env sample_raw_out_of_range [] with
  | Some m =>
      liquidity m == -1000 /\ midpoint m == 3 /\ daily_reward m == 1
      /\ competition_score m == -100 /\ risk_score m == - (200 # 3)
      /\ ~ (0 <= competition_score m <= 100)
      /\ ~ (0 <= risk_score m <= 100)
  | None => False
  end.
Proof.
  vm_compute. repeat split; try reflexivity;
    intros [H _]; apply H; reflexivity.
Qed.

(** C7.  [parse_market] returns [None] when the token-identifier list is
    missing, is empty or null, or has fewer than 2 elements, and returns
    [None] whenever an exception leaves the body of its [try] (the end-date
    and price-list fall-backs are not such exceptions: they are handled
    where they occur).  It always returns: [None] or a market; and a
    returned market is the one the complete derivation built, with both
    token identifiers taken from the list. *)
Theorem parse_market_resilient :
  forall (env : Builtins) (market event : dict),
    (dict_lookup market "clobTokenIds" = None ->
     parse_market env market event = None)
    /\ (forall ids : pyval,
          dict_lookup market "clobTokenIds" = Some ids ->
          truthy ids = false
          \/ (exists n : nat, py_len ids = Ok n /\ (n < 2)%nat) ->
          parse_market env market event = None)
    /\ (forall e : exn,
          parse_market_body env market event = Raise e ->
          parse_market env market event = None)
    /\ (parse_market env market event = None
        \/ exists m : RewardMarket, parse_market env market event = Some m)
    /\ (forall m : RewardMarket,
          parse_market env market event = Some m ->
          parse_market_body env market event = Ok (Some m)
          /\ exists ids : pyval,
               dict_lookup market "clobTokenIds" = Some ids
               /\ py_getitem ids 0 = Ok (token_id_yes m)
               /\ py_getitem ids 1 = Ok (token_id_no m)).
Proof.
  intros env market event.
  split.
  { intro H. unfold parse_market, parse_market_body, dict_get.
    rewrite H. reflexivity. }
  split.
  { intros ids H Hshort.
    unfold parse_market, parse_market_body, dict_get. rewrite H.
    destruct (truthy ids) eqn:Et; [|reflexivity].
    destruct Hshort as [Hf|(n & Hn & Hlt)]; [discriminate Hf|].
    cbn [negb]. rewrite Hn. cbn [bind].
    apply Nat.ltb_lt in Hlt. rewrite Hlt. reflexivity. }
  split.
  { intros e H. unfold parse_market. rewrite H. reflexivity. }
  split.
  { destruct (parse_market env market event) as [m|]; eauto. }
  intros m H. split; [now apply parse_market_Some|].
  eapply parse_market_tokens, H.
Qed.

Lemma parse_market_resilient_witness :
  parse_market sample_env sample_raw_no_tokens [] = None
  /\ parse_market sample_env sample_raw_one_token [] = None
  /\ parse_market sample_env sample_raw_bad_tokens [] = None
  /\ parse_market sample_env sample_raw_bad_rate [] = None.
Proof.
  split; [|split; [|split]].
  - apply (parse_market_resilient sample_env sample_raw_no_tokens []).
    reflexivity.
  - destruct (parse_market_resilient sample_env sample_raw_one_token [])
      as (_ & Hshort & _).
    apply (Hshort (PList [PStr "1001"])); [reflexivity|].
    right. exists 1%nat. split; [reflexivity | lia].
  - destruct (parse_market_resilient sample_env sample_raw_bad_tokens [])
      as (_ & _ & Hraise & _).
    apply (Hraise TypeError). reflexivity.
  - destruct (parse_market_resilient sample_env sample_raw_bad_rate [])
      as (_ & _ & Hraise & _).
    apply (Hraise TypeError). reflexivity.
Defined.

(** C9, as stated, fails: when the raw record carries a positive best bid
    and best ask they are kept as given, while the midpoint is the first
    outcome price; here the midpoint is 0.4 and the mean of bid and ask is
    0.15. *)
Lemma midpoint_is_mean_counterexample :
  match parse_market sample_env sample_raw_with_book [] with
  | Some m =>
      midpoint m == 0.4 /\ best_bid m == 0.1 /\ best_ask m == 0.2
      /\ ~ midpoint m == (best_bid m + best_ask m) / 2
  | None => False
  end.
Proof.
  vm_compute. repeat split; try reflexivity. intro H. discriminate H.
Qed.

(** C9, amended.  For every normalized market the midpoint is the first
    outcome price (0.5 when the price list is empty); it equals
    [(bestBid + bestAsk) / 2] when best bid and best ask are reconstructed
    around it, that is unless the raw record carries both a positive best
    bid and a positive best ask, which are then kept as given. *)
Theorem midpoint_is_mean_of_synthetic_book :
  forall (env : Builtins) (market event : dict) (m : RewardMarket),
    parse_market env market event = Some m ->
    price_at env (outcome_price_list env market) 0 = Ok (midpoint m)
    /\ exists raw_bid raw_ask : Q,
         get_float env market "bestBid" = Ok raw_bid
         /\ get_float env market "bestAsk" = Ok raw_ask
         /\ (~ (0 < raw_bid /\ 0 < raw_ask) ->
             midpoint m == (best_bid m + best_ask m) / 2)
         /\ (0 < raw_bid /\ 0 < raw_ask ->
             best_bid m = raw_bid /\ best_ask m = raw_ask).
Proof.
  intros env market event m H.
  destruct (parse_market_fields _ _ _ _ H)
    as (_ & _ & _ & Hmid & raw_bid & raw_ask & Hb & Ha & Hraw & Hsyn).
  split; [exact Hmid|].
  exists raw_bid, raw_ask. split; [exact Hb|]. split; [exact Ha|].
  split.
  - intro Hn.
    assert (E : ltb 0 raw_bid && ltb 0 raw_ask = false).
    { apply andb_false_iff.
      destruct (ltb_cases 0 raw_bid) as [[H1 ->]|[H1 ->]]; [|auto].
      destruct (ltb_cases 0 raw_ask) as [[H2 ->]|[H2 ->]]; [|auto].
      exfalso. auto. }
    destruct (Hsyn E) as [-> ->]. field.
  - intros [H1 H2].
    assert (E : ltb 0 raw_bid && ltb 0 raw_ask = true).
    { apply andb_true_iff. split; apply ltb_lt; assumption. }
    destruct (Hraw E) as (-> & -> & _). split; reflexivity.
Qed.

Lemma midpoint_is_mean_of_synthetic_book_witness :
  match parse_market sample_env sample_raw [] with
  | Some m => midpoint m == (best_bid m + best_ask m) / 2
  | None => False
  end.
Proof.
  destruct (parse_market sample_env sample_raw []) as [m|] eqn:E.
  - destruct (midpoint_is_mean_of_synthetic_book sample_env sample_raw [] m E)
      as (_ & raw_bid & raw_ask & Hb & Ha & Hsyn & _).
    apply Hsyn. vm_compute in Hb. vm_compute in Ha.
    injection Hb as <-. injection Ha as <-.
    intros [Hlt _]. vm_compute in Hlt. discriminate Hlt.
  - vm_compute in E. discriminate E.
Defined.

(** ** The rescan *)

Module RescanFacts.

Lemma slice_to_prefix {A : Type} (n : Z) (l : list A) :
  exists later : list A, l = slice_to n l ++ later.
Proof.
  unfold slice_to. destruct (0 <=? n)%Z;
    eexists; symmetry; apply firstn_skipn.
Qed.

Lemma slice_to_length {A : Type} (n : Z) (l : list A) :
  (0 <= n)%Z -> (Z.of_nat (List.length (slice_to n l)) <= n)%Z.
Proof.
  intro H. unfold slice_to.
  apply Z.leb_le in H. rewrite H. apply Z.leb_le in H.
  rewrite length_firstn. lia.
Qed.

Section WithWorld.
Context {S : Type} (X : External S) (cfg : Config) (env : Builtins).




End WithWorld.

End RescanFacts.
Import RescanFacts.

(** ** The loop with its exception handler *)

Module Orchestrator64Facts.
Import Orchestrator64 Strategist64Facts Monitor64Facts.

Lemma quoted_prefix_all (markets : list RewardMarket) :
  all_sliceable markets = true -> quoted_prefix markets = markets.
Proof.
  unfold all_sliceable. induction markets as [|m rest IH]; [reflexivity|].
  cbn [forallb quoted_prefix]. intro H. apply andb_true_iff in H.
  destruct H as [H1 H2]. rewrite H1, (IH H2). reflexivity.
Qed.

Lemma same_orders_refl (p : ActivePosition) : same_orders p p.
Proof. exists (risk_level p). destruct p; reflexivity. Qed.

Lemma same_orders_fields (p p' : ActivePosition) :
  same_orders p p' ->
  market p' = market p /\ held_ids p' = held_ids p
  /\ order_id_yes p' = order_id_yes p /\ order_id_no p' = order_id_no p.
Proof. intros [level ->]. auto. Qed.

Lemma Forall2_same_orders_refl (l : list ActivePosition) :
  Forall2 same_orders l l.
Proof. induction l; constructor; auto using same_orders_refl. Qed.

Lemma Forall2_same_orders_map (l l' : list ActivePosition) :
  Forall2 same_orders l l' ->
  map (fun p => (market p, held_ids p)) l'
  = map (fun p => (market p, held_ids p)) l.
Proof.
  induction 1 as [|p p' l l' H _ IH]; [reflexivity|].
  cbn [map]. destruct (same_orders_fields p p' H) as (-> & -> & _).
  now rewrite IH.
Qed.

Lemma dashboard_rows_text (positions : list ActivePosition) :
  Forall (fun p => is_text (question (market p)) = true) positions ->
  dashboard_rows positions = Ok tt.
Proof.
  induction 1 as [|p l Hp _ IH]; [reflexivity|].
  cbn [dashboard_rows]. unfold dashboard_row.
  destruct (question (market p)); try discriminate.
  cbn [py_slice bind]. exact IH.
Qed.

Lemma print_dashboard_perm (positions : list ActivePosition) :
  Permutation (fst (print_dashboard positions)) positions.
Proof.
  unfold print_dashboard. destruct positions as [|p l]; [constructor|].
  cbn [fst]. apply py_sort_perm.
Qed.

Lemma print_dashboard_sorted (positions : list ActivePosition) :
  StronglySorted
    (fun a b => risk_order (risk_level a) <= risk_order (risk_level b))
    (fst (print_dashboard positions)).
Proof.
  unfold print_dashboard. destruct positions as [|p l]; [constructor|].
  cbn [fst].
  pose proof (py_sort_sorted (fun p => risk_order (risk_level p)) false (p :: l))
    as Hs.
  induction Hs as [|a l' Hs IH Hall]; constructor; [exact IH|].
  eapply Forall_impl; [|exact Hall].
  intros b Hb. cbv beta in Hb. unfold precedes in Hb.
  apply ltb_ge in Hb. exact Hb.
Qed.

Section WithWorld.
Context {S : Type} (X : External S) (cfg : Config) (env : Builtins).

(** One turn of the requote loop. *)
Lemma open_position_spec (m : RewardMarket) (w : world S) :
  (sliceable (question m) = true ->
   exists pos : ActivePosition,
     fst (open_position X cfg m w) = Ok pos
     /\ market pos = m /\ risk_level pos = LOW
     /\ size pos = DEFAULT_SIZE_PER_MARKET cfg
     /\ calls (snd (open_position X cfg m w))
        = calls w
          ++ Strategist64.quote_calls cfg (DEFAULT_SIZE_PER_MARKET cfg) m)
  /\ (sliceable (question m) = false ->
      fst (open_position X cfg m w) = Raise TypeError
      /\ snd (open_position X cfg m w) = w).
Proof.
  unfold open_position. split; intro Hs.
  - destruct (sliceable_spec _ 60 Hs) as [q Hq]. rewrite Hq. unfold bindM.
    pose proof (place_lp_orders_calls X cfg m (DEFAULT_SIZE_PER_MARKET cfg) w)
      as H.
    destruct (Strategist64.place_lp_orders X cfg m (DEFAULT_SIZE_PER_MARKET cfg) w)
      as [ids w1].
    cbn [fst snd] in *. eexists. split; [reflexivity|].
    cbn [market risk_level size]. auto.
  - destruct (question m); try discriminate; cbn [py_slice ret fst snd]; auto.
Qed.

(** The requote loop: it quotes the markets up to the first whose
    question cannot be sliced, appends one position for each, and raises
    there. *)
Lemma open_positions_spec (markets : list RewardMarket)
    (positions : list ActivePosition) (w : world S) :
  let r := open_positions X cfg markets positions w in
  calls (snd r)
  = calls w ++ flat_map (Strategist64.quote_calls cfg (DEFAULT_SIZE_PER_MARKET cfg))
                (quoted_prefix markets)
  /\ (exists opened : list ActivePosition,
         fst (fst r) = positions ++ opened
         /\ map market opened = quoted_prefix markets
         /\ Forall (fun p => risk_level p = LOW) opened)
  /\ snd (fst r)
     = (if all_sliceable markets then Ok tt else Raise TypeError).
Proof.
  revert positions w. induction markets as [|m rest IH]; intros positions w r.
  - cbn. rewrite !app_nil_r. split; [reflexivity|].
    split; [exists []; rewrite app_nil_r; auto | reflexivity].
  - unfold r, all_sliceable.
    cbn [open_positions quoted_prefix forallb]. unfold bindM.
    destruct (open_position_spec m w) as [Hyes Hno].
    destruct (sliceable (question m)) eqn:Hs.
    + destruct (Hyes eq_refl) as (pos & E & Hm & Hl & _ & Hc).
      destruct (open_position X cfg m w) as [res w1]. cbn [fst snd] in E, Hc.
      subst res.
      destruct (IH (positions ++ [pos]) w1) as (H1 & (opened & H2 & H3 & H4) & H5).
      cbn [flat_map andb]. split; [rewrite H1, Hc, <- app_assoc; reflexivity|].
      split; [|exact H5].
      exists (pos :: opened). rewrite H2, <- app_assoc. cbn [app map].
      split; [reflexivity|]. split; [now rewrite Hm, H3|].
      constructor; assumption.
    + destruct (Hno eq_refl) as (E & Ew).
      destruct (open_position X cfg m w) as [res w1]. cbn [fst snd] in E, Ew.
      subst res w1. cbn [ret fst snd flat_map andb]. rewrite app_nil_r.
      split; [reflexivity|].
      split; [exists []; rewrite app_nil_r; auto | reflexivity].
Qed.

Lemma cancel_block_calls (positions : list ActivePosition) (w : world S) :
  calls (snd ((match positions with
               | [] => ret tt
               | _ :: _ => for_each positions (cancel_position X)
               end) w))
  = calls w ++ map CallCancel (flat_map held_ids positions).
Proof.
  destruct positions as [|p ps].
  - cbn. now rewrite app_nil_r.
  - apply cancel_loop_calls.
Qed.

(** The block under [if markets:]: first the cancellations of what the old
    positions hold, then the orders of the quoted markets, then at most a
    notification; the new list has one position per quoted market. *)
Lemma refresh_positions_spec (markets : list RewardMarket)
    (positions : list ActivePosition) (w : world S) :
  markets <> [] ->
  let top := slice_to (MAX_MARKETS cfg) markets in
  let r := refresh_positions X cfg markets positions w in
  (exists notes : list Call,
      calls (snd r)
      = calls w ++ map CallCancel (flat_map held_ids positions)
        ++ flat_map (Strategist64.quote_calls cfg (DEFAULT_SIZE_PER_MARKET cfg))
             (quoted_prefix top)
        ++ notes
      /\ forallb is_passive_call notes = true
      /\ (all_sliceable top = false -> notes = []))
  /\ map market (fst (fst r)) = quoted_prefix top
  /\ Forall (fun p => risk_level p = LOW) (fst (fst r))
  /\ snd (fst r) = (if all_sliceable top then Ok tt else Raise TypeError).
Proof.
  intros Hm top r. unfold r, refresh_positions.
  destruct markets as [|m0 ms]; [congruence|].
  fold top. unfold bindM.
  pose proof (cancel_block_calls positions w) as Hc.
  destruct ((match positions with
             | [] => ret tt
             | _ :: _ => for_each positions (cancel_position X)
             end) w) as [u w1].
  cbn [snd] in Hc.
  destruct (open_positions_spec top [] w1) as (H1 & (opened & H2 & H3 & H4) & H5).
  destruct (open_positions X cfg top [] w1) as [[ps res] w2].
  cbn [fst snd app] in *. subst ps res.
  destruct (all_sliceable top).
  - match goal with
    | |- context [send_telegram X cfg ?msg w2] =>
        destruct (send_telegram_calls X cfg msg w2) as (notes & H6 & Hn);
        destruct (send_telegram X cfg msg w2) as [u' w3]
    end.
    cbn [fst snd ret] in *.
    split; [|auto].
    exists notes. split; [rewrite H6, H1, Hc, <- !app_assoc; reflexivity|].
    split; [destruct Hn as [-> | ->]; reflexivity | discriminate].
  - cbn [fst snd ret]. split; [|auto].
    exists []. rewrite app_nil_r.
    split; [rewrite H1, Hc, <- !app_assoc; reflexivity | auto].
Qed.

(** A monitoring pass over any positions: only midpoint reads and
    notifications, and nothing of a position changes but its level. *)
Lemma check_position_any (pos : ActivePosition) (w : world S) :
  (exists rest : list Call,
      calls (snd (Monitor64.check_position X cfg env pos w)) = calls w ++ rest
      /\ forallb is_passive_call rest = true)
  /\ same_orders pos (snd (fst (Monitor64.check_position X cfg env pos w)))
  /\ (forall alert : option Message,
        fst (fst (Monitor64.check_position X cfg env pos w)) = Ok alert ->
        risk_level (snd (fst (Monitor64.check_position X cfg env pos w))) <> LOW).
Proof.
  unfold Monitor64.check_position, bindM.
  destruct (current_midpoint_spec X env (market pos) w) as [_ Hc].
  destruct (Monitor64.current_midpoint X env (market pos) w) as [mid w1].
  cbn [snd] in Hc.
  pose proof (fill_risk_level_not_LOW (FILL_ALERT_THRESHOLD cfg)
                (Monitor64.bid_distance pos mid) (Monitor64.ask_distance pos mid))
    as Hl.
  fold (Monitor64.position_level cfg pos mid) in Hl.
  destruct (Monitor64.alert_message pos mid (Monitor64.position_level cfg pos mid))
    as [[msg|]|e].
  - destruct (send_telegram_calls X cfg msg w1) as (notes & H2 & Hn).
    destruct (send_telegram X cfg msg w1) as [u w2]. cbn [fst snd ret] in *.
    split; [|split; [eexists; reflexivity | intros _ _; exact Hl]].
    exists ([CallMidpoint (token_id_yes (market pos))] ++ notes). split.
    + rewrite H2, Hc, <- app_assoc. reflexivity.
    + destruct Hn as [-> | ->]; reflexivity.
  - cbn [fst snd ret].
    split; [|split; [eexists; reflexivity | intros _ _; exact Hl]].
    exists [CallMidpoint (token_id_yes (market pos))]. auto.
  - cbn [fst snd ret].
    split; [|split; [apply same_orders_refl | discriminate]].
    exists [CallMidpoint (token_id_yes (market pos))]. auto.
Qed.

Lemma check_fill_risk_any (positions : list ActivePosition) (w : world S) :
  let r := Monitor64.check_fill_risk X cfg env positions w in
  (exists rest : list Call,
      calls (snd r) = calls w ++ rest
      /\ forallb is_passive_call rest = true)
  /\ Forall2 same_orders positions (snd (fst r))
  /\ (forall alerts : list Message,
        fst (fst r) = Ok alerts ->
        Forall (fun p => risk_level p <> LOW) (snd (fst r))).
Proof.
  revert w. induction positions as [|pos rest IH]; intro w.
  - cbn. split; [exists []; rewrite app_nil_r; auto|].
    split; constructor.
  - cbn [Monitor64.check_fill_risk]. unfold bindM.
    destruct (check_position_any pos w) as ((r1 & H1 & P1) & S1 & L1).
    destruct (Monitor64.check_position X cfg env pos w) as [[a p'] w1].
    cbn [fst snd] in H1, S1, L1. cbn [fst snd].
    destruct a as [alert|e].
    + destruct (IH w1) as ((r2 & H2 & P2) & S2 & L2).
      destruct (Monitor64.check_fill_risk X cfg env rest w1) as [[ra ps] w2].
      cbn [fst snd ret] in *.
      split; [|split].
      * exists (r1 ++ r2). split.
        -- rewrite H2, H1, <- app_assoc. reflexivity.
        -- rewrite forallb_app, P1, P2. reflexivity.
      * constructor; assumption.
      * intros alerts E. destruct ra as [al|e]; [|discriminate].
        constructor; [apply (L1 alert); reflexivity | apply (L2 al); reflexivity].
    + cbn [fst snd ret].
      split; [exists r1; auto|].
      split; [constructor; [exact S1 | apply Forall2_same_orders_refl]|].
      discriminate.
Qed.

(** The monitoring half of a pass touches no order, keeps every position
    but for its level and the display order, and when it runs to its end
    leaves the positions sorted by severity, none at LOW. *)
Lemma monitor_positions_spec (positions : list ActivePosition) (w : world S) :
  let r := monitor_positions X cfg env positions w in
  (exists rest : list Call,
      calls (snd r) = calls w ++ rest
      /\ forallb is_passive_call rest = true)
  /\ (exists ps : list ActivePosition,
         Forall2 same_orders positions ps /\ Permutation ps (fst (fst r)))
  /\ (snd (fst r) = Ok tt ->
      StronglySorted
        (fun a b => risk_order (risk_level a) <= risk_order (risk_level b))
        (fst (fst r))
      /\ Forall (fun p => risk_level p <> LOW) (fst (fst r)))
  /\ (Forall (fun p => is_text (question (market p)) = true) positions ->
      snd (fst r) = Ok tt).
Proof.
  unfold monitor_positions. destruct positions as [|p0 ps'].
  - cbn. split; [exists []; rewrite app_nil_r; auto|].
    split; [exists []; split; constructor|].
    split; [intros _; split; constructor | reflexivity].
  - unfold bindM.
    destruct (check_fill_risk_any (p0 :: ps') w) as ((rest & H & P) & S2 & L).
    pose proof (fun Hall => check_fill_risk_spec X cfg env (p0 :: ps') w Hall)
      as Hfull.
    destruct (Monitor64.check_fill_risk X cfg env (p0 :: ps') w)
      as [[res ps2] w2].
    cbn [fst snd] in *. cbv zeta in Hfull. cbn [fst snd] in Hfull.
    destruct res as [alerts|e]; cbn [fst snd ret].
    + split; [exists rest; auto|].
      split; [exists ps2; split;
              [exact S2 | apply Permutation_sym, print_dashboard_perm]|].
      split.
      * intros _. split; [apply print_dashboard_sorted|].
        apply (Permutation_Forall
                 (Permutation_sym (print_dashboard_perm ps2))).
        apply (L alerts). reflexivity.
      * intro Htext. unfold print_dashboard.
        destruct ps2 as [|q0 qs]; [reflexivity|]. cbn [snd].
        apply dashboard_rows_text.
        apply (Permutation_Forall (Permutation_sym (py_sort_perm _ _ _))).
        clear - S2 Htext. revert S2 Htext.
        generalize (p0 :: ps') as l. generalize (q0 :: qs) as l'.
        intros l' l S2. induction S2 as [|a b l l' Hab _ IH]; intro Ht;
          [constructor|].
        inversion Ht as [|? ? Ha Hl]; subst.
        constructor; [|apply IH, Hl].
        destruct (same_orders_fields a b Hab) as (-> & _). exact Ha.
    + split; [exists rest; auto|].
      split; [exists ps2; split; [exact S2 | apply Permutation_refl]|].
      split; [discriminate|].
      intro Htext. exfalso.
      destruct Hfull as (alerts & _ & E & _).
      * eapply Forall_impl; [|exact Htext].
        intros a Ha. apply is_text_sliceable, Ha.
      * discriminate E.
Qed.

Lemma send_telegram_passive (msg : Message) (w : world S) :
  exists notes : list Call,
    calls (snd (send_telegram X cfg msg w)) = calls w ++ notes
    /\ forallb is_passive_call notes = true.
Proof.
  destruct (send_telegram_calls X cfg msg w) as (notes & H & Hn).
  exists notes. split; [exact H|]. destruct Hn as [-> | ->]; reflexivity.
Qed.

(** A pass on which a rescan is due and finds markets all of whose top
    questions can be sliced. *)
Lemma pass_requotes (now last_scan : Q) (markets_raw : list dict)
    (positions : list ActivePosition) (w : world S) :
  let markets := fetch_reward_markets cfg env markets_raw in
  let top := slice_to (MAX_MARKETS cfg) markets in
  let r := run_bot_iteration X cfg env now last_scan markets_raw positions w in
  rescan_due now last_scan positions = true ->
  markets <> [] -> all_sliceable top = true ->
  (exists rest : list Call,
      calls (snd r)
      = calls w ++ map CallCancel (flat_map held_ids positions)
        ++ flat_map (Strategist64.quote_calls cfg (DEFAULT_SIZE_PER_MARKET cfg)) top
        ++ rest
      /\ forallb is_passive_call rest = true)
  /\ Permutation (map market (fst (fst (fst r)))) top
  /\ snd (fst (fst r)) = now
  /\ (snd (fst r) = Ok tt ->
      StronglySorted
        (fun a b => risk_order (risk_level a) <= risk_order (risk_level b))
        (fst (fst (fst r)))
      /\ Forall (fun p => risk_level p <> LOW) (fst (fst (fst r))))
  /\ (Forall (fun m => is_text (question m) = true) top ->
      snd (fst r) = Ok tt).
Proof.
  intros markets top r Hdue Hm Hall.
  unfold r, run_bot_iteration, pass_body. rewrite Hdue. fold markets.
  unfold bindM.
  destruct (refresh_positions_spec markets positions w Hm)
    as ((notes & H1 & P1 & _) & M1 & _ & O1).
  fold top in H1, M1, O1. rewrite Hall in O1.
  rewrite (quoted_prefix_all top Hall) in H1, M1.
  destruct (refresh_positions X cfg markets positions w) as [[ps res] w1].
  cbn [fst snd] in *. subst res. cbn [fst snd ret].
  destruct (monitor_positions_spec ps w1)
    as ((rest & H2 & P2) & (ps1 & S2 & Pm) & Hok & Htext).
  destruct (monitor_positions X cfg env ps w1) as [[ps2 out] w2].
  cbn [fst snd] in *.
  assert (Hperm : Permutation (map market ps2) top).
  { rewrite <- M1. eapply Permutation_trans;
      [apply Permutation_map, Permutation_sym, Pm|].
    clear - S2. induction S2 as [|a b l l' Hab _ IH]; [constructor|].
    cbn [map]. destruct (same_orders_fields a b Hab) as (-> & _).
    now constructor. }
  assert (Htext' : Forall (fun m => is_text (question m) = true) top ->
                   out = Ok tt).
  { intro Ht. apply Htext. rewrite <- M1 in Ht.
    clear - Ht. induction ps as [|p l IH]; [constructor|].
    cbn [map] in Ht. inversion Ht; subst. constructor; auto. }
  destruct out as [u|e]; cbn [fst snd ret].
  - split; [|auto].
    exists (notes ++ rest). split.
    + rewrite H2, H1, <- !app_assoc. reflexivity.
    + rewrite forallb_app, P1, P2. reflexivity.
  - destruct (send_telegram_passive (MsgBotError e) w2) as (n3 & H3 & P3).
    destruct (send_telegram X cfg (MsgBotError e) w2) as [u' w3].
    cbn [fst snd ret] in *.
    split; [|auto].
    exists (notes ++ rest ++ n3). split.
    + rewrite H3, H2, H1, <- !app_assoc. reflexivity.
    + rewrite !forallb_app, P1, P2, P3. reflexivity.
Qed.

(** A pass on which a rescan is due and a top market has a question that
    cannot be sliced: the old orders are cancelled, the markets before it
    are quoted, and the pass ends in the handler with [last_scan] as it
    was and the monitor skipped. *)
Lemma pass_aborts (now last_scan : Q) (markets_raw : list dict)
    (positions : list ActivePosition) (w : world S) :
  let markets := fetch_reward_markets cfg env markets_raw in
  let top := slice_to (MAX_MARKETS cfg) markets in
  let r := run_bot_iteration X cfg env now last_scan markets_raw positions w in
  rescan_due now last_scan positions = true ->
  markets <> [] -> all_sliceable top = false ->
  calls (snd r)
  = calls w ++ map CallCancel (flat_map held_ids positions)
    ++ flat_map (Strategist64.quote_calls cfg (DEFAULT_SIZE_PER_MARKET cfg))
         (quoted_prefix top)
    ++ (if telegram_enabled cfg
        then [CallTelegram (MsgBotError TypeError)] else [])
  /\ map market (fst (fst (fst r))) = quoted_prefix top
  /\ Forall (fun p => risk_level p = LOW) (fst (fst (fst r)))
  /\ snd (fst (fst r)) = last_scan
  /\ snd (fst r) = Raise TypeError.
Proof.
  intros markets top r Hdue Hm Hall.
  unfold r, run_bot_iteration, pass_body. rewrite Hdue. fold markets.
  unfold bindM.
  destruct (refresh_positions_spec markets positions w Hm)
    as ((notes & H1 & P1 & N1) & M1 & L1 & O1).
  fold top in H1, M1, O1, N1. rewrite Hall in O1.
  rewrite (N1 Hall), app_nil_r in H1.
  destruct (refresh_positions X cfg markets positions w) as [[ps res] w1].
  cbn [fst snd] in *. subst res. cbn [fst snd ret].
  pose proof (send_telegram_exact X cfg (MsgBotError TypeError) w1) as H3.
  destruct (send_telegram X cfg (MsgBotError TypeError) w1) as [u' w3].
  cbn [fst snd ret] in *.
  split; [rewrite H3, H1, <- !app_assoc; reflexivity | auto].
Qed.

(** A pass that requotes nothing: no rescan is due, or the scan found no
    market. *)
Lemma pass_keeps (now last_scan : Q) (markets_raw : list dict)
    (positions : list ActivePosition) (w : world S) :
  let markets := fetch_reward_markets cfg env markets_raw in
  let r := run_bot_iteration X cfg env now last_scan markets_raw positions w in
  rescan_due now last_scan positions = false \/ markets = [] ->
  (exists rest : list Call,
      calls (snd r) = calls w ++ rest
      /\ forallb is_passive_call rest = true)
  /\ (exists ps : list ActivePosition,
         Forall2 same_orders positions ps
         /\ Permutation ps (fst (fst (fst r))))
  /\ snd (fst (fst r))
     = (if rescan_due now last_scan positions then now else last_scan)
  /\ (snd (fst r) = Ok tt ->
      StronglySorted
        (fun a b => risk_order (risk_level a) <= risk_order (risk_level b))
        (fst (fst (fst r)))
      /\ Forall (fun p => risk_level p <> LOW) (fst (fst (fst r))))
  /\ (Forall (fun p => is_text (question (market p)) = true) positions ->
      snd (fst r) = Ok tt).
Proof.
  intros markets r Hcase.
  assert (Htail : forall ls : Q,
    let r' := (st <~ (r0 <~ monitor_positions X cfg env positions ;;
                      ret (fst r0, ls, snd r0)) ;;
               match snd st with
               | Raise e => send_telegram X cfg (MsgBotError e) ;;; ret st
               | Ok _ => ret st
               end) w in
    (exists rest : list Call,
        calls (snd r') = calls w ++ rest
        /\ forallb is_passive_call rest = true)
    /\ (exists ps : list ActivePosition,
           Forall2 same_orders positions ps
           /\ Permutation ps (fst (fst (fst r'))))
    /\ snd (fst (fst r')) = ls
    /\ (snd (fst r') = Ok tt ->
        StronglySorted
          (fun a b => risk_order (risk_level a) <= risk_order (risk_level b))
          (fst (fst (fst r')))
        /\ Forall (fun p => risk_level p <> LOW) (fst (fst (fst r'))))
    /\ (Forall (fun p => is_text (question (market p)) = true) positions ->
        snd (fst r') = Ok tt)).
  { intros ls. cbv zeta. unfold bindM.
    destruct (monitor_positions_spec positions w)
      as ((rest & H2 & P2) & Hps & Hok & Htext).
    destruct (monitor_positions X cfg env positions w) as [[ps2 out] w2].
    cbn [fst snd ret] in *.
    destruct out as [u|e]; cbn [fst snd ret].
    - split; [exists rest; auto|].
      split; [exact Hps|]. split; [reflexivity|].
      split; [exact Hok | exact Htext].
    - destruct (send_telegram_passive (MsgBotError e) w2) as (n3 & H3 & P3).
      destruct (send_telegram X cfg (MsgBotError e) w2) as [u' w3].
      cbn [fst snd ret] in *.
      split; [|split; [exact Hps|]; split; [reflexivity|];
               split; [exact Hok | exact Htext]].
      exists (rest ++ n3). split.
      + rewrite H3, H2, <- !app_assoc. reflexivity.
      + rewrite !forallb_app, P2, P3. reflexivity. }
  unfold r, run_bot_iteration, pass_body. fold markets.
  destruct (rescan_due now last_scan positions).
  - destruct Hcase as [Hc|Hc]; [discriminate|]. rewrite Hc.
    exact (Htail now).
  - exact (Htail last_scan).
Qed.

End WithWorld.

End Orchestrator64Facts.
Import Orchestrator64Facts.

(** ** Claims about the rescan *)

(** C8, as stated, fails: a rescan that fires while positions exist but
    whose scan returns no market cancels nothing and keeps the position
    set (the pass only reads midpoints). *)
Lemma rescan_replaces_positions_counterexample :
  let r := Orchestrator64.run_bot_iteration sample_client float_config
             sample_env 7200 0 [] float_positions fresh_world in
  Orchestrator64.rescan_due 7200 0 float_positions = true
  /\ float_positions <> []
  /\ calls (snd r)
     = [CallMidpoint (PStr "1001"); CallMidpoint (PStr "1001");
        CallMidpoint (PStr "1001")]
  /\ map (fun p => (order_id_yes p, order_id_no p)) (fst (fst (fst r)))
     = map (fun p => (order_id_yes p, order_id_no p)) float_positions.
Proof.
  cbv zeta. split; [vm_compute; reflexivity|]. split; [discriminate|].
  split; vm_compute; reflexivity.
Qed.

(** C8, amended.  Whenever a rescan fires and the scan returns at least
    one ranked market, and the question of each of the first
    [MAX_MARKETS] ranked markets can be sliced for display, the pass
    first asks the client to cancel every order id the existing positions
    hold, then submits the two orders of each of these markets, and only
    then reads midpoints or notifies; the position set it leaves holds
    exactly one position per quoted market, (for a non-negative
    [MAX_MARKETS]) at most [MAX_MARKETS] of them, and the time of the
    last scan is the time of the pass.  When the scan returns no market,
    no order is cancelled or submitted and every position stays, with the
    order ids it holds. *)
Theorem rescan_replaces_positions :
  forall (S : Type) (X : External S) (cfg : Config) (env : Builtins)
         (now last_scan : Q) (markets_raw : list dict)
         (positions : list ActivePosition) (w : world S),
    let markets := fetch_reward_markets cfg env markets_raw in
    let top := slice_to (MAX_MARKETS cfg) markets in
    let r := Orchestrator64.run_bot_iteration X cfg env now last_scan
               markets_raw positions w in
    Orchestrator64.rescan_due now last_scan positions = true ->
    (markets <> [] -> Orchestrator64.all_sliceable top = true ->
     (exists rest : list Call,
         calls (snd r)
         = calls w ++ map CallCancel (flat_map held_ids positions)
           ++ flat_map (Strategist64.quote_calls cfg
                          (DEFAULT_SIZE_PER_MARKET cfg)) top
           ++ rest
         /\ forallb is_passive_call rest = true)
     /\ Permutation (map market (fst (fst (fst r)))) top
     /\ (exists later : list RewardMarket, markets = top ++ later)
     /\ ((0 <= MAX_MARKETS cfg)%Z ->
         (Z.of_nat (List.length (fst (fst (fst r)))) <= MAX_MARKETS cfg)%Z)
     /\ snd (fst (fst r)) = now)
    /\ (markets = [] ->
        (exists rest : list Call,
            calls (snd r) = calls w ++ rest
            /\ forallb is_passive_call rest = true)
        /\ Permutation
             (map (fun p => (market p, held_ids p)) (fst (fst (fst r))))
             (map (fun p => (market p, held_ids p)) positions)
        /\ snd (fst (fst r)) = now).
Proof.
  intros S X cfg env now last_scan markets_raw positions w markets top r Hdue.
  split.
  - intros Hm Hall.
    destruct (pass_requotes X cfg env now last_scan markets_raw positions w
                Hdue Hm Hall) as (Hcalls & Hperm & Hnow & _).
    fold markets top r in Hcalls, Hperm, Hnow.
    split; [exact Hcalls|]. split; [exact Hperm|].
    split; [apply slice_to_prefix|]. split; [|exact Hnow].
    intro Hmax.
    rewrite <- (length_map market), (Permutation_length Hperm).
    apply slice_to_length, Hmax.
  - intro Hm.
    destruct (pass_keeps X cfg env now last_scan markets_raw positions w
                (or_intror Hm)) as (Hcalls & (ps & S2 & Pm) & Hls & _).
    fold r in Hcalls, Pm, Hls. rewrite Hdue in Hls.
    split; [exact Hcalls|]. split; [|exact Hls].
    rewrite <- (Forall2_same_orders_map _ _ S2).
    apply Permutation_map, Permutation_sym, Pm.
Qed.

Lemma rescan_replaces_positions_witness :
  let r := Orchestrator64.run_bot_iteration sample_client float_config
             sample_env 7200 0 [sample_raw] float_positions fresh_world in
  firstn 3 (calls (snd r))
  = [CallCancel "0xa1"; CallCancel "0xa2"; CallCancel "0xb2"]
  /\ map is_passive_call (calls (snd r))
     = [false; false; false; false; false; true]
  /\ Permutation (map market (fst (fst (fst r))))
       (slice_to (MAX_MARKETS float_config)
          (fetch_reward_markets float_config sample_env [sample_raw]))
  /\ (Z.of_nat (List.length (fst (fst (fst r)))) <= MAX_MARKETS float_config)%Z
  /\ snd (fst (fst r)) = 7200.
Proof.
  cbv zeta.
  split; [vm_compute; reflexivity|].
  split; [vm_compute; reflexivity|].
  assert (Hdue : Orchestrator64.rescan_due 7200 0 float_positions = true)
    by (vm_compute; reflexivity).
  assert (Hm : fetch_reward_markets float_config sample_env [sample_raw] <> [])
    by (vm_compute; discriminate).
  assert (Hall : Orchestrator64.all_sliceable
                   (slice_to (MAX_MARKETS float_config)
                      (fetch_reward_markets float_config sample_env [sample_raw]))
                 = true) by (vm_compute; reflexivity).
  destruct (rescan_replaces_positions nat sample_client float_config
              sample_env 7200 0 [sample_raw] float_positions fresh_world
              Hdue) as (Hsome & _).
  destruct (Hsome Hm Hall) as (_ & Hperm & _ & Hlen & Hnow).
  split; [exact Hperm|]. split; [|exact Hnow].
  apply Hlen. vm_compute. discriminate.
Defined.

(** * Part III: further properties of the code *)

(** ** The normalizer, field by field *)

Lemma Ok_Some_inj {A : Type} (a b : A) : Ok (Some a) = Ok (Some b) -> a = b.
Proof. intro H. injection H as H. exact H. Qed.

(** From a successful [parse_market] to the record it built, with one
    hypothesis per step of the body. *)
Ltac open_market H :=
  apply parse_market_Some in H; open_body H;
  apply Ok_Some_inj in H; subst.

(** X1.  In every normalized market [spread] is [best_ask - best_bid].
    When the raw record does not carry both a positive best bid and a
    positive best ask, the spread is not negative and the book brackets
    the midpoint. *)
Theorem parsed_book_is_consistent :
  forall (env : Builtins) (market event : dict) (m : RewardMarket),
    parse_market env market event = Some m ->
    spread m == best_ask m - best_bid m
    /\ forall raw_bid raw_ask : Q,
         get_float env market "bestBid" = Ok raw_bid ->
         get_float env market "bestAsk" = Ok raw_ask ->
         ~ (0 < raw_bid /\ 0 < raw_ask) ->
         0 <= spread m /\ best_bid m <= midpoint m <= best_ask m.
Proof.
  intros env market event m H. open_market H.
  cbv beta iota delta [spread best_bid best_ask midpoint].
  split.
  - destruct (ltb 0 x16 && ltb 0 x17); [reflexivity | field].
  - intros raw_bid raw_ask Hb Ha Hn.
    injection Hb as <-. injection Ha as <-.
    assert (E : ltb 0 x16 && ltb 0 x17 = false).
    { apply andb_false_iff.
      destruct (ltb_cases 0 x16) as [[H1 ->]|[H1 ->]]; [|auto].
      destruct (ltb_cases 0 x17) as [[H2 ->]|[H2 ->]]; [|auto].
      exfalso. auto. }
    rewrite E.
    assert (Hs : 0 <= (if negb (Qeq_bool x13 0)
                       then Qabs (x12 - (1 - x13)) else 0)).
    { destruct (negb (Qeq_bool x13 0)); [apply Qabs_nonneg | lra]. }
    revert Hs. generalize (if negb (Qeq_bool x13 0)
                           then Qabs (x12 - (1 - x13)) else 0).
    intros sp Hs. split; [exact Hs|]. qlra.
Qed.

Lemma parsed_book_is_consistent_witness :
  match parse_market sample_env sample_raw [] with
  | Some m => 0 <= spread m /\ best_bid m <= midpoint m <= best_ask m
  | None => False
  end.
Proof.
  destruct (parse_market sample_env sample_raw []) as [m|] eqn:E.
  - destruct (parsed_book_is_consistent sample_env sample_raw [] m E)
      as [_ Hsyn].
    apply (Hsyn 0 0); try reflexivity.
    intros [Hlt _]. vm_compute in Hlt. discriminate Hlt.
  - vm_compute in E. discriminate E.
Defined.

(** X2.  The maximum spread of a normalized market is the first non-zero
    value among [rewardsMaxSpread], [rewards_max_spread] and
    [max_incentive_spread], in that order, divided by 100 when it exceeds
    1 and kept otherwise; so a raw value between 0 and 100 gives a spread
    between 0 and 1. *)
Theorem max_spread_precedence_and_units :
  forall (env : Builtins) (market event : dict) (m : RewardMarket),
    parse_market env market event = Some m ->
    exists raw : Q,
      (exists a : Q,
          get_float env market "rewardsMaxSpread" = Ok a
          /\ ((~ a == 0 /\ raw = a)
              \/ (a == 0
                  /\ exists b : Q,
                       get_float env market "rewards_max_spread" = Ok b
                       /\ ((~ b == 0 /\ raw = b)
                           \/ (b == 0
                               /\ get_float env market "max_incentive_spread"
                                  = Ok raw)))))
      /\ (raw <= 1 -> max_spread m = raw)
      /\ (1 < raw -> max_spread m = raw / 100)
      /\ (0 <= raw <= 100 -> 0 <= max_spread m <= 1).
Proof.
  intros env market event m H. open_market H.
  cbv beta iota delta [max_spread].
  exists x6. split.
  - exists x2. split; [reflexivity|].
    case_eq (Qeq_bool x2 0); intro E2; rewrite E2 in Ex4.
    + right. split; [apply Qeq_bool_iff, E2|].
      exists x4. split; [exact Ex4|].
      case_eq (Qeq_bool x4 0); intro E4; rewrite E4 in Ex6.
      * right. split; [apply Qeq_bool_iff, E4 | exact Ex6].
      * left. split; [apply Qeq_bool_neq, E4 | congruence].
    + left. split; [apply Qeq_bool_neq, E2|].
      injection Ex4 as <-. rewrite E2 in Ex6. congruence.
  - destruct (ltb_cases 1 x6) as [[H1 ->]|[H1 ->]];
      (split; [|split]); intros; try reflexivity; try (exfalso; lra); qlra.
Qed.

Lemma max_spread_precedence_and_units_witness :
  match parse_market sample_env sample_raw [] with
  | Some m => max_spread m == 0.05
  | None => False
  end.
Proof.
  destruct (parse_market sample_env sample_raw []) as [m|] eqn:E.
  - destruct (max_spread_precedence_and_units sample_env sample_raw [] m E)
      as (raw & (a & Ha & Hraw) & _ & Hcents & _).
    vm_compute in Ha. injection Ha as <-.
    destruct Hraw as [[_ ->]|[Hz _]]; [|vm_compute in Hz; discriminate Hz].
    rewrite Hcents; [reflexivity | vm_compute; reflexivity].
  - vm_compute in E. discriminate E.
Defined.

(** X3.  The reward per dollar of a normalized market is never negative.
    With a positive daily reward it is the reward divided by the capital
    needed (twice the minimum size, 100 without one, never less than 1),
    hence positive and at most the daily reward; without a positive reward
    it is 0. *)
Theorem reward_per_dollar_bounds :
  forall (env : Builtins) (market event : dict) (m : RewardMarket),
    parse_market env market event = Some m ->
    let capital_needed := if ltb 0 (min_size m) then min_size m * 2 else 100 in
    0 <= reward_per_dollar m
    /\ (0 < daily_reward m ->
        reward_per_dollar m == daily_reward m / Qmax capital_needed 1
        /\ 0 < reward_per_dollar m <= daily_reward m)
    /\ (daily_reward m <= 0 -> reward_per_dollar m = 0).
Proof.
  intros env market event m H capital_needed.
  unfold capital_needed. clear capital_needed. open_market H.
  cbv beta iota delta [reward_per_dollar daily_reward min_size].
  set (cap := if ltb 0 x7 then x7 * 2 else 100).
  assert (Hc : 1 <= py_max cap 1).
  { destruct (py_max_cases cap 1) as [[? E]|[? E]]; rewrite E; lra. }
  assert (Hpos : 0 < x10 ->
                 0 < x10 / py_max cap 1 /\ x10 / py_max cap 1 <= x10).
  { intro Hr. split.
    - apply Qlt_shift_div_l; lra.
    - apply Qle_shift_div_r; [lra|].
      assert (0 <= x10 * (py_max cap 1 - 1))
        by (apply Qmult_le_0_compat; lra).
      lra. }
  destruct (ltb_cases 0 x10) as [[Hr ->]|[Hr ->]].
  - destruct (Hpos Hr) as [H1 H2].
    split; [lra|]. split; [|intro; exfalso; lra].
    intros _. split; [|split; assumption].
    now rewrite py_max_Qmax.
  - split; [lra|]. split; [intro; exfalso; lra | reflexivity].
Qed.

Lemma reward_per_dollar_bounds_witness :
  match parse_market sample_env sample_raw [] with
  | Some m => 0 < reward_per_dollar m <= daily_reward m
  | None => False
  end.
Proof.
  destruct (parse_market sample_env sample_raw []) as [m|] eqn:E.
  - apply (reward_per_dollar_bounds sample_env sample_raw [] m E).
    vm_compute in E. injection E as <-. vm_compute. reflexivity.
  - vm_compute in E. discriminate E.
Defined.

(** X4.  A record that carries none of the three daily-rate fields is
    normalized with a daily reward of 0, and one that carries none of the
    three spread fields with a maximum spread of 0.  A market whose daily
    reward or maximum spread is not positive is never returned by the
    ranker, whatever the thresholds; without a positive reward its
    competition score is the sentinel 100. *)
Theorem unrewarded_market_is_never_ranked :
  forall (env : Builtins) (market event : dict) (m : RewardMarket),
    parse_market env market event = Some m ->
    (dict_lookup market "rewards" = None ->
     dict_lookup market "rewardsDailyRate" = None ->
     dict_lookup market "rewards_daily_rate" = None ->
     daily_reward m = 0)
    /\ (dict_lookup market "rewardsMaxSpread" = None ->
        dict_lookup market "rewards_max_spread" = None ->
        dict_lookup market "max_incentive_spread" = None ->
        max_spread m = 0)
    /\ (daily_reward m <= 0 \/ max_spread m <= 0 ->
        forall (cfg : Config) (all_markets : list RewardMarket),
          ~ In m (rank_markets cfg all_markets))
    /\ (daily_reward m <= 0 -> competition_score m = 100).
Proof.
  intros env market event m H.
  split; [|split; [|split]].
  - intros L1 L2 L3. open_market H. cbv beta iota delta [daily_reward].
    unfold get_float, dict_get in *. rewrite L1 in Ex8.
    rewrite L2 in Ex9. rewrite L3 in Ex10.
    vm_compute in Ex8. injection Ex8 as <-.
    vm_compute in Ex9. injection Ex9 as <-.
    vm_compute in Ex10. injection Ex10 as <-. reflexivity.
  - intros L1 L2 L3. open_market H. cbv beta iota delta [max_spread].
    unfold get_float, dict_get in *. rewrite L1 in Ex2.
    vm_compute in Ex2. injection Ex2 as <-.
    rewrite L2 in Ex4. vm_compute in Ex4. injection Ex4 as <-.
    rewrite L3 in Ex6. vm_compute in Ex6. injection Ex6 as <-.
    reflexivity.
  - intros Hno cfg all_markets Hin.
    unfold rank_markets in Hin.
    apply (Permutation_in _ (py_sort_perm _ _ _)) in Hin.
    apply filter_In in Hin. destruct Hin as [Hin _].
    apply filter_In in Hin. destruct Hin as [_ Hr].
    apply has_rewards_spec in Hr. lra.
  - intro Hr. open_market H.
    cbv beta iota delta [daily_reward competition_score] in *.
    apply ltb_ge in Hr. rewrite Hr. reflexivity.
Qed.

Lemma unrewarded_market_is_never_ranked_witness :
  match parse_market sample_env
          [("clobTokenIds", PList [PStr "1001"; PStr "1002"]);
           ("rewardsMaxSpread", PNum 5)] [] with
  | Some m =>
      daily_reward m = 0 /\ competition_score m = 100
      /\ ~ In m (rank_markets default_config [m])
  | None => False
  end.
Proof.
  destruct (parse_market sample_env _ []) as [m|] eqn:E.
  - destruct (unrewarded_market_is_never_ranked sample_env _ [] m E)
      as (Hrate & _ & Hrank & Hcomp).
    assert (Hz : daily_reward m = 0) by (apply Hrate; reflexivity).
    split; [exact Hz|].
    split; [apply Hcomp | apply Hrank; left]; rewrite Hz; lra.
  - vm_compute in E. discriminate E.
Defined.

(** X5.  The days to resolution of a normalized market are never
    negative.  The end date is [endDate] of the record, else [endDate] of
    the event, else [end_date_iso]; without one, or when it cannot be read
    as a date, the horizon is the default 365 days; a date in the past
    counts as 0 days. *)
Theorem days_to_resolution_default_and_floor :
  forall (env : Builtins) (market event : dict) (m : RewardMarket),
    parse_market env market event = Some m ->
    0 <= days_to_resolution m
    /\ end_date m
       = py_or (py_or (dict_get market "endDate" PNone)
                      (dict_get event "endDate" PNone))
               (dict_get market "end_date_iso" PNone)
    /\ (truthy (end_date m) = false -> days_to_resolution m = 365)
    /\ (days_until env (end_date m) = None -> days_to_resolution m = 365)
    /\ (forall d : Q,
          truthy (end_date m) = true ->
          days_until env (end_date m) = Some d ->
          days_to_resolution m == Qmax 0 d
          /\ (d <= 0 -> days_to_resolution m == 0)).
Proof.
  intros env market event m H. open_market H.
  cbv beta iota delta [days_to_resolution end_date].
  set (e := py_or (py_or (dict_get market "endDate" PNone)
                         (dict_get event "endDate" PNone))
                  (dict_get market "end_date_iso" PNone)).
  split; [|split; [reflexivity|split; [|split]]].
  - destruct (truthy e); [|lra].
    destruct (days_until env e) as [d|]; [|lra].
    destruct (py_max_cases 0 d) as [[? E]|[? E]]; rewrite E; lra.
  - intros ->. reflexivity.
  - intros ->. destruct (truthy e); reflexivity.
  - intros d -> ->. rewrite py_max_Qmax. split; [reflexivity|].
    intro Hd. rewrite Q.max_l; [reflexivity | exact Hd].
Qed.

Lemma days_to_resolution_default_and_floor_witness :
  match parse_market sample_env sample_raw [] with
  | Some m => days_to_resolution m = 365
  | None => False
  end.
Proof.
  destruct (parse_market sample_env sample_raw []) as [m|] eqn:E.
  - destruct (days_to_resolution_default_and_floor sample_env sample_raw [] m E)
      as (_ & Hend & Hnone & _).
    apply Hnone. rewrite Hend. reflexivity.
  - vm_compute in E. discriminate E.
Defined.

(** X6.  [parse_market] reads the raw record only through the keys of
    [market_keys]: two records that agree on these keys are normalized
    alike, so extra fields and the order of the fields do not matter. *)
Theorem parse_market_reads_only_its_keys :
  forall (env : Builtins) (market market' event : dict),
    (forall k : string,
        In k market_keys -> dict_lookup market k = dict_lookup market' k) ->
    parse_market env market event = parse_market env market' event.
Proof.
  intros env market market' event Hk.
  assert (Hg : forall (k : string) (d : pyval),
             In k market_keys -> dict_get market k d = dict_get market' k d).
  { intros k d Hin. unfold dict_get. now rewrite (Hk k Hin). }
  unfold parse_market, parse_market_body, outcome_price_list,
    get_float, get_float2.
  repeat match goal with
  | |- context [dict_get market ?k ?d] =>
      rewrite (Hg k d) by (cbv [market_keys In]; tauto)
  end.
  reflexivity.
Qed.

Lemma parse_market_reads_only_its_keys_witness :
  parse_market sample_env sample_raw_reordered []
  = parse_market sample_env sample_raw [].
Proof.
  apply parse_market_reads_only_its_keys.
  intros k Hin. cbv [market_keys In] in Hin.
  repeat (destruct Hin as [<-|Hin]; [reflexivity|]).
  contradiction.
Defined.

(** X27.  For every normalized market both scores are at most
    100; [competitionScore] is at least 0 when the liquidity is not
    negative, and [riskScore] is at least 0 when the 24h volume is not
    negative and the midpoint lies in [0, 1]. *)
Theorem scores_in_range :
  forall (env : Builtins) (market event : dict) (m : RewardMarket),
    parse_market env market event = Some m ->
    competition_score m <= 100
    /\ risk_score m <= 100
    /\ (0 <= liquidity m -> 0 <= competition_score m)
    /\ (0 <= volume_24h m -> 0 <= midpoint m <= 1 -> 0 <= risk_score m).
Proof.
  intros env market event m H.
  destruct (parse_market_fields _ _ _ _ H) as (Hd & Hr & Hc & _).
  rewrite Hr, Hc.
  split.
  { destruct (ltb 0 (daily_reward m)); [|lra].
    rewrite py_min_Qmin. apply Q.le_min_l. }
  split.
  { rewrite py_min_Qmin. apply Q.le_min_l. }
  split.
  { intro Hl. destruct (ltb_cases 0 (daily_reward m)) as [[Hp ->]|[Hp ->]]; [|lra].
    pose proof (liquidity_ratio_nonneg _ _ Hl Hp) as Hn.
    rewrite py_min_Qmin. apply Q.min_glb; lra. }
  intros Hv [Hm0 Hm1].
  assert (Ha : Qabs (midpoint m - 0.5) <= 0.5)
    by (apply Qabs_Qle_condition; lra).
  assert (Ht : 0 <= py_max 0 (50 - days_to_resolution m)).
  { destruct (py_max_cases 0 (50 - days_to_resolution m)) as [[? E]|[? E]];
      rewrite E; lra. }
  assert (Hvol : 0 <= py_min 50 (volume_24h m / 1000 * 10)).
  { rewrite py_min_Qmin. apply Q.min_glb; qlra. }
  rewrite py_min_Qmin. apply Q.min_glb; [lra|]. qlra.
Qed.

Lemma scores_in_range_witness :
  match parse_market sample_env sample_raw [] with
  | Some m => 0 <= competition_score m <= 100 /\ 0 <= risk_score m <= 100
  | None => False
  end.
Proof.
  destruct (parse_market sample_env sample_raw []) as [m|] eqn:E.
  - destruct (scores_in_range sample_env sample_raw [] m E)
      as (Hc & Hr & Hc0 & Hr0).
    assert (Em : m = match parse_market sample_env sample_raw [] with
                     | Some m' => m' | None => m end) by (now rewrite E).
    split; (split; [|assumption]).
    + apply Hc0. rewrite Em. vm_compute. discriminate.
    + apply Hr0; [|split]; rewrite Em; vm_compute; discriminate.
  - vm_compute in E. discriminate E.
Defined.

(** ** The ranker and the download loop *)

Lemma py_sort_of_sorted {A : Type} (key : A -> Q) (reverse : bool) (l : list A) :
  StronglySorted (fun a b => precedes key reverse b a = false) l ->
  py_sort key reverse l = l.
Proof.
  induction 1 as [|x l Hs IH Hall]; [reflexivity|].
  cbn [py_sort]. rewrite IH.
  destruct l as [|y l']; [reflexivity|].
  cbn [insert_sorted]. inversion Hall as [|? ? Hy _]; subst.
  now rewrite Hy.
Qed.

Lemma filter_all {A : Type} (f : A -> bool) (l : list A) :
  Forall (fun a => f a = true) l -> filter f l = l.
Proof.
  induction 1 as [|a l Ha _ IH]; [reflexivity|].
  cbn [filter]. now rewrite Ha, IH.
Qed.

Lemma rank_markets_In (cfg : Config) (all_markets : list RewardMarket)
    (m : RewardMarket) :
  In m (rank_markets cfg all_markets)
  <-> In m all_markets /\ has_rewards m = true /\ passes_filters cfg m = true.
Proof.
  unfold rank_markets. split.
  - intro H. apply (Permutation_in _ (py_sort_perm _ _ _)) in H.
    apply filter_In in H. destruct H as [H Hp].
    apply filter_In in H. tauto.
  - intros (H & Hr & Hp).
    apply (Permutation_in _ (Permutation_sym (py_sort_perm _ _ _))).
    apply filter_In. split; [|exact Hp]. apply filter_In. tauto.
Qed.

(** X7.  Ranking is idempotent: ranking an already ranked list under the
    same thresholds returns it unchanged. *)
Theorem rank_markets_idempotent :
  forall (cfg : Config) (all_markets : list RewardMarket),
    rank_markets cfg (rank_markets cfg all_markets)
    = rank_markets cfg all_markets.
Proof.
  intros cfg all_markets.
  set (out := rank_markets cfg all_markets).
  assert (Hall : forall m, In m out ->
                   has_rewards m = true /\ passes_filters cfg m = true).
  { intros m Hin. apply rank_markets_In in Hin. tauto. }
  unfold rank_markets at 1.
  rewrite (filter_all has_rewards out)
    by (apply Forall_forall; intros m Hin; apply (Hall m Hin)).
  rewrite (filter_all (passes_filters cfg) out)
    by (apply Forall_forall; intros m Hin; apply (Hall m Hin)).
  apply py_sort_of_sorted. unfold out, rank_markets. apply py_sort_sorted.
Qed.

(** X8.  Loosening the thresholds never drops a market: whatever is ranked
    under a minimum horizon, a minimum reward and a maximum competition
    score is also ranked under thresholds that are no stricter. *)
Theorem looser_thresholds_rank_more :
  forall (cfg cfg' : Config) (all_markets : list RewardMarket) (m : RewardMarket),
    (MIN_DAYS_TO_RESOLUTION cfg' <= MIN_DAYS_TO_RESOLUTION cfg)%Z ->
    MIN_DAILY_REWARD cfg' <= MIN_DAILY_REWARD cfg ->
    MAX_COMPETITION_SCORE cfg <= MAX_COMPETITION_SCORE cfg' ->
    In m (rank_markets cfg all_markets) ->
    In m (rank_markets cfg' all_markets).
Proof.
  intros cfg cfg' all_markets m Hd Hr Hc Hin.
  apply rank_markets_In in Hin. destruct Hin as (Hin & Hrew & Hp).
  apply rank_markets_In. split; [exact Hin|]. split; [exact Hrew|].
  apply passes_filters_spec in Hp. destruct Hp as (H1 & H2 & H3).
  apply passes_filters_spec.
  rewrite Zle_Qle in Hd. repeat split; lra.
Qed.

Lemma looser_thresholds_rank_more_witness :
  In (scored_market "e" 7 90 20 0.07) (rank_markets default_config sample_markets)
  /\ In (scored_market "e" 7 90 20 0.07)
        (rank_markets lenient_config sample_markets).
Proof.
  assert (Hin : In (scored_market "e" 7 90 20 0.07)
                  (rank_markets default_config sample_markets)).
  { vm_compute. left. reflexivity. }
  split; [exact Hin|].
  apply (looser_thresholds_rank_more default_config lenient_config
           sample_markets _); [| | |exact Hin]; vm_compute; discriminate.
Defined.

Lemma scan_markets_app (env : Builtins) (a b : list dict) :
  scan_markets env (a ++ b) = scan_markets env a ++ scan_markets env b.
Proof.
  induction a as [|x a IH]; [reflexivity|].
  cbn [app scan_markets]. destruct (parse_market env x []); cbn [app];
    now rewrite IH.
Qed.

(** The loop from page [j] on, when [k] more full pages precede the page
    that ends it. *)
Lemma scan_pages_until_last (env : Builtins)
    (gamma_get : nat -> result (list dict)) (k : nat) :
  forall (j fuel : nat) (acc : list RewardMarket),
    (forall i : nat, (i < k)%nat -> last_page gamma_get ((j + i) * limit) = false) ->
    last_page gamma_get ((j + k) * limit) = true ->
    (k < fuel)%nat ->
    scan_pages env gamma_get fuel (j * limit) acc
    = Some (acc ++ scan_markets env
                     (flat_map (fun i => page_records gamma_get (i * limit))
                        (seq j (Datatypes.S k)))).
Proof.
  induction k as [|k IH]; intros j fuel acc Hfull Hlast Hfuel.
  - destruct fuel as [|fuel]; [lia|].
    rewrite Nat.add_0_r in Hlast.
    cbn [scan_pages seq flat_map]. unfold last_page, page_records in *.
    destruct (gamma_get (j * limit)%nat) as [[|r p]|e];
      rewrite ?app_nil_r; cbn [scan_markets]; rewrite ?app_nil_r;
      try reflexivity.
    rewrite Hlast. reflexivity.
  - destruct fuel as [|fuel]; [lia|].
    pose proof (Hfull 0%nat ltac:(lia)) as H0. rewrite Nat.add_0_r in H0.
    cbn [scan_pages]. cbn [seq flat_map].
    unfold last_page in H0. unfold page_records at 1.
    destruct (gamma_get (j * limit)%nat) as [[|r p]|e]; try discriminate H0.
    rewrite H0.
    replace (j * limit + limit)%nat with (Datatypes.S j * limit)%nat by lia.
    rewrite (IH (Datatypes.S j) fuel).
    + now rewrite scan_markets_app, app_assoc.
    + intros i Hi. replace (Datatypes.S j + i)%nat with (j + Datatypes.S i)%nat by lia.
      apply Hfull. lia.
    + replace (Datatypes.S j + k)%nat with (j + Datatypes.S k)%nat by lia.
      exact Hlast.
    + lia.
Qed.

(** X9.  The download loop asks for the pages at offsets 0, 100, 200, ...
    and stops at the first one that fails, is empty or has fewer than 100
    records.  If that is page [k], any fuel above [k] lets the loop end,
    and the result is the ranking of the records of pages 0 to [k] in
    order; a failed request ends the scan silently with what the earlier
    pages gave. *)
Theorem paged_fetch_stops_at_first_short_page :
  forall (cfg : Config) (env : Builtins)
         (gamma_get : nat -> result (list dict)) (k fuel : nat),
    (forall i : nat, (i < k)%nat -> last_page gamma_get (i * limit) = false) ->
    last_page gamma_get (k * limit) = true ->
    (k < fuel)%nat ->
    fetch_reward_markets_paged cfg env gamma_get fuel
    = Some (fetch_reward_markets cfg env
              (flat_map (fun i => page_records gamma_get (i * limit))
                 (seq 0 (Datatypes.S k)))).
Proof.
  intros cfg env gamma_get k fuel Hfull Hlast Hfuel.
  unfold fetch_reward_markets_paged, fetch_reward_markets.
  change 0%nat with (0 * limit)%nat at 1.
  rewrite (scan_pages_until_last env gamma_get k 0 fuel []);
    [reflexivity | exact Hfull | exact Hlast | exact Hfuel].
Qed.

Lemma paged_fetch_stops_at_first_short_page_witness :
  option_map (@List.length RewardMarket)
    (fetch_reward_markets_paged default_config sample_env sample_service 7)
  = Some 203%nat.
Proof.
  rewrite (paged_fetch_stops_at_first_short_page default_config sample_env
             sample_service 2 7).
  - vm_compute. reflexivity.
  - intros i Hi. destruct i as [|[|i]]; [reflexivity | reflexivity | lia].
  - reflexivity.
  - lia.
Defined.

(** ** The quote strategist, beyond the prices *)

Lemma shares_for_spec (capital p min_shares : Q) :
  0 < p ->
  min_shares <= shares_for capital p min_shares
  /\ capital <= shares_for capital p min_shares * p
  /\ (min_shares <= capital / p ->
      shares_for capital p min_shares == capital / p)
  /\ (capital / p < min_shares ->
      shares_for capital p min_shares == min_shares
      /\ capital < shares_for capital p min_shares * p).
Proof.
  intro Hp. unfold shares_for.
  pose proof Hp as Hb. apply ltb_lt in Hb. rewrite Hb.
  assert (Hcap : capital == capital / p * p) by (field; lra).
  assert (Hmul : forall s, capital / p <= s -> capital <= s * p).
  { intros s Hs. rewrite Hcap at 1. apply Qmult_le_compat_r; lra. }
  assert (Hmul' : forall s, capital / p < s -> capital < s * p).
  { intros s Hs. rewrite Hcap at 1. apply Qmult_lt_compat_r; lra. }
  destruct (py_max_cases (capital / p) min_shares) as [[H E]|[H E]]; rewrite E.
  - split; [lra|]. split; [apply Hmul; lra|]. split; intro H'.
    + lra.
    + split; [reflexivity | apply Hmul'; exact H'].
  - split; [exact H|]. split; [apply Hmul; lra|]. split; intro H'.
    + reflexivity.
    + exfalso. lra.
Qed.

Lemma bid_price_pos (cfg : Config) (m : RewardMarket) : 0 < bid_price cfg m.
Proof.
  pose proof (clamp_price_bounds
    (py_round (midpoint m - max_spread m + SPREAD_SAFETY_MARGIN cfg) 3)) as H.
  unfold bid_price. lra.
Qed.

Lemma no_bid_price_pos (cfg : Config) (m : RewardMarket) :
  0 < no_bid_price cfg m.
Proof.
  pose proof (clamp_price_bounds (py_round (1 - ask_price cfg m) 3)) as H.
  unfold no_bid_price. lra.
Qed.

(** X10.  Each submitted side is sized at least the market's minimum
    size and costs at least the capital allotted to it; it costs exactly
    the capital when [capital / price] reaches the minimum size, and more
    than the capital when the minimum size had to be imposed. *)
Theorem order_sizes_cover_capital :
  forall (cfg : Config) (m : RewardMarket) (capital : Q),
    (min_size m <= bid_shares cfg m capital
     /\ capital <= bid_shares cfg m capital * bid_price cfg m
     /\ (min_size m <= capital / bid_price cfg m ->
         bid_shares cfg m capital * bid_price cfg m == capital)
     /\ (capital / bid_price cfg m < min_size m ->
         bid_shares cfg m capital == min_size m
         /\ capital < bid_shares cfg m capital * bid_price cfg m))
    /\ (min_size m <= no_shares cfg m capital
        /\ capital <= no_shares cfg m capital * no_bid_price cfg m
        /\ (min_size m <= capital / no_bid_price cfg m ->
            no_shares cfg m capital * no_bid_price cfg m == capital)
        /\ (capital / no_bid_price cfg m < min_size m ->
            no_shares cfg m capital == min_size m
            /\ capital < no_shares cfg m capital * no_bid_price cfg m)).
Proof.
  intros cfg m capital.
  assert (Hgen : forall p, 0 < p ->
            min_size m <= shares_for capital p (min_size m)
            /\ capital <= shares_for capital p (min_size m) * p
            /\ (min_size m <= capital / p ->
                shares_for capital p (min_size m) * p == capital)
            /\ (capital / p < min_size m ->
                shares_for capital p (min_size m) == min_size m
                /\ capital < shares_for capital p (min_size m) * p)).
  { intros p Hp.
    destruct (shares_for_spec capital p (min_size m) Hp) as (H1 & H2 & H3 & H4).
    repeat split; try assumption; try (apply H4; assumption).
    intro H. rewrite (H3 H). field. lra. }
  split; [apply Hgen, bid_price_pos | apply Hgen, no_bid_price_pos].
Qed.

Lemma order_sizes_cover_capital_witness :
  let m := sample_market 0.5 0.1 2000 in
  bid_shares default_config m 500 == 2000
  /\ 500 < bid_shares default_config m 500 * bid_price default_config m.
Proof.
  intro m.
  destruct (order_sizes_cover_capital default_config m 500)
    as ((_ & _ & _ & Hmin) & _).
  apply Hmin. vm_compute. reflexivity.
Defined.

(** X11.  With a safety margin of at least half a tick (0.0005) the
    quotes stay inside the reward band: the bid is not below
    [midpoint - maxSpread] (unless that lies above 0.99) and the ask is not
    above [midpoint + maxSpread] (unless that lies below 0.01). *)
Theorem quotes_stay_in_reward_band :
  forall (cfg : Config) (m : RewardMarket),
    1 # 2000 <= SPREAD_SAFETY_MARGIN cfg ->
    (midpoint m - max_spread m <= 0.99 ->
     midpoint m - max_spread m <= bid_price cfg m)
    /\ (0.01 <= midpoint m + max_spread m ->
        ask_price cfg m <= midpoint m + max_spread m).
Proof.
  intros cfg m Hsm. unfold bid_price, ask_price. split; intro Hedge.
  - set (raw := midpoint m - max_spread m + SPREAD_SAFETY_MARGIN cfg).
    pose proof (py_round3_error raw) as He.
    apply Qabs_Qle_condition in He.
    assert (Hraw : midpoint m - max_spread m <= py_round raw 3)
      by (unfold raw in *; lra).
    destruct (clamp_price_cases (py_round raw 3)) as [[H E]|[[H E]|[H E]]];
      rewrite E; lra.
  - set (raw := midpoint m + max_spread m - SPREAD_SAFETY_MARGIN cfg).
    pose proof (py_round3_error raw) as He.
    apply Qabs_Qle_condition in He.
    assert (Hraw : py_round raw 3 <= midpoint m + max_spread m)
      by (unfold raw in *; lra).
    destruct (clamp_price_cases (py_round raw 3)) as [[H E]|[[H E]|[H E]]];
      rewrite E; lra.
Qed.

Lemma quotes_stay_in_reward_band_witness :
  let m := sample_market 0.5 0.03 20 in
  midpoint m - max_spread m <= bid_price default_config m
  /\ ask_price default_config m <= midpoint m + max_spread m.
Proof.
  intro m.
  destruct (quotes_stay_in_reward_band default_config m) as [Hb Ha].
  - vm_compute. discriminate.
  - split; [apply Hb | apply Ha]; vm_compute; discriminate.
Defined.

(** X12.  The YES bid and the NO bid of a market are ticks: with the bid
    at tick [kb] and the ask at tick [ka], the NO bid is at tick
    [1000 - ka].  For terms between 0 and 1 and a maximum spread that
    exceeds the safety margin by at least [10 ** -15], a filled pair costs
    at most 1000 ticks; at the margin it can cost more (1001 ticks for a
    midpoint of 0.0135 with maximum spread and margin 0.005). *)
Theorem quoted_pair_costs_at_most_one :
  (forall (cfg : Config) (m : RewardMarket),
      exists kb ka : Z,
        (10 <= kb <= 990)%Z /\ (10 <= ka <= 990)%Z
        /\ Strategist64.bid_price cfg m == Strategist64.tick kb
        /\ Strategist64.ask_price cfg m == Strategist64.tick ka
        /\ Strategist64.no_bid_price cfg m == Strategist64.tick (1000 - ka)
        /\ (0 <= midpoint m <= 1 -> 0 <= max_spread m <= 1 ->
            0 <= SPREAD_SAFETY_MARGIN cfg <= 1 ->
            SPREAD_SAFETY_MARGIN cfg + (1 # 1000000000000000) <= max_spread m ->
            (kb + (1000 - ka) <= 1000)%Z))
  /\ (let m := float_market 0.0135 0.005 20 in
      Strategist64.bid_price float_config m == Strategist64.tick 14
      /\ Strategist64.no_bid_price float_config m == Strategist64.tick 987).
Proof.
  split.
  - intros cfg m.
    destruct (Strategist64Facts.bid_price_tick cfg m) as (kb & Hkb & Eb).
    destruct (Strategist64Facts.no_bid_price_tick cfg m) as (ka & Hka & Ea & En).
    exists kb, ka. repeat (split; [assumption|]).
    intros Hm Hs Hg Hd.
    pose proof (Strategist64Facts.bid_le_ask cfg m Hm Hs Hg Hd) as Hle.
    rewrite Eb, Ea in Hle.
    apply Strategist64Facts.tick_le_inv in Hle; lia.
  - cbv zeta. split; vm_compute; reflexivity.
Qed.

Lemma quoted_pair_costs_at_most_one_witness :
  let m := float_market 0.5 0.1 20 in
  exists kb ka : Z,
    Strategist64.bid_price float_config m == Strategist64.tick kb
    /\ Strategist64.no_bid_price float_config m == Strategist64.tick (1000 - ka)
    /\ (kb + (1000 - ka) <= 1000)%Z.
Proof.
  intro m.
  destruct (proj1 quoted_pair_costs_at_most_one float_config m)
    as (kb & ka & _ & _ & Eb & _ & En & Hle).
  exists kb, ka. split; [exact Eb|]. split; [exact En|].
  apply Hle; vm_compute; try split; discriminate.
Defined.

(** X13.  A new position records its quote prices rounded but not
    clamped, while the orders rest at the clamped prices: the recorded
    bid (ask) is the price of the submitted order exactly when it lies in
    [0.01, 0.99].  The position starts at risk level LOW with the
    configured size. *)
Theorem recorded_quote_is_unclamped :
  forall (S : Type) (X : External S) (cfg : Config) (m : RewardMarket)
         (w : world S),
    let pos := fst (open_position X cfg m w) in
    bid_price cfg m == Qmax 0.01 (Qmin 0.99 (our_bid_price pos))
    /\ ask_price cfg m == Qmax 0.01 (Qmin 0.99 (our_ask_price pos))
    /\ (our_bid_price pos == bid_price cfg m
        <-> 0.01 <= our_bid_price pos <= 0.99)
    /\ (our_ask_price pos == ask_price cfg m
        <-> 0.01 <= our_ask_price pos <= 0.99)
    /\ market pos = m
    /\ size pos = DEFAULT_SIZE_PER_MARKET cfg
    /\ risk_level pos = LOW.
Proof.
  intros S X cfg m w pos. unfold pos, open_position, bindM.
  destruct (place_lp_orders X cfg m (DEFAULT_SIZE_PER_MARKET cfg) w) as [ids w1].
  cbn [fst our_bid_price our_ask_price market size risk_level].
  unfold bid_price, ask_price.
  assert (Hiff : forall r, r == clamp_price r <-> 0.01 <= r <= 0.99).
  { intro r.
    destruct (clamp_price_cases r) as [[H E]|[[H E]|[H E]]]; rewrite E;
      split; intro H'; lra. }
  split; [apply clamp_price_Qmax|].
  split; [apply clamp_price_Qmax|].
  split; [apply Hiff|].
  split; [apply Hiff|].
  auto.
Qed.

Lemma recorded_quote_is_unclamped_witness :
  let pos := fst (open_position sample_client default_config
                    (sample_market 0.02 0.1 20) fresh_world) in
  our_bid_price pos == - 0.075
  /\ bid_price default_config (sample_market 0.02 0.1 20) == 0.01
  /\ ~ our_bid_price pos == bid_price default_config (sample_market 0.02 0.1 20).
Proof.
  intro pos. split; [vm_compute; reflexivity|].
  split; [vm_compute; reflexivity|].
  intro H.
  apply (recorded_quote_is_unclamped nat sample_client default_config
           (sample_market 0.02 0.1 20) fresh_world) in H.
  destruct H as [H _]. vm_compute in H. apply H. reflexivity.
Defined.

(** ** The fill-risk monitor, beyond the tiers *)










(** ** The monitor and the loop as a whole *)

Module LoopFacts.

Section WithWorld.
Context {S : Type} (X : External S) (cfg : Config) (env : Builtins).





End WithWorld.

End LoopFacts.
Import LoopFacts.






(** X21.  A pass that runs to its end leaves the positions ordered most
    severe first (CRITICAL, WARNING, WATCH, SAFE) and none at the initial
    level LOW; and a pass does run to its end when the question of every
    position and of every ranked market is a string. *)
Theorem pass_orders_positions_by_severity :
  forall (S : Type) (X : External S) (cfg : Config) (env : Builtins)
         (now last_scan : Q) (markets_raw : list dict)
         (positions : list ActivePosition) (w : world S),
    let r := Orchestrator64.run_bot_iteration X cfg env now last_scan
               markets_raw positions w in
    (snd (fst r) = Ok tt ->
     StronglySorted
       (fun a b => risk_order (risk_level a) <= risk_order (risk_level b))
       (fst (fst (fst r)))
     /\ Forall (fun p => risk_level p <> LOW) (fst (fst (fst r))))
    /\ (Forall (fun p => is_text (question (market p)) = true) positions ->
        Forall (fun m => is_text (question m) = true)
          (fetch_reward_markets cfg env markets_raw) ->
        snd (fst r) = Ok tt).
Proof.
  intros S X cfg env now last_scan markets_raw positions w r.
  assert (Hdec : fetch_reward_markets cfg env markets_raw = []
                 \/ fetch_reward_markets cfg env markets_raw <> []).
  { destruct (fetch_reward_markets cfg env markets_raw);
      [left; reflexivity | right; discriminate]. }
  assert (Htop : Forall (fun m => is_text (question m) = true)
                   (fetch_reward_markets cfg env markets_raw) ->
                 Forall (fun m => is_text (question m) = true)
                   (slice_to (MAX_MARKETS cfg)
                      (fetch_reward_markets cfg env markets_raw))).
  { intro Hmk.
    destruct (slice_to_prefix (MAX_MARKETS cfg)
                (fetch_reward_markets cfg env markets_raw)) as [later E].
    rewrite E in Hmk. apply Forall_app in Hmk. apply Hmk. }
  destruct (Orchestrator64.rescan_due now last_scan positions) eqn:Hdue.
  - destruct Hdec as [Em|Hm].
    + destruct (pass_keeps X cfg env now last_scan markets_raw positions w
                  (or_intror Em)) as (_ & _ & _ & Hok & Htext).
      fold r in Hok, Htext. split; [exact Hok | intros Hp _; exact (Htext Hp)].
    + destruct (Orchestrator64.all_sliceable
                  (slice_to (MAX_MARKETS cfg)
                     (fetch_reward_markets cfg env markets_raw))) eqn:Hall.
      * destruct (pass_requotes X cfg env now last_scan markets_raw positions w
                    Hdue Hm Hall) as (_ & _ & _ & Hok & Htext).
        fold r in Hok, Htext. split; [exact Hok|].
        intros _ Hmk. apply Htext, Htop, Hmk.
      * destruct (pass_aborts X cfg env now last_scan markets_raw positions w
                    Hdue Hm Hall) as (_ & _ & _ & _ & Hout).
        fold r in Hout. rewrite Hout. split; [discriminate|].
        intros _ Hmk. exfalso. apply Htop in Hmk.
        assert (Hall' : Orchestrator64.all_sliceable
                          (slice_to (MAX_MARKETS cfg)
                             (fetch_reward_markets cfg env markets_raw)) = true).
        { unfold Orchestrator64.all_sliceable. apply forallb_forall.
          intros x Hx. apply is_text_sliceable.
          rewrite Forall_forall in Hmk. apply Hmk, Hx. }
        congruence.
  - destruct (pass_keeps X cfg env now last_scan markets_raw positions w
                (or_introl Hdue)) as (_ & _ & _ & Hok & Htext).
    fold r in Hok, Htext. split; [exact Hok | intros Hp _; exact (Htext Hp)].
Qed.

Lemma pass_orders_positions_by_severity_witness :
  let r := Orchestrator64.run_bot_iteration sample_client float_config
             sample_env 7200 0 [sample_raw] float_positions fresh_world in
  snd (fst r) = Ok tt
  /\ Forall (fun p => risk_level p <> LOW) (fst (fst (fst r))).
Proof.
  intro r.
  destruct (pass_orders_positions_by_severity nat sample_client float_config
              sample_env 7200 0 [sample_raw] float_positions fresh_world)
    as [Hok Htext].
  fold r in Hok, Htext.
  assert (E : snd (fst r) = Ok tt).
  { apply Htext; vm_compute; repeat constructor. }
  split; [exact E | apply (Hok E)].
Defined.

(** X22.  On shutdown the stop notification is sent exactly once, after
    the last cancellation, when both credentials are set, and not at all
    otherwise; nothing else is called. *)
Theorem shutdown_notifies_once_after_cancelling :
  forall (S : Type) (X : External S) (cfg : Config)
         (positions : list ActivePosition) (w : world S),
    calls (snd (handle_signal X cfg positions w))
    = calls w ++ map CallCancel (flat_map held_ids positions)
      ++ (if telegram_enabled cfg then [CallTelegram MsgStopped] else []).
Proof.
  intros S X cfg positions w. unfold handle_signal, bindM.
  pose proof (cancel_loop_calls X positions w) as H1.
  destruct (for_each positions (cancel_position X) w) as [u w1].
  cbn [snd] in H1.
  rewrite send_telegram_exact, H1, <- app_assoc. reflexivity.
Qed.

(** ** Scanning and requoting at the edges *)

Lemma scan_markets_In (env : Builtins) (markets_raw : list dict) (m : RewardMarket) :
  In m (scan_markets env markets_raw)
  <-> exists market : dict,
        In market markets_raw /\ parse_market env market [] = Some m.
Proof.
  induction markets_raw as [|x l IH]; cbn [scan_markets].
  - split; [contradiction | intros (market & [] & _)].
  - destruct (parse_market env x []) as [m'|] eqn:E.
    + cbn [In]. rewrite IH. split.
      * intros [->|(market & Hin & Hp)].
        -- exists x. split; [left; reflexivity | exact E].
        -- exists market. split; [right; exact Hin | exact Hp].
      * intros (market & [->|Hin] & Hp).
        -- left. congruence.
        -- right. exists market. auto.
    + rewrite IH. split.
      * intros (market & Hin & Hp). exists market. split; [right; exact Hin | exact Hp].
      * intros (market & [->|Hin] & Hp); [congruence|].
        exists market. auto.
Qed.

(** X23.  A record the normalizer rejects has no effect on a scan: the
    ranking is the same as if the record had not been delivered.  Every
    ranked market is the normalization of one of the delivered records,
    and there are at most as many as records. *)
Theorem rejected_record_leaves_scan_unchanged :
  forall (cfg : Config) (env : Builtins) (before after : list dict) (bad : dict),
    parse_market env bad [] = None ->
    fetch_reward_markets cfg env (before ++ bad :: after)
    = fetch_reward_markets cfg env (before ++ after)
    /\ (forall m : RewardMarket,
          In m (fetch_reward_markets cfg env (before ++ bad :: after)) ->
          exists market : dict,
            In market (before ++ after)
            /\ parse_market env market [] = Some m)
    /\ (List.length (fetch_reward_markets cfg env (before ++ bad :: after))
        <= List.length (before ++ after))%nat.
Proof.
  intros cfg env before after bad Hbad.
  assert (E : scan_markets env (before ++ bad :: after)
              = scan_markets env (before ++ after)).
  { rewrite !scan_markets_app. cbn [scan_markets]. now rewrite Hbad. }
  unfold fetch_reward_markets. rewrite E.
  split; [reflexivity|]. split.
  - intros m Hin. apply rank_markets_In in Hin. destruct Hin as [Hin _].
    now apply scan_markets_In.
  - unfold rank_markets.
    rewrite (Permutation_length (py_sort_perm _ _ _)).
    eapply Nat.le_trans; [apply filter_length_le|].
    eapply Nat.le_trans; [apply filter_length_le|].
    generalize (before ++ after). intro l.
    induction l as [|x l IH]; cbn [scan_markets List.length]; [lia|].
    destruct (parse_market env x []); cbn [List.length]; lia.
Qed.

Lemma rejected_record_leaves_scan_unchanged_witness :
  fetch_reward_markets default_config sample_env
    ([sample_raw] ++ sample_raw_bad_tokens :: [sample_raw_with_book])
  = fetch_reward_markets default_config sample_env
      ([sample_raw] ++ [sample_raw_with_book]).
Proof.
  apply (rejected_record_leaves_scan_unchanged default_config sample_env
           [sample_raw] [sample_raw_with_book] sample_raw_bad_tokens).
  reflexivity.
Defined.

Lemma place_side_raises {S : Type} (X : External S) (order : OrderArgs)
    (w : world S) :
  (exists e : exn, fst (post_order X order (ext_state w)) = Raise e) ->
  fst (place_side X order w) = None.
Proof.
  intros [e He]. unfold place_side, bindM, call_ext, ret.
  destruct (post_order X order (ext_state w)) as [r s']. cbn [fst] in He.
  subst r. reflexivity.
Qed.

Lemma place_side_fails {S : Type} (X : External S) (order : OrderArgs)
    (w : world S) :
  (forall (o : OrderArgs) (s : S),
      exists e : exn, fst (post_order X o s) = Raise e) ->
  fst (place_side X order w) = None.
Proof. intro Hfail. apply place_side_raises, Hfail. Qed.

(** X24.  A position is created for every quoted market even when the
    client rejects both of its orders: with a client whose every
    submission raises, the requote loop over markets whose questions can
    be sliced still runs to its end and yields one position per market,
    none of which holds an order id, so a later shutdown has nothing to
    cancel for them. *)
Theorem failed_quotes_still_open_positions :
  forall (S : Type) (X : External S) (cfg : Config)
         (markets : list RewardMarket) (w : world S),
    (forall (order : OrderArgs) (s : S),
        exists e : exn, fst (post_order X order s) = Raise e) ->
    Orchestrator64.all_sliceable markets = true ->
    let r := fst (Orchestrator64.open_positions X cfg markets [] w) in
    snd r = Ok tt
    /\ map market (fst r) = markets
    /\ Forall (fun p => order_id_yes p = None /\ order_id_no p = None) (fst r)
    /\ flat_map held_ids (fst r) = [].
Proof.
  intros S X cfg markets w Hfail Hall r.
  destruct (open_positions_spec X cfg markets [] w)
    as (_ & (opened & E & Hmk & _) & Hout).
  fold r in E, Hout. cbn [app] in E. rewrite Hall in Hout.
  rewrite (quoted_prefix_all markets Hall) in Hmk.
  split; [exact Hout|]. split; [now rewrite E|].
  assert (Hids : forall (acc : list ActivePosition) (w0 : world S),
            Forall (fun p => order_id_yes p = None /\ order_id_no p = None) acc ->
            Forall (fun p => order_id_yes p = None /\ order_id_no p = None)
              (fst (fst (Orchestrator64.open_positions X cfg markets acc w0)))).
  { clear - Hfail. induction markets as [|m rest IH]; intros acc w0 Hacc.
    - exact Hacc.
    - cbn [Orchestrator64.open_positions]. unfold bindM.
      unfold Orchestrator64.open_position.
      destruct (py_slice (question m) 60) as [q|e]; [|exact Hacc].
      unfold Strategist64.place_lp_orders, bindM.
      match goal with
      | |- context [place_side X ?o w0] =>
          pose proof (place_side_fails X o w0 Hfail) as H1;
          destruct (place_side X o w0) as [i1 w1]
      end.
      match goal with
      | |- context [place_side X ?o w1] =>
          pose proof (place_side_fails X o w1 Hfail) as H2;
          destruct (place_side X o w1) as [i2 w2]
      end.
      cbn [fst snd ret] in *. subst i1 i2.
      apply IH. apply Forall_app. split; [exact Hacc|].
      constructor; [|constructor]. cbn. auto. }
  specialize (Hids [] w (Forall_nil _)). fold r in Hids.
  split; [exact Hids|].
  clear - Hids. induction Hids as [|p l [Hy Hn] _ IH]; [reflexivity|].
  cbn [flat_map]. rewrite IH. unfold held_ids. rewrite Hy, Hn. reflexivity.
Qed.

Lemma failed_quotes_still_open_positions_witness :
  let r := fst (Orchestrator64.open_positions failing_client float_config
                  sample_markets [] fresh_world) in
  List.length (fst r) = 5%nat /\ flat_map held_ids (fst r) = [].
Proof.
  intro r.
  destruct (failed_quotes_still_open_positions nat failing_client
              float_config sample_markets fresh_world)
    as (_ & Hm & _ & Hh).
  - intros order s. exists ClientError. reflexivity.
  - reflexivity.
  - split; [|exact Hh].
    fold r in Hm. rewrite <- (length_map market), Hm. reflexivity.
Defined.

(** X25.  How many markets a refresh quotes when the questions of the top
    markets can be sliced: with a non-negative [MAX_MARKETS], the smaller
    of it and the number of ranked markets, so none at 0 (the old orders
    are cancelled all the same); with a negative [MAX_MARKETS], all ranked
    markets but the last [- MAX_MARKETS]. *)
Theorem refresh_quotes_a_python_slice :
  forall (S : Type) (X : External S) (cfg : Config)
         (markets : list RewardMarket) (positions : list ActivePosition)
         (w : world S),
    markets <> [] ->
    Orchestrator64.all_sliceable (slice_to (MAX_MARKETS cfg) markets) = true ->
    let r := Orchestrator64.refresh_positions X cfg markets positions w in
    snd (fst r) = Ok tt
    /\ ((0 <= MAX_MARKETS cfg)%Z ->
        List.length (fst (fst r))
        = Nat.min (Z.to_nat (MAX_MARKETS cfg)) (List.length markets))
    /\ ((MAX_MARKETS cfg < 0)%Z ->
        List.length (fst (fst r))
        = (List.length markets - Z.to_nat (- MAX_MARKETS cfg))%nat)
    /\ (MAX_MARKETS cfg = 0%Z ->
        fst (fst r) = []
        /\ exists notes : list Call,
             calls (snd r)
             = calls w ++ map CallCancel (flat_map held_ids positions) ++ notes
             /\ forallb is_passive_call notes = true).
Proof.
  intros S X cfg markets positions w Hm Hall r.
  destruct (Orchestrator64Facts.refresh_positions_spec X cfg markets positions w Hm)
    as ((notes & Hc & Hn & _) & Hmap & _ & Hout).
  fold r in Hc, Hmap, Hout. rewrite Hall in Hout.
  rewrite (quoted_prefix_all _ Hall) in Hc, Hmap.
  assert (Hlen : List.length (fst (fst r))
                 = List.length (slice_to (MAX_MARKETS cfg) markets))
    by (now rewrite <- Hmap, length_map).
  split; [exact Hout|]. split; [|split].
  - intro H. rewrite Hlen. unfold slice_to.
    apply Z.leb_le in H. rewrite H. apply length_firstn.
  - intro H. rewrite Hlen. unfold slice_to.
    apply Z.leb_gt in H. rewrite H. rewrite length_firstn. lia.
  - intro H0. rewrite H0 in Hlen, Hc. cbn in Hlen.
    split; [destruct (fst (fst r)); [reflexivity | discriminate Hlen]|].
    exists notes. split; [|exact Hn].
    rewrite Hc. cbn [slice_to Z.leb Z.compare Z.to_nat firstn flat_map app].
    reflexivity.
Qed.

Lemma refresh_quotes_a_python_slice_witness :
  List.length
    (fst (fst (Orchestrator64.refresh_positions sample_client trimming_config
                 sample_markets float_positions fresh_world)))
  = 3%nat.
Proof.
  destruct (refresh_quotes_a_python_slice nat sample_client trimming_config
              sample_markets float_positions fresh_world)
    as (_ & _ & Hneg & _); [discriminate | reflexivity |].
  rewrite Hneg; [reflexivity | reflexivity].
Defined.

(** X26.  A top-ranked market whose question cannot be sliced ends the
    requote where it stands: the orders of the old positions have been
    cancelled, the markets ranked before it are quoted and hold the only
    positions, at level LOW; nothing is submitted for it or for the
    markets after it, no midpoint is read, the handler sends the error
    notification when both credentials are set, and the time of the last
    scan stays as it was.  When it is the first market, no position is
    left, so the next pass scans again whatever the time. *)
Theorem unsliceable_question_aborts_requote :
  forall (S : Type) (X : External S) (cfg : Config) (env : Builtins)
         (now last_scan : Q) (markets_raw : list dict)
         (positions : list ActivePosition) (w : world S),
    let markets := fetch_reward_markets cfg env markets_raw in
    let top := slice_to (MAX_MARKETS cfg) markets in
    let quoted := Orchestrator64.quoted_prefix top in
    let r := Orchestrator64.run_bot_iteration X cfg env now last_scan
               markets_raw positions w in
    Orchestrator64.rescan_due now last_scan positions = true ->
    markets <> [] -> Orchestrator64.all_sliceable top = false ->
    calls (snd r)
    = calls w ++ map CallCancel (flat_map held_ids positions)
      ++ flat_map (Strategist64.quote_calls cfg (DEFAULT_SIZE_PER_MARKET cfg))
           quoted
      ++ (if telegram_enabled cfg
          then [CallTelegram (MsgBotError TypeError)] else [])
    /\ map market (fst (fst (fst r))) = quoted
    /\ Forall (fun p => risk_level p = LOW) (fst (fst (fst r)))
    /\ (exists (bad : RewardMarket) (later : list RewardMarket),
           top = quoted ++ bad :: later /\ sliceable (question bad) = false
           /\ Forall (fun m => sliceable (question m) = true) quoted)
    /\ snd (fst (fst r)) = last_scan
    /\ snd (fst r) = Raise TypeError
    /\ (quoted = [] ->
        fst (fst (fst r)) = []
        /\ forall later_now : Q,
             Orchestrator64.rescan_due later_now last_scan (fst (fst (fst r)))
             = true).
Proof.
  intros S X cfg env now last_scan markets_raw positions w markets top quoted r
    Hdue Hm Hall.
  destruct (pass_aborts X cfg env now last_scan markets_raw positions w
              Hdue Hm Hall) as (Hc & Hmk & Hl & Hls & Hout).
  fold markets top quoted r in Hc, Hmk, Hl, Hls, Hout.
  split; [exact Hc|]. split; [exact Hmk|]. split; [exact Hl|].
  split.
  { unfold quoted. clear - Hall. unfold Orchestrator64.all_sliceable in Hall.
    induction top as [|m rest IH]; [discriminate|].
    cbn [forallb Orchestrator64.quoted_prefix] in *.
    destruct (sliceable (question m)) eqn:E.
    - destruct (IH Hall) as (bad & later & Et & Hb & Hq).
      exists bad, later. split; [cbn [app]; now rewrite <- Et|].
      split; [exact Hb | constructor; assumption].
    - exists m, rest. split; [reflexivity|]. split; [exact E | constructor]. }
  split; [exact Hls|]. split; [exact Hout|].
  intro Hq. rewrite Hq in Hmk.
  assert (E : fst (fst (fst r)) = [])
    by (destruct (fst (fst (fst r))); [reflexivity | discriminate Hmk]).
  split; [exact E|]. intro later_now. rewrite E.
  unfold Orchestrator64.rescan_due. apply orb_true_r.
Qed.

Lemma unsliceable_question_aborts_requote_witness :
  let r := Orchestrator64.run_bot_iteration sample_client
             notifying_float_config sample_env 7200 0
             [sample_raw_null_question; sample_raw] float_positions
             fresh_world in
  calls (snd r)
  = [CallCancel "0xa1"; CallCancel "0xa2"; CallCancel "0xb2";
     CallTelegram (MsgBotError TypeError)]
  /\ fst (fst (fst r)) = []
  /\ snd (fst (fst r)) = 0
  /\ snd (fst r) = Raise TypeError.
Proof.
  intro r.
  assert (Hdue : Orchestrator64.rescan_due 7200 0 float_positions = true)
    by (vm_compute; reflexivity).
  assert (Hm : fetch_reward_markets notifying_float_config sample_env
                 [sample_raw_null_question; sample_raw] <> [])
    by (vm_compute; discriminate).
  assert (Hall : Orchestrator64.all_sliceable
                   (slice_to (MAX_MARKETS notifying_float_config)
                      (fetch_reward_markets notifying_float_config sample_env
                         [sample_raw_null_question; sample_raw]))
                 = false) by (vm_compute; reflexivity).
  destruct (unsliceable_question_aborts_requote nat sample_client
              notifying_float_config sample_env 7200 0
              [sample_raw_null_question; sample_raw] float_positions
              fresh_world Hdue Hm Hall)
    as (Hc & _ & _ & _ & Hls & Hout & Hnone).
  fold r in Hc, Hls, Hout, Hnone.
  split; [rewrite Hc; vm_compute; reflexivity|].
  split; [apply Hnone; vm_compute; reflexivity|].
  split; [exact Hls | exact Hout].
Defined.

Lemma quoted_prefix_sliceable (markets : list RewardMarket) :
  Forall (fun m => sliceable (question m) = true)
    (Orchestrator64.quoted_prefix markets).
Proof.
  induction markets as [|m rest IH]; [constructor|].
  cbn [Orchestrator64.quoted_prefix].
  destruct (sliceable (question m)) eqn:E; constructor; assumption.
Qed.

Lemma Forall_market_map (P : RewardMarket -> Prop) (l : list ActivePosition) :
  Forall P (map market l) <-> Forall (fun p => P (market p)) l.
Proof. apply Forall_map. Qed.

(** X28.  The questions of the positions the loop holds can always be
    sliced: the requote loop slices the question of a market before it
    quotes it, and the monitor changes nothing of a position but its
    level.  So no pass leaves a position whose question the alert
    branches of the monitor could not slice, and on the positions of the
    loop the monitor always returns its alerts. *)
Theorem loop_positions_have_sliceable_questions :
  forall (S : Type) (X : External S) (cfg : Config) (env : Builtins)
         (now last_scan : Q) (markets_raw : list dict)
         (positions : list ActivePosition) (w : world S),
    let r := Orchestrator64.run_bot_iteration X cfg env now last_scan
               markets_raw positions w in
    Forall (fun p => sliceable (question (market p)) = true) positions ->
    Forall (fun p => sliceable (question (market p)) = true)
      (fst (fst (fst r)))
    /\ forall w' : world S,
         exists alerts : list Message,
           fst (fst (Monitor64.check_fill_risk X cfg env
                       (fst (fst (fst r))) w'))
           = Ok alerts.
Proof.
  intros S X cfg env now last_scan markets_raw positions w r Hpos.
  assert (Hinv : Forall (fun p => sliceable (question (market p)) = true)
                   (fst (fst (fst r)))).
  { assert (Hkeep :
      forall ps : list ActivePosition,
        Forall2 Orchestrator64.same_orders positions ps ->
        Forall (fun p => sliceable (question (market p)) = true) ps).
    { intros ps S2. induction S2 as [|a b l l' Hab _ IH]; [constructor|].
      inversion Hpos as [|? ? Ha Hl]; subst.
      constructor; [|apply IH, Hl].
      destruct (same_orders_fields a b Hab) as (-> & _). exact Ha. }
    assert (Hdec : fetch_reward_markets cfg env markets_raw = []
                   \/ fetch_reward_markets cfg env markets_raw <> []).
    { destruct (fetch_reward_markets cfg env markets_raw);
        [left; reflexivity | right; discriminate]. }
    destruct (Orchestrator64.rescan_due now last_scan positions) eqn:Hdue.
    - destruct Hdec as [Em|Hm].
      + destruct (pass_keeps X cfg env now last_scan markets_raw positions w
                    (or_intror Em)) as (_ & (ps & S2 & Pm) & _).
        fold r in Pm. apply (Permutation_Forall Pm), Hkeep, S2.
      + destruct (Orchestrator64.all_sliceable
                    (slice_to (MAX_MARKETS cfg)
                       (fetch_reward_markets cfg env markets_raw))) eqn:Hall.
        * destruct (pass_requotes X cfg env now last_scan markets_raw
                      positions w Hdue Hm Hall) as (_ & Hperm & _).
          fold r in Hperm.
          apply (Forall_market_map (fun m => sliceable (question m) = true)).
          apply (Permutation_Forall (Permutation_sym Hperm)).
          unfold Orchestrator64.all_sliceable in Hall.
          rewrite forallb_forall in Hall. apply Forall_forall. exact Hall.
        * destruct (pass_aborts X cfg env now last_scan markets_raw
                      positions w Hdue Hm Hall) as (_ & Hmk & _).
          fold r in Hmk.
          apply (Forall_market_map (fun m => sliceable (question m) = true)).
          rewrite Hmk. apply quoted_prefix_sliceable.
    - destruct (pass_keeps X cfg env now last_scan markets_raw positions w
                  (or_introl Hdue)) as (_ & (ps & S2 & Pm) & _).
      fold r in Pm. apply (Permutation_Forall Pm), Hkeep, S2. }
  split; [exact Hinv|].
  intro w'.
  destruct (check_fill_risk_spec X cfg env (fst (fst (fst r))) w' Hinv)
    as (alerts & _ & E & _).
  exists alerts. exact E.
Qed.

Lemma loop_positions_have_sliceable_questions_witness :
  let r := Orchestrator64.run_bot_iteration sample_client
             notifying_float_config sample_env 7200 0
             [sample_raw; sample_raw_null_question] float_positions
             fresh_world in
  Forall (fun p => sliceable (question (market p)) = true)
    (fst (fst (fst r))).
Proof.
  intro r.
  apply (loop_positions_have_sliceable_questions nat sample_client
           notifying_float_config sample_env 7200 0
           [sample_raw; sample_raw_null_question] float_positions
           fresh_world).
  vm_compute. repeat constructor.
Defined.
